(** * lire_donnees_excel : lecture, collecte et raboutage de séries temporelles

    Shallow embedding of [lire_donnees_excel.py].

    - Timestamps (pandas [Timestamp] labels and the "dernière date" keys)
      are integers [Z]; the program only compares and sorts them.
    - A cell is [option V]: [None] is pandas' missing value (NaN), [Some x]
      a present value.  The program copies cell contents and never computes
      on them, so the development is parametric in [V].
    - Python dicts are insertion-ordered association lists ([dict]).
    - DataFrames are objects: the ledgers hold references into a heap
      ([tas]) and [DataFrame.update] writes through its reference.
    - Functions that print, read files, allocate or raise live in the
      monad [M] over the state [monde]. *)

From stdpp Require Import base list strings sorting.
From Stdlib Require Import ZArith Lia Ascii.

Local Open Scope Z_scope.

(** ** Python exceptions raised by the program or by the libraries it calls *)

Inductive exception : Type :=
| NoSectionError (section : string)
| NoOptionError (section option : string)
| ValueError
| KeyError
| IndexError
| TypeError
| UnboundLocalError
| IOError
| ReferenceError
| ErreurLecture (fic onglet : string).

(** A pure computation that may raise. *)
Definition resultat_ou_erreur (A : Type) : Type := exception + A.

(** ** Python dictionaries

    Keys are kept in insertion order; [dict_set] on an existing key
    replaces the value in place, on a new key it appends. *)

Section Dict.
Context {K A : Type} `{EqDecision K}.

Definition dict : Type := list (K * A).

Fixpoint dict_get (k : K) (d : dict) : option A :=
  match d with
  | [] => None
  | (k', a) :: d' => if decide (k = k') then Some a else dict_get k d'
  end.

Fixpoint dict_set (k : K) (a : A) (d : dict) : dict :=
  match d with
  | [] => [(k, a)]
  | (k', a') :: d' =>
      if decide (k = k') then (k, a) :: d' else (k', a') :: dict_set k a d'
  end.

Definition dict_keys (d : dict) : list K := d.*1.

(** [k in d] *)
Definition dict_in (k : K) (d : dict) : bool :=
  match dict_get k d with Some _ => true | None => false end.
End Dict.

Arguments dict : clear implicits.

(** [d1 == d2] on Python dicts: same keys, same values, whatever the
    insertion order. *)
Definition dict_eq {K A} `{EqDecision K} (d1 d2 : dict K A) : Prop :=
  ∀ k, dict_get k d1 = dict_get k d2.

(** ** Strings: [str.split] and [str.strip] *)

(** [s.split(sep)] for a one-character separator: n separators give n+1
    fields, none is dropped. *)
Fixpoint split (sep : ascii) (s : string) : list string :=
  match s with
  | EmptyString => [EmptyString]
  | String c r =>
      if decide (c = sep) then EmptyString :: split sep r
      else match split sep r with
           | [] => [String c EmptyString]
           | w :: ws => String c w :: ws
           end
  end.

(** Characters removed by [str.strip()]: the whitespace code points below
    256. *)
Definition isspace (c : ascii) : bool :=
  let n := nat_of_ascii c in
  ((9 <=? n)%nat && (n <=? 13)%nat) || ((28 <=? n)%nat && (n <=? 32)%nat)
  || (n =? 133)%nat || (n =? 160)%nat.

Fixpoint lstrip (s : string) : string :=
  match s with
  | EmptyString => EmptyString
  | String c r => if isspace c then lstrip r else s
  end.

Definition strip (s : string) : string :=
  String.rev (lstrip (String.rev (lstrip s))).

Definition saut_de_ligne : ascii := ascii_of_nat 10.
Definition deux_points : ascii := ascii_of_nat 58.

(** ** _extraire_col_params (lines 51-77) *)

Definition _extraire_ligne (resultat : dict string (list string)) (ligne : string)
  : resultat_ou_erreur (dict string (list string)) :=
  match split deux_points ligne with
  | [k; v] =>
      let k := strip k in
      let v := strip v in
      let resultat :=
        if dict_in k resultat then resultat else dict_set k [] resultat in
      inr (dict_set k (default [] (dict_get k resultat) ++ [v]) resultat)
  | _ => inl ValueError
  end.

Fixpoint _extraire_lignes (lignes : list string) (resultat : dict string (list string))
  : resultat_ou_erreur (dict string (list string)) :=
  match lignes with
  | [] => inr resultat
  | ligne :: reste =>
      match _extraire_ligne resultat ligne with
      | inl e => inl e
      | inr resultat => _extraire_lignes reste resultat
      end
  end.

Definition _extraire_col_params (str_colonnes : string)
  : resultat_ou_erreur (dict string (list string)) :=
  _extraire_lignes (split saut_de_ligne str_colonnes) [].

(** ** configparser

    A parsed .ini file: sections, each a dict of options.  [config_get] is
    [RawConfigParser.get]. *)

Definition config : Type := dict string (dict string string).

Definition config_get (cfg : config) (section option : string)
  : resultat_ou_erreur string :=
  match dict_get section cfg with
  | None => inl (NoSectionError section)
  | Some s =>
      match dict_get option s with
      | None => inl (NoOptionError section option)
      | Some v => inr v
      end
  end.

(** lire_param_format (lines 79-99) *)
Definition lire_param_format (cfg : config) (nom_section : string)
  : resultat_ou_erreur (dict string (list string)) :=
  match config_get cfg nom_section "col_params" with
  | inl e => inl e
  | inr str_colonnes => _extraire_col_params (strip str_colonnes)
  end.

(** Values stored in the [params] dict of [get_params]: strings and the
    extraction dict. *)
Inductive valeur_param : Type :=
| PStr (s : string)
| PDict (d : dict string (list string)).

(** get_params (lines 21-47), on the parsed content of [input_file]. *)
Definition get_params (cfg : config) : resultat_ou_erreur (dict string valeur_param) :=
  match config_get cfg "params" "FORMAT_DONNEES" with
  | inl e => inl e
  | inr f =>
      let params := dict_set "FORMAT_DONNEES" (PStr (strip f)) [] in
      match config_get cfg "params" "FICHIERS_INPUT" with
      | inl e => inl e
      | inr fi =>
          let params := dict_set "FICHIERS_INPUT" (PStr fi) params in
          match config_get cfg "params" "RESULTATS" with
          | inl e => inl e
          | inr r =>
              let params := dict_set "RESULTATS" (PStr r) params in
              match lire_param_format cfg (strip f) with
              | inl e => inl e
              | inr d => inr (dict_set (strip f) (PDict d) params)
              end
          end
      end
  end.

(** ** pandas: the DataFrame operations the program calls

    Labels may repeat in an index and in the columns, as pandas allows;
    where the behaviour depends on it the model follows pandas 2: [reindex]
    refuses an index with duplicate labels, [update] aligns [other] on the
    index of [self] and lets the present cells of [other] win. *)

Section Pandas.
Context {V : Type}.

(** A table: column labels, and rows in index order, each row carrying
    its index label and one cell per column. *)
Record DataFrame : Type := mkDataFrame {
  columns : list string;
  lignes : list (Z * list (option V))
}.

(** [df.index] *)
Definition index (df : DataFrame) : list Z := (lignes df).*1.

(** Position of the first column labelled [c]. *)
Fixpoint position (c : string) (cols : list string) : option nat :=
  match cols with
  | [] => None
  | c' :: r => if decide (c = c') then Some 0%nat else S <$> position c r
  end.

(** Cell [j] of a row; [None] when missing. *)
Definition cellule (r : list (option V)) (j : nat) : option V :=
  mjoin (r !! j).

(** The cell of a row under the column labelled [c]. *)
Definition cellule_nommee (cols : list string) (r : list (option V))
    (c : string) : option V :=
  match position c cols with
  | Some j => cellule r j
  | None => None
  end.

(** [df.at[t, c]], with [None] for a missing cell and also when [t] is
    not in the index or [c] is not a column. *)
Definition valeur_en (df : DataFrame) (t : Z) (c : string) : option V :=
  match dict_get t (lignes df) with
  | Some r => cellule_nommee (columns df) r c
  | None => None
  end.

(** Remove one occurrence of [x]. *)
Fixpoint retirer (x : Z) (l : list Z) : list Z :=
  match l with
  | [] => []
  | y :: r => if decide (x = y) then r else y :: retirer x r
  end.

(** [a.union(b)] (sort=None): [a] itself when [b] is empty or equal to
    [a], [b] when [a] is empty; otherwise the sorted union, a label
    repeated as often as in the index that repeats it most. *)
Definition index_union (a b : list Z) : list Z :=
  if decide (b = [] ∨ a = b) then a
  else if decide (a = []) then b
  else merge_sort Z.le (a ++ foldr retirer b a).

(** A row of missing cells. *)
Definition ligne_vide (df : DataFrame) : list (option V) :=
  replicate (length (columns df)) None.

(** [df.reindex(index=new_index)]: a new object; the rows of [df] found
    by label, a row of missing cells for a label [df] does not have.
    pandas refuses to reindex an index with duplicate labels, except
    onto an identical index, which yields a copy. *)
Definition reindex (df : DataFrame) (new_index : list Z)
  : resultat_ou_erreur DataFrame :=
  if decide (index df = new_index) then inr df
  else if decide (NoDup (index df)) then
    inr {| columns := columns df;
           lignes := (λ t, (t, default (ligne_vide df) (dict_get t (lignes df))))
                       <$> new_index |}
  else inl ValueError.

(** One row of [self.update(other)]: in every column of [self] that
    [other] also has, the cell of [other] replaces the cell of [self]
    when it is present. *)
Definition update_ligne (cols_self cols_other : list string)
    (this that : list (option V)) : list (option V) :=
  imap (λ j x,
          match cols_self !! j with
          | Some c =>
              match cellule_nommee cols_other that c with
              | Some v => Some v
              | None => x
              end
          | None => x
          end) this.

(** [self.update(other)] (join='left', overwrite=True): [other] is first
    reindexed onto [self.index], then merged row by row.  The value
    returned is the new content of the object [self]. *)
Definition update (self other : DataFrame) : resultat_ou_erreur DataFrame :=
  match reindex other (index self) with
  | inl e => inl e
  | inr other =>
      inr {| columns := columns self;
             lignes := zip_with
                         (λ l l', (l.1, update_ligne (columns self) (columns other) l.2 l'.2))
                         (lignes self) (lignes other) |}
  end.

(** [df.sort_index()]: rows ordered by label. *)
Definition avant (l l' : Z * list (option V)) : Prop := l.1 ≤ l'.1.

#[global] Instance avant_dec : RelDecision avant := λ l l', decide (l.1 ≤ l'.1).

Definition sort_index (df : DataFrame) : DataFrame :=
  {| columns := columns df; lignes := merge_sort avant (lignes df) |}.

(** [df[cols]] for a list of labels: [KeyError] when one is not a
    column. *)
Fixpoint positions (cols df_cols : list string) : resultat_ou_erreur (list nat) :=
  match cols with
  | [] => inr []
  | c :: r =>
      match position c df_cols with
      | None => inl KeyError
      | Some j =>
          match positions r df_cols with
          | inl e => inl e
          | inr js => inr (j :: js)
          end
      end
  end.

Definition getitem (df : DataFrame) (cols : list string)
  : resultat_ou_erreur DataFrame :=
  match positions cols (columns df) with
  | inl e => inl e
  | inr js =>
      inr {| columns := cols;
             lignes := (λ l, (l.1, cellule l.2 <$> js)) <$> lignes df |}
  end.

(** [data.pivot(index='date', columns='rank', values='value')] on a long
    table of (date, rank, value) rows: [ValueError] when a (date, rank)
    pair occurs twice; otherwise one row per date, ascending, and one
    column per rank, ascending. *)
Definition table_longue : Type := list (Z * string * option V).

Definition valeur_longue (data : table_longue) (t : Z) (c : string) : option V :=
  mjoin (dict_get (t, c) data).

Definition pivot (data : table_longue) : resultat_ou_erreur DataFrame :=
  if decide (NoDup data.*1) then
    let cols := merge_sort String.le (remove_dups data.*1.*2) in
    inr {| columns := cols;
           lignes := (λ t, (t, valeur_longue data t <$> cols))
                       <$> merge_sort Z.le (remove_dups data.*1.*1) |}
  else inl ValueError.

(** [index[-1]] *)
Definition dernier (idx : list Z) : resultat_ou_erreur Z :=
  match last idx with
  | Some t => inr t
  | None => inl IndexError
  end.
End Pandas.

Arguments DataFrame : clear implicits.
Arguments table_longue : clear implicits.

(** ** The outside world and the state of a run *)

(** Lines printed on the standard output. *)
Inductive message : Type :=
| MsgInputFile (inputfile : string)
| MsgLecture (fic : string)
| MsgDoublon (fic : string) (last_date : Z)
| MsgCreation (dossier_out : string)
| MsgEnregistrement (nom_fic : string).

(** What the libraries answer: the parsed content of an .ini file
    ([RawConfigParser.read]), the files matching a pattern ([glob.glob]),
    a sheet read with its first column as index ([pd.read_excel] as called
    by [lire_fic_salleles]), the sheet DATA as (date, rank, value) rows
    ([pd.read_excel] as called by [lire_fic_poste_central]) and
    [os.path.exists]. *)
Record systeme (V : Type) : Type := mkSysteme {
  config_read : string → config;
  glob : string → list string;
  read_excel : string → string → resultat_ou_erreur (DataFrame V);
  read_excel_DATA : string → resultat_ou_erreur (table_longue V);
  path_exists : string → bool
}.

Arguments config_read {V}.
Arguments glob {V}.
Arguments read_excel {V}.
Arguments read_excel_DATA {V}.
Arguments path_exists {V}.

(** The state: the DataFrame objects ([tas], a reference is a position),
    the lines printed, the sheets read so far (file, sheet) and the files
    written with their content. *)
Record monde (V : Type) : Type := mkMonde {
  tas : list (DataFrame V);
  sortie : list message;
  lus : list (string * string);
  ecrits : list (string * DataFrame V)
}.

Arguments mkMonde {V}.
Arguments tas {V}.
Arguments sortie {V}.
Arguments lus {V}.
Arguments ecrits {V}.

Definition monde_initial {V} : monde V := mkMonde [] [] [] [].

(** ** The monad of the program: state and exceptions *)

Definition M (V A : Type) : Type := monde V → (exception + A) * monde V.

Definition ret {V A} (a : A) : M V A := λ w, (inr a, w).

Definition bind {V A B} (m : M V A) (k : A → M V B) : M V B :=
  λ w, match m w with
       | (inl e, w') => (inl e, w')
       | (inr a, w') => k a w'
       end.

Definition raise {V A} (e : exception) : M V A := λ w, (inl e, w).

Definition lift {V A} (r : resultat_ou_erreur A) : M V A :=
  match r with
  | inl e => raise e
  | inr a => ret a
  end.

Declare Scope prog_scope.
Delimit Scope prog_scope with prog.
Notation "x <- m ;; k" := (bind m (λ x, k))
  (at level 100, m at next level, right associativity) : prog_scope.
Notation "m ;; k" := (bind m (λ _, k))
  (at level 100, right associativity) : prog_scope.
Local Open Scope prog_scope.

(** [for x in l: s = body(x, s)] *)
Fixpoint for_ {V A S} (l : list A) (body : A → S → M V S) (s : S) : M V S :=
  match l with
  | [] => ret s
  | x :: r => s' <- body x s ;; for_ r body s'
  end.

Section Primitives.
Context {V : Type}.

Definition print (m : message) : M V unit :=
  λ w, (inr tt, mkMonde (tas w) (sortie w ++ [m]) (lus w) (ecrits w)).

(** A new DataFrame object. *)
Definition alloc (df : DataFrame V) : M V nat :=
  λ w, (inr (length (tas w)), mkMonde (tas w ++ [df]) (sortie w) (lus w) (ecrits w)).

(** The content of an object.  [ReferenceError] is never raised on a heap
    that holds every object referred to. *)
Definition deref (r : nat) : M V (DataFrame V) :=
  λ w, match tas w !! r with
       | Some df => (inr df, w)
       | None => (inl ReferenceError, w)
       end.

(** In-place modification of an object. *)
Definition store (r : nat) (df : DataFrame V) : M V unit :=
  λ w, (inr tt, mkMonde (<[r := df]> (tas w)) (sortie w) (lus w) (ecrits w)).

Definition noter_lecture (fic onglet : string) : M V unit :=
  λ w, (inr tt, mkMonde (tas w) (sortie w) (lus w ++ [(fic, onglet)]) (ecrits w)).

Definition to_csv (nom_fic : string) (r : nat) : M V unit :=
  df <- deref r ;;
  λ w, (inr tt, mkMonde (tas w) (sortie w) (lus w) (ecrits w ++ [(nom_fic, df)])).

(** [d[k]] *)
Definition dict_getitem {K A} `{EqDecision K} (d : dict K A) (k : K) : M V A :=
  match dict_get k d with
  | Some a => ret a
  | None => raise KeyError
  end.
End Primitives.

(** ** The program *)

Section Programme.
Context {V : Type} (sys : systeme V).

(** The extraction parameters: columns (or identifiers) per station. *)
Definition dico_params : Type := dict string (list string).

(** What a reader returns and what the collector accumulates:
    [dict[station][derniere_date] = dataframe]. *)
Definition dico_donnees : Type := dict string (dict Z nat).

(** lire_fic_salleles (lines 103-132) *)
Definition lire_fic_salleles (fic : string) (dico_param : dico_params)
  : M V dico_donnees :=
  for_ (dict_keys dico_param)
    (λ onglet resultat,
       noter_lecture fic onglet ;;
       data_lue <- lift (read_excel sys fic onglet) ;;
       cols <- dict_getitem dico_param onglet ;;
       data_lue <- lift (getitem data_lue cols) ;;
       let data_lue := sort_index data_lue in
       last_date <- lift (dernier (index data_lue)) ;;
       r <- alloc data_lue ;;
       ret (dict_set onglet (dict_set last_date r []) resultat))
    [].

(** lire_fic_poste_central (lines 136-165) *)
Definition lire_fic_poste_central (fic : string) (dico_param : dico_params)
  : M V dico_donnees :=
  noter_lecture fic "DATA" ;;
  data_lue <- lift (read_excel_DATA sys fic) ;;
  chronique_lue <- lift (pivot data_lue) ;;
  last_date <- lift (dernier (index chronique_lue)) ;;
  for_ (dict_keys dico_param)
    (λ station resultat,
       cols <- dict_getitem dico_param station ;;
       df <- lift (getitem chronique_lue cols) ;;
       r <- alloc df ;;
       ret (dict_set station (dict_set last_date r []) resultat))
    [].

(** Lines 201-206: one (last_date, dataframe) of a station's freshly read
    data against the station's ledger [data_station]. *)
Definition ajouter_serie (fic : string) (lu : dict Z nat)
    (last_date : Z) (data_station : dict Z nat) : M V (dict Z nat) :=
  if dict_in last_date data_station then
    print (MsgDoublon fic last_date) ;;
    ret data_station
  else
    r <- dict_getitem lu last_date ;;
    ret (dict_set last_date r data_station).

(** Lines 196-206: one station of the data read in a file.
    [data_station] is the very dict stored under [tab_data[nom_station]],
    so what the inner loop writes is written there. *)
Definition ajouter_station (fic : string) (dico_data : dico_donnees)
    (nom_station : string) (tab_data : dico_donnees) : M V dico_donnees :=
  let tab_data :=
    if dict_in nom_station tab_data then tab_data
    else dict_set nom_station [] tab_data in
  data_station <- dict_getitem tab_data nom_station ;;
  lu <- dict_getitem dico_data nom_station ;;
  data_station <- for_ (dict_keys lu) (ajouter_serie fic lu) data_station ;;
  ret (dict_set nom_station data_station tab_data).

(** Lines 195-206: the data read in one file merged into [tab_data]. *)
Definition integrer_fichier (fic : string) (dico_data : dico_donnees)
    (tab_data : dico_donnees) : M V dico_donnees :=
  for_ (dict_keys dico_data) (ajouter_station fic dico_data) tab_data.

(** Lines 188-193: the reader chosen by [format_donnees].  With any other
    value neither branch binds [dico_data], and its use at line 195 raises
    [UnboundLocalError]. *)
Definition lire_fic (format_donnees : string) (fic : string)
    (dico_param : dico_params) : M V dico_donnees :=
  if decide (format_donnees = "SALLELES") then
    lire_fic_salleles fic dico_param
  else if decide (format_donnees = "POSTE_CENTRAL") then
    lire_fic_poste_central fic dico_param
  else raise UnboundLocalError.

(** Lines 186-206, one file. *)
Definition lire_un_fichier (dico_param : dico_params) (format_donnees : string)
    (fic : string) (tab_data : dico_donnees) : M V dico_donnees :=
  print (MsgLecture fic) ;;
  dico_data <- lire_fic format_donnees fic dico_param ;;
  integrer_fichier fic dico_data tab_data.

(** The collector on a given list of files. *)
Definition lire_liste_fichiers (liste_fic : list string)
    (dico_param : dico_params) (format_donnees : string) : M V dico_donnees :=
  for_ liste_fic (lire_un_fichier dico_param format_donnees) [].

(** lire_fichiers_excel (lines 169-208).  [glob.glob] wants a string. *)
Definition lire_fichiers_excel (chemin_input : valeur_param)
    (dico_param : dico_params) (format_donnees : string) : M V dico_donnees :=
  match chemin_input with
  | PStr chemin => lire_liste_fichiers (glob sys chemin) dico_param format_donnees
  | PDict _ => raise TypeError
  end.

(** Lines 237-239: the accumulator [resultat[nom_station]] becomes a new
    object, reindexed on the union of the two indexes, which [update] then
    modifies in place from the object [data_station]. *)
Definition superposer (acc data_station : nat) : M V nat :=
  df_acc <- deref acc ;;
  df_station <- deref data_station ;;
  let new_index := index_union (index df_acc) (index df_station) in
  df <- lift (reindex df_acc new_index) ;;
  acc' <- alloc df ;;
  self <- deref acc' ;;
  other <- deref data_station ;;
  df <- lift (update self other) ;;
  store acc' df ;;
  ret acc'.

(** Lines 231-242: one dernière date of a station. *)
Definition aggreger_date (tab_data : dico_donnees) (nom_station : string)
    (derniere_date : Z) (resultat : dict string nat) : M V (dict string nat) :=
  ledger <- dict_getitem tab_data nom_station ;;
  data_station <- dict_getitem ledger derniere_date ;;
  match dict_get nom_station resultat with
  | Some acc =>
      acc' <- superposer acc data_station ;;
      ret (dict_set nom_station acc' resultat)
  | None => ret (dict_set nom_station data_station resultat)
  end.

(** Lines 227-242: one station. *)
Definition aggreger_station (tab_data : dico_donnees) (nom_station : string)
    (resultat : dict string nat) : M V (dict string nat) :=
  ledger <- dict_getitem tab_data nom_station ;;
  let list_dernieres_dates := merge_sort Z.le (dict_keys ledger) in
  for_ list_dernieres_dates (aggreger_date tab_data nom_station) resultat.

(** aggreger_donnees (lines 212-244) *)
Definition aggreger_donnees (tab_data : dico_donnees) : M V (dict string nat) :=
  for_ (dict_keys tab_data) (aggreger_station tab_data) [].

(** [os.path.join(a, b)] for a relative [b]. *)
Definition path_join (a b : string) : string :=
  match String.rev a with
  | EmptyString => b
  | String c _ => if decide (c = "/"%char) then a +:+ b else a +:+ "/" +:+ b
  end.

(** ecrire_donnees_traitees (lines 248-266).  [os.path.exists] wants a
    path.  A file written is recorded with the content of its DataFrame;
    the name 'date' given to the index (line 264) is outside this model of
    a table, which has labels and cells only. *)
Definition ecrire_donnees_traitees (tab_data : dict string nat)
    (dossier_out : valeur_param) : M V unit :=
  match dossier_out with
  | PDict _ => raise TypeError
  | PStr dossier_out =>
      (if path_exists sys dossier_out then ret tt
       else print (MsgCreation dossier_out)) ;;
      for_ (dict_keys tab_data)
        (λ station _,
           let nom_fic := path_join dossier_out ("export_" +:+ station +:+ "_.csv") in
           df <- dict_getitem tab_data station ;;
           print (MsgEnregistrement nom_fic) ;;
           to_csv nom_fic df)
        tt
  end.

(** main (lines 271-291), on [sys.argv].  [params[format_donnees]] is the
    last key [get_params] writes: it always holds the extraction dict, and
    it replaces the string of 'FORMAT_DONNEES', 'FICHIERS_INPUT' or
    'RESULTATS' when the format bears one of these names. *)
Definition main (argv : list string) : M V unit :=
  match argv with
  | [_; inputfile] =>
      print (MsgInputFile inputfile) ;;
      params <- lift (get_params (config_read sys inputfile)) ;;
      format_donnees <- dict_getitem params "FORMAT_DONNEES" ;;
      match format_donnees with
      | PDict _ => raise TypeError
      | PStr format_donnees =>
          chemin_input <- dict_getitem params "FICHIERS_INPUT" ;;
          dico_param <- dict_getitem params format_donnees ;;
          match dico_param with
          | PStr _ => raise TypeError
          | PDict dico_param =>
              tab_data <- lire_fichiers_excel chemin_input dico_param format_donnees ;;
              tab_data <- aggreger_donnees tab_data ;;
              dossier_out <- dict_getitem params "RESULTATS" ;;
              ecrire_donnees_traitees tab_data dossier_out
          end
      end
  | _ => raise IOError
  end.
End Programme.

(** ** Vocabulary of the specification *)

(** Number of occurrences of a character in a string. *)
Fixpoint compte (c : ascii) (s : string) : nat :=
  match s with
  | EmptyString => 0
  | String c' r => (if decide (c' = c) then 1 else 0) + compte c r
  end.

(** The errors of the configuration: a section or a key that is absent, a
    malformed line of the extraction parameters. *)
Definition ConfigurationError (e : exception) : bool :=
  match e with
  | NoSectionError _ | NoOptionError _ _ | ValueError => true
  | _ => false
  end.

Definition est_doublon (m : message) : bool :=
  match m with
  | MsgDoublon _ _ => true
  | _ => false
  end.

Section Specification.
Context {V : Type}.

(** The extract of a station recorded under a dernière date, and the
    series aggregated for a station, read through the heap. *)
Definition extrait (w : monde V) (tab_data : dico_donnees)
    (nom_station : string) (derniere_date : Z) : option (DataFrame V) :=
  ledger ← dict_get nom_station tab_data;
  r ← dict_get derniere_date ledger;
  tas w !! r.

Definition serie (w : monde V) (resultat : dict string nat)
    (nom_station : string) : option (DataFrame V) :=
  r ← dict_get nom_station resultat;
  tas w !! r.

(** A table as the readers hand it over: the given columns, one cell per
    column in every row, strictly ascending index. *)
Definition bien_forme (cols : list string) (df : DataFrame V) : Prop :=
  columns df = cols
  ∧ Forall (λ l, length l.2 = length cols) (lignes df)
  ∧ StronglySorted Z.lt (index df).

(** [tab_data] is a dict of dicts whose values are objects of the heap. *)
Definition ledger_valide (h : list (DataFrame V)) (ledger : dict Z nat) : Prop :=
  NoDup (dict_keys ledger) ∧ Forall (λ vr, (vr.2 < length h)%nat) ledger.

Definition tab_valide (w : monde V) (tab_data : dico_donnees) : Prop :=
  NoDup (dict_keys tab_data)
  ∧ Forall (λ sl, ledger_valide (tas w) sl.2) tab_data.

(** The columns of a station: those of the first extract recorded. *)
Definition colonnes_ledger (h : list (DataFrame V)) (ledger : dict Z nat)
  : list string :=
  match ledger with
  | (_, r) :: _ => from_option columns [] (h !! r)
  | [] => []
  end.

(** Moreover every extract of a station is well formed, with the same
    columns. *)
Definition ledger_bien_forme (h : list (DataFrame V)) (ledger : dict Z nat) : Prop :=
  NoDup (dict_keys ledger)
  ∧ Forall (λ vr, from_option (bien_forme (colonnes_ledger h ledger)) False (h !! vr.2))
      ledger.

Definition tab_bien_forme (w : monde V) (tab_data : dico_donnees) : Prop :=
  NoDup (dict_keys tab_data)
  ∧ Forall (λ sl, ledger_bien_forme (tas w) sl.2) tab_data.

(** The heap only grew, nothing was printed, read or written. *)
Definition etend (w w' : monde V) : Prop :=
  tas w `prefix_of` tas w'
  ∧ sortie w' = sortie w ∧ lus w' = lus w ∧ ecrits w' = ecrits w.

#[global] Instance etend_preorder : PreOrder etend.
Proof.
  split.
  - intros w. by repeat split.
  - intros w1 w2 w3 (Hp & ? & ? & ?) (Hq & ? & ? & ?).
    split_and!; [by etrans|congruence..].
Qed.

(** Every reference of [resultat] is an object of the heap. *)
Definition resultat_valide (w : monde V) (resultat : dict string nat) : Prop :=
  ∀ s r, dict_get s resultat = Some r → is_Some (tas w !! r).

(** The stations that have at least one extract. *)
Definition ledger_non_vide (tab_data : dico_donnees) (nom_station : string) : bool :=
  match dict_get nom_station tab_data with
  | Some (_ :: _) => true
  | _ => false
  end.

(** The reference recorded for a station under a dernière date. *)
Definition reference (tab_data : dico_donnees) (nom_station : string)
    (derniere_date : Z) : option nat :=
  ledger ← dict_get nom_station tab_data;
  dict_get derniere_date ledger.

(** [tab_data] is a dict of dicts, as Python builds them: no key twice. *)
Definition dico_valide (tab_data : dico_donnees) : Prop :=
  NoDup (dict_keys tab_data) ∧ Forall (λ sl, NoDup (dict_keys sl.2)) tab_data.

(** The table a file holds, read alone, for a station and a dernière
    date. *)
Definition tables_lues (sys : systeme V) (format_donnees : string)
    (dico_param : dico_params) (fic : string) (nom_station : string)
    (derniere_date : Z) : option (DataFrame V) :=
  match lire_fic sys format_donnees fic dico_param monde_initial with
  | (inr dico_data, w) => extrait w dico_data nom_station derniere_date
  | (inl _, _) => None
  end.

(** The table of the first file of a list that holds one for a station
    and a dernière date. *)
Fixpoint premiere_table (sys : systeme V) (format_donnees : string)
    (dico_param : dico_params) (liste_fic : list string) (nom_station : string)
    (derniere_date : Z) : option (DataFrame V) :=
  match liste_fic with
  | [] => None
  | fic :: reste =>
      match tables_lues sys format_donnees dico_param fic nom_station derniere_date with
      | Some d => Some d
      | None =>
          premiere_table sys format_donnees dico_param reste nom_station derniere_date
      end
  end.

(** A run that starts on a heap of [n] more objects allocates [n] places
    further. *)
Definition decaler_ledger (n : nat) (ledger : dict Z nat) : dict Z nat :=
  (λ vr : Z * nat, (vr.1, (n + vr.2)%nat)) <$> (ledger : list (Z * nat)).

Definition decaler (n : nat) (dico_data : dico_donnees) : dico_donnees :=
  (λ sl : string * dict Z nat, (sl.1, decaler_ledger n sl.2))
    <$> (dico_data : list (string * dict Z nat)).

Definition joindre (w w1 : monde V) : monde V :=
  mkMonde (tas w ++ tas w1) (sortie w ++ sortie w1) (lus w ++ lus w1)
    (ecrits w ++ ecrits w1).

(** Value semantics of lines 237-239. *)
Definition fusion (acc data_station : DataFrame V)
  : resultat_ou_erreur (DataFrame V) :=
  match reindex acc (index_union (index acc) (index data_station)) with
  | inl e => inl e
  | inr df => update df data_station
  end.

(** Value semantics of the loop of lines 231-242 on the tables of a
    station taken by ascending dernière date. *)
Fixpoint replier (tables : list (DataFrame V)) (acc : option (DataFrame V))
  : resultat_ou_erreur (option (DataFrame V)) :=
  match tables with
  | [] => inr acc
  | d :: r =>
      match acc with
      | None => replier r (Some d)
      | Some a =>
          match fusion a d with
          | inl e => inl e
          | inr df => replier r (Some df)
          end
      end
  end.

Definition tables_de (h : list (DataFrame V)) (ledger : dict Z nat)
    (dates : list Z) : list (DataFrame V) :=
  omap (λ v, dict_get v ledger ≫= (h !!.)) dates.

Definition serie_pure (h : list (DataFrame V)) (ledger : dict Z nat)
  : resultat_ou_erreur (option (DataFrame V)) :=
  replier (tables_de h ledger (merge_sort Z.le (dict_keys ledger))) None.

(** The value the newest extracts give to a cell: the present value of
    the last table that has one. *)
Definition retenir (t : Z) (c : string) (x : option V) (d : DataFrame V)
  : option V :=
  match valeur_en d t c with
  | Some v => Some v
  | None => x
  end.

Definition valeur_retenue (tables : list (DataFrame V)) (t : Z) (c : string)
  : option V :=
  foldl (retenir t c) None tables.
End Specification.

(** ** Vocabulary of the proofs *)

(** Only lines were printed. *)
Definition imprime {V} (w w' : monde V) : Prop :=
  tas w' = tas w ∧ lus w' = lus w ∧ ecrits w' = ecrits w.

(** The references of [tab_data] are objects of the heap. *)
Definition refs_valides {V} (w : monde V) (tab_data : dico_donnees) : Prop :=
  ∀ s v r, reference tab_data s v = Some r → (r < length (tas w))%nat.

(** [m] run on a heap that holds the objects of [w] below those of a
    world [w1] does what [m1] does on [w1], up to [f] on the result. *)
Definition decale {V A B} (w : monde V) (f : A → B) (m : M V B) (m1 : M V A) : Prop :=
  ∀ w1, m (joindre w w1)
        = (let '(r, w1') := m1 w1 in
           (match r with inl e => inl e | inr a => inr (f a) end, joindre w w1')).

(** What holds of the dict a reader is building: no key twice, one extract
    per station, every reference allocated, nothing printed since [w0]. *)
Definition lecture_en_cours {V} (w0 : monde V) (resultat : dico_donnees)
    (w : monde V) : Prop :=
  dico_valide resultat
  ∧ refs_valides w resultat
  ∧ Forall (λ sl, sl.2 ≠ []) resultat
  ∧ tas w0 `prefix_of` tas w
  ∧ sortie w = sortie w0 ∧ ecrits w = ecrits w0.




(** Rows are totally preordered by their label. *)
#[global] Instance avant_total {V} : Total (@avant V).
Proof. intros l l'. unfold avant. lia. Qed.

#[global] Instance avant_trans {V} : Transitive (@avant V).
Proof. intros l1 l2 l3. unfold avant. lia. Qed.

(** The predicates on the input are decidable. *)

Section Decisions.
Context {V : Type}.

#[global] Instance bien_forme_dec cols (df : DataFrame V) : Decision (bien_forme cols df).
Proof. unfold bien_forme. apply _. Defined.

#[global] Instance ledger_bien_forme_dec (h : list (DataFrame V)) ledger :
  Decision (ledger_bien_forme h ledger).
Proof.
  unfold ledger_bien_forme. apply and_dec; [apply _|].
  apply Forall_dec. intros vr. destruct (h !! vr.2); simpl; apply _.
Defined.

#[global] Instance tab_bien_forme_dec (w : monde V) tab_data :
  Decision (tab_bien_forme w tab_data).
Proof. unfold tab_bien_forme. apply _. Defined.

#[global] Instance tab_valide_dec (w : monde V) tab_data : Decision (tab_valide w tab_data).
Proof. unfold tab_valide, ledger_valide. apply _. Defined.
End Decisions.

(** ** Scenarios

    Dates are written yyyymmdd and values in tenths. *)

(** Station Cesse: an extract X of dernière date 2025-01-10 and an extract
    Y of dernière date 2025-01-12, recorded out of order. *)
Definition extrait_X : DataFrame Z :=
  mkDataFrame ["debit"; "cote"]
    [(20250108, [Some 50; Some 1]); (20250109, [Some 52; Some 2]);
     (20250110, [Some 54; Some 3])].

Definition extrait_Y : DataFrame Z :=
  mkDataFrame ["debit"; "cote"]
    [(20250110, [Some 55; None]); (20250111, [Some 56; Some 5]);
     (20250112, [Some 57; Some 6])].

Definition monde_cesse : monde Z := mkMonde [extrait_X; extrait_Y] [] [] [].

Definition tab_cesse : dico_donnees :=
  [("Cesse", [(20250112, 1%nat); (20250110, 0%nat)])].

(** The two files of station Cesse, each with a sheet named after the
    station, and their configuration. *)
Definition config_cesse : config :=
  [("params", [("FORMAT_DONNEES", " SALLELES"); ("FICHIERS_INPUT", "donnees/*.xlsx");
               ("RESULTATS", "sorties")]);
   ("SALLELES", [("col_params", "Cesse : debit
Cesse : cote")])].

Definition sys_cesse : systeme Z :=
  mkSysteme Z (λ _, config_cesse) (λ _, ["Y.xlsx"; "X.xlsx"])
    (λ fic onglet,
       if decide (fic = "X.xlsx" ∧ onglet = "Cesse") then inr extrait_X
       else if decide (fic = "Y.xlsx" ∧ onglet = "Cesse") then inr extrait_Y
       else inl (ErreurLecture fic onglet))
    (λ fic, inl (ErreurLecture fic "DATA")) (λ _, true).

Definition dico_param_debit_cote : dico_params := [("Cesse", ["debit"; "cote"])].

(** A configuration whose FORMAT_DONNEES is neither of the two formats but
    names a section that holds 'col_params', and whose pattern matches no
    file. *)
Definition config_autre : config :=
  [("params", [("FORMAT_DONNEES", "AUTRE"); ("FICHIERS_INPUT", "donnees/*.xlsx");
               ("RESULTATS", "sorties")]);
   ("AUTRE", [("col_params", "Cesse : debit")])].

Definition sys_autre : systeme Z :=
  mkSysteme Z (λ _, config_autre) (λ _, [])
    (λ fic onglet, inl (ErreurLecture fic onglet))
    (λ fic, inl (ErreurLecture fic "DATA")) (λ _, true).

(** Two files that end on the same date with different values: A holds 1
    and B holds 2 for station Cesse at 2025-01-10; and the world once both
    have been read, A first. *)
Definition table_A : DataFrame Z := mkDataFrame ["debit"] [(20250110, [Some 1])].
Definition table_B : DataFrame Z := mkDataFrame ["debit"] [(20250110, [Some 2])].

Definition sys_doublon : systeme Z :=
  mkSysteme Z (λ _, []) (λ _, ["A.xlsx"; "B.xlsx"])
    (λ fic onglet,
       if decide (fic = "A.xlsx" ∧ onglet = "Cesse") then inr table_A
       else if decide (fic = "B.xlsx" ∧ onglet = "Cesse") then inr table_B
       else inl (ErreurLecture fic onglet))
    (λ fic, inl (ErreurLecture fic "DATA")) (λ _, true).

Definition dico_param_cesse : dico_params := [("Cesse", ["debit"])].

Definition monde_doublon : monde Z :=
  mkMonde [table_A; table_B]
    [MsgLecture "A.xlsx"; MsgLecture "B.xlsx"; MsgDoublon "B.xlsx" 20250110]
    [("A.xlsx", "Cesse"); ("B.xlsx", "Cesse")] [].

(** ** Vocabulary of the extraction parameters *)

(** The key and the value of a line 'key : value' (lines 69-72). *)
Definition cle_valeur (ligne : string) : option (string * string) :=
  match split deux_points ligne with
  | [k; v] => Some (strip k, strip v)
  | _ => None
  end.

(** The elements of [l] in the order of their first occurrence, those of
    [vus] left out. *)
Fixpoint premieres (vus l : list string) : list string :=
  match l with
  | [] => []
  | k :: r =>
      if decide (k ∈ vus) then premieres vus r else k :: premieres (k :: vus) r
  end.

(** The extraction parameters of station Cesse, as the .ini file holds
    them. *)
Definition col_params_cesse : string := "Cesse : debit
Cesse : cote".

(** ** Vocabulary of the readers *)

(** What a reader leaves of the state when it fails or returns: the
    objects that existed, the lines printed and the files written. *)
Definition lecture_sans_effet {V} (w0 w : monde V) : Prop :=
  tas w0 `prefix_of` tas w ∧ sortie w = sortie w0 ∧ ecrits w = ecrits w0.

(** The state of [lire_fic_salleles] once it went through the sheets
    [faits], started in [w0]. *)
Definition salleles_en_cours {V} (sys : systeme V) (fic : string) (dico_param : dico_params)
    (w0 : monde V) (faits : list string) (resultat : dico_donnees) (w : monde V)
  : Prop :=
  dict_keys resultat = faits
  ∧ lus w = lus w0 ++ ((λ onglet, (fic, onglet)) <$> faits)
  ∧ sortie w = sortie w0 ∧ ecrits w = ecrits w0
  ∧ tas w0 `prefix_of` tas w
  ∧ length (tas w) = (length (tas w0) + length faits)%nat
  ∧ ∀ i onglet, faits !! i = Some onglet →
      ∃ cols data_lue df last_date table,
        dict_get onglet dico_param = Some cols
        ∧ read_excel sys fic onglet = inr data_lue
        ∧ getitem data_lue cols = inr df
        ∧ dict_get onglet resultat = Some [(last_date, (length (tas w0) + i)%nat)]
        ∧ tas w !! (length (tas w0) + i)%nat = Some table
        ∧ columns table = cols
        ∧ lignes table ≡ₚ lignes df
        ∧ StronglySorted Z.le (index table)
        ∧ last_date ∈ index data_lue
        ∧ ∀ t, t ∈ index data_lue → t ≤ last_date.

(** The state of the loop of [lire_fic_poste_central] over the stations
    once it went through the stations [faits], started in [w0] with the
    pivoted table [chronique_lue] and its last date. *)
Definition poste_central_en_cours {V} (chronique_lue : DataFrame V) (last_date : Z)
    (dico_param : dico_params) (w0 : monde V) (faits : list string)
    (resultat : dico_donnees) (w : monde V) : Prop :=
  dict_keys resultat = faits
  ∧ lus w = lus w0 ∧ sortie w = sortie w0 ∧ ecrits w = ecrits w0
  ∧ tas w0 `prefix_of` tas w
  ∧ length (tas w) = (length (tas w0) + length faits)%nat
  ∧ ∀ i station, faits !! i = Some station →
      ∃ cols df,
        dict_get station dico_param = Some cols
        ∧ getitem chronique_lue cols = inr df
        ∧ dict_get station resultat = Some [(last_date, (length (tas w0) + i)%nat)]
        ∧ tas w !! (length (tas w0) + i)%nat = Some df
        ∧ index df = index chronique_lue.

(** ** Vocabulary of the collector *)

(** The sheets a reader opens in a file, in the order it opens them. *)
Definition feuilles_lues (format_donnees : string) (dico_param : dico_params)
    (fic : string) : list (string * string) :=
  if decide (format_donnees = "SALLELES") then
    (λ onglet, (fic, onglet)) <$> dict_keys dico_param
  else if decide (format_donnees = "POSTE_CENTRAL") then [(fic, "DATA")]
  else [].


(** The lines printed since [w0] announce the files [liste_fic], in their
    order; the other lines are warnings on a file of the list. *)
Definition annonces {V} (w0 w : monde V) (liste_fic : list string) : Prop :=
  ∃ l, sortie w = sortie w0 ++ l
    ∧ filter (λ m, est_doublon m = false) l = MsgLecture <$> liste_fic
    ∧ Forall (λ m, est_doublon m = true → ∃ fic v, m = MsgDoublon fic v ∧ fic ∈ liste_fic) l.

(** ** Vocabulary of the export *)



(** ** Vocabulary of the aggregation *)

(** The object that holds the series of a station, by the ledger of the
    station: the object of the extract when there is one extract only, an
    object that did not exist in [w] otherwise. *)
Definition objet_de_la_serie {V} (w : monde V) (ledger : dict Z nat) (r : nat) : Prop :=
  match ledger with
  | [(_, r0)] => r = r0
  | _ => (length (tas w) ≤ r)%nat
  end.

(** ** Vocabulary of the whole run *)

(** A computation that writes no file, however it ends. *)
Definition sans_ecriture {V A} (m : M V A) : Prop :=
  ∀ w out w', m w = (out, w') → ecrits w' = ecrits w.

(** ** Further scenarios *)

(** A file of the pivoted format: the sheet DATA of P.xlsx holds the rows
    (date, rank, value) of two ranks, one per station; and its
    configuration.  The output directory does not exist. *)
Definition data_poste : table_longue Z :=
  [((20250108, "A.debit"), Some 50); ((20250108, "B.cote"), Some 7);
   ((20250109, "A.debit"), Some 52); ((20250109, "B.cote"), None)].

Definition dico_param_poste : dico_params := [("A", ["A.debit"]); ("B", ["B.cote"])].

Definition config_poste : config :=
  [("params", [("FORMAT_DONNEES", "POSTE_CENTRAL"); ("FICHIERS_INPUT", "poste/*.xlsx");
               ("RESULTATS", "sorties/")]);
   ("POSTE_CENTRAL", [("col_params", "A : A.debit
B : B.cote")])].

Definition sys_poste : systeme Z :=
  mkSysteme Z (λ _, config_poste) (λ _, ["P.xlsx"])
    (λ fic onglet, inl (ErreurLecture fic onglet))
    (λ fic, if decide (fic = "P.xlsx") then inr data_poste
            else inl (ErreurLecture fic "DATA"))
    (λ _, false).




(** A configuration whose format bears the name of the key RESULTATS. *)
Definition config_homonyme : config :=
  [("params", [("FORMAT_DONNEES", "RESULTATS"); ("FICHIERS_INPUT", "donnees/*.xlsx");
               ("RESULTATS", "sorties")]);
   ("RESULTATS", [("col_params", "Cesse : debit")])].

Definition sys_homonyme : systeme Z :=
  mkSysteme Z (λ _, config_homonyme) (λ _, [])
    (λ fic onglet, inl (ErreurLecture fic onglet))
    (λ fic, inl (ErreurLecture fic "DATA")) (λ _, true).

(** * Properties *)

(** ** Dictionaries *)

Section DictFacts.
Context {K A : Type} `{EqDecision K}.
Implicit Types (k : K) (a : A) (d : dict K A).

Lemma dict_get_set_eq k a d : dict_get k (dict_set k a d) = Some a.
Proof.
  induction d as [|[k' a'] d IH]; simpl.
  - by rewrite decide_True.
  - destruct (decide (k = k')) as [->|Hne]; simpl.
    + by rewrite decide_True.
    + by rewrite decide_False.
Qed.

Lemma dict_get_set_ne k k' a d :
  k ≠ k' → dict_get k' (dict_set k a d) = dict_get k' d.
Proof.
  intros Hne. induction d as [|[k0 a0] d IH]; simpl.
  - by rewrite decide_False.
  - destruct (decide (k = k0)) as [->|Hne0]; simpl.
    + by rewrite !decide_False.
    + destruct (decide (k' = k0)); auto.
Qed.

Lemma dict_get_set k k' a d :
  dict_get k' (dict_set k a d) = if decide (k = k') then Some a else dict_get k' d.
Proof.
  destruct (decide (k = k')) as [->|Hne].
  - apply dict_get_set_eq.
  - by apply dict_get_set_ne.
Qed.

Lemma dict_keys_get k d : k ∈ dict_keys d ↔ is_Some (dict_get k d).
Proof.
  unfold dict_keys. induction d as [|[k' a'] d IH]; simpl.
  - split; [intros H'; inversion H' | intros [? ?]; discriminate].
  - rewrite elem_of_cons, IH. destruct (decide (k = k')) as [->|Hne].
    + split; eauto.
    + split; [intros [?|?]; [done|done] | auto].
Qed.

Lemma dict_get_None k d : dict_get k d = None ↔ k ∉ dict_keys d.
Proof. rewrite dict_keys_get, eq_None_not_Some. done. Qed.

Lemma dict_in_true k d : dict_in k d = true ↔ k ∈ dict_keys d.
Proof.
  rewrite dict_keys_get. unfold dict_in.
  destruct (dict_get k d); split; eauto; try discriminate.
  intros [? ?]; discriminate.
Qed.

Lemma dict_in_false k d : dict_in k d = false ↔ k ∉ dict_keys d.
Proof.
  rewrite <- dict_in_true. destruct (dict_in k d); split; try done.
Qed.

Lemma dict_get_elem k a d : dict_get k d = Some a → (k, a) ∈ d.
Proof.
  induction d as [|[k' a'] d IH]; simpl; [done|].
  destruct (decide (k = k')) as [->|Hne].
  - intros [= ->]. left.
  - intros H'. right. auto.
Qed.

Lemma dict_elem_get k a d : NoDup (dict_keys d) → (k, a) ∈ d → dict_get k d = Some a.
Proof.
  unfold dict_keys. induction d as [|[k' a'] d IH]; simpl.
  - intros _ H'. inversion H'.
  - rewrite NoDup_cons, elem_of_cons. intros [Hk Hnd] [[= -> ->]|Hin].
    + by rewrite decide_True.
    + rewrite decide_False; [auto|]. intros ->. apply Hk.
      apply list_elem_of_fmap. by exists (k', a).
Qed.

Lemma dict_keys_set k a d :
  dict_keys (dict_set k a d)
  = if dict_in k d then dict_keys d else dict_keys d ++ [k].
Proof.
  unfold dict_keys, dict_in. induction d as [|[k' a'] d IH]; csimpl; [done|].
  destruct (decide (k = k')) as [->|Hne]; csimpl; [done|].
  rewrite IH. by destruct (dict_get k d).
Qed.

Lemma dict_keys_set_NoDup k a d :
  NoDup (dict_keys d) → NoDup (dict_keys (dict_set k a d)).
Proof.
  intros Hnd. rewrite dict_keys_set.
  destruct (dict_in k d) eqn:Hin; [done|].
  apply dict_in_false in Hin. apply NoDup_app. split_and!; [done| |apply NoDup_singleton].
  intros x Hx. rewrite list_elem_of_singleton. by intros ->.
Qed.

End DictFacts.

Lemma dict_get_fmap_keys {K A} `{EqDecision K} (l : list K) (f : K → A) k :
  dict_get k ((λ x, (x, f x)) <$> l) = if decide (k ∈ l) then Some (f k) else None.
Proof.
  induction l as [|x l IH]; csimpl; [done|].
  rewrite IH. destruct (decide (k = x)) as [->|Hne].
  - by rewrite decide_True by left.
  - destruct (decide (k ∈ l)) as [Hin|Hin].
    + by rewrite decide_True by (by right).
    + rewrite decide_False; [done|]. rewrite elem_of_cons. tauto.
Qed.

(** ** Strings *)

Lemma split_length sep s : length (split sep s) = S (compte sep s).
Proof.
  induction s as [|c r IH]; simpl; [done|].
  destruct (decide (c = sep)); simpl.
  - by rewrite IH.
  - destruct (split sep r); simpl in *; lia.
Qed.

Lemma _extraire_ligne_ok resultat ligne :
  compte deux_points ligne = 1%nat →
  ∃ d, _extraire_ligne resultat ligne = inr d.
Proof.
  intros Hc. unfold _extraire_ligne.
  pose proof (split_length deux_points ligne) as Hl. rewrite Hc in Hl.
  destruct (split deux_points ligne) as [|k [|v [|? ?]]]; simplify_eq/=.
  eauto.
Qed.

Lemma _extraire_ligne_erreur resultat ligne :
  compte deux_points ligne ≠ 1%nat →
  _extraire_ligne resultat ligne = inl ValueError.
Proof.
  intros Hc. unfold _extraire_ligne.
  pose proof (split_length deux_points ligne) as Hl.
  destruct (split deux_points ligne) as [|k [|v [|? ?]]]; simplify_eq/=; done.
Qed.

Lemma _extraire_lignes_spec lignes resultat :
  match _extraire_lignes lignes resultat with
  | inr _ => Forall (λ l, compte deux_points l = 1%nat) lignes
  | inl e => e = ValueError ∧ Exists (λ l, compte deux_points l ≠ 1%nat) lignes
  end.
Proof.
  revert resultat. induction lignes as [|l r IH]; intros resultat; simpl; [done|].
  destruct (decide (compte deux_points l = 1%nat)) as [Hc|Hc].
  - destruct (_extraire_ligne_ok resultat l Hc) as [d ->].
    specialize (IH d). destruct (_extraire_lignes r d); [|by constructor].
    destruct IH. split; [done|]. by right.
  - rewrite (_extraire_ligne_erreur resultat l Hc). split; [done|]. by left.
Qed.

(** C8. [_extraire_col_params] returns a dict exactly when every line of
    the string (the fields of its split on the newline) holds one ':' and
    only one; otherwise, be the faulty line without separator, empty, or
    with a second ':' in its column part, it raises [ValueError]. *)
Theorem _extraire_col_params_un_seul_separateur (str_colonnes : string) :
  match _extraire_col_params str_colonnes with
  | inr _ =>
      Forall (λ ligne, compte deux_points ligne = 1%nat)
        (split saut_de_ligne str_colonnes)
  | inl e =>
      e = ValueError
      ∧ Exists (λ ligne, compte deux_points ligne ≠ 1%nat)
          (split saut_de_ligne str_colonnes)
  end.
Proof. apply _extraire_lignes_spec. Qed.


(** ** Sorted indexes *)

Lemma croissant_strict (l : list Z) :
  StronglySorted Z.le l → NoDup l → StronglySorted Z.lt l.
Proof.
  induction 1 as [|x l Hs IH Hx]; intros Hnd; [constructor|].
  apply NoDup_cons in Hnd as [Hx' Hnd]. constructor; [auto|].
  rewrite Forall_forall in Hx |- *. intros y Hy.
  specialize (Hx y Hy). assert (x ≠ y) by (by intros ->). lia.
Qed.

Lemma strict_NoDup (l : list Z) : StronglySorted Z.lt l → NoDup l.
Proof.
  induction 1 as [|x l Hs IH Hx]; constructor; [|done].
  intros Hin. rewrite Forall_forall in Hx. specialize (Hx x Hin). lia.
Qed.

Lemma tri_strict (l : list Z) : NoDup l → StronglySorted Z.lt (merge_sort Z.le l).
Proof.
  intros Hnd. apply croissant_strict.
  - apply StronglySorted_merge_sort; apply _.
  - by rewrite merge_sort_Permutation.
Qed.

Lemma elem_of_tri (l : list Z) t : t ∈ merge_sort Z.le l ↔ t ∈ l.
Proof. by rewrite merge_sort_Permutation. Qed.


Lemma elem_of_retirer x y (l : list Z) :
  NoDup l → y ∈ retirer x l ↔ y ∈ l ∧ y ≠ x.
Proof.
  induction l as [|z l IH]; simpl; intros Hnd.
  - split; [intros H'; inversion H'|intros [H' _]; inversion H'].
  - apply NoDup_cons in Hnd as [Hz Hnd]. destruct (decide (x = z)) as [->|Hne].
    + rewrite elem_of_cons. split; [|by intros [[->|?] ?]].
      intros Hy. split; [by right|]. by intros ->.
    + rewrite !elem_of_cons, IH by done. intuition congruence.
Qed.

Lemma retirer_NoDup x (l : list Z) : NoDup l → NoDup (retirer x l).
Proof.
  induction l as [|z l IH]; simpl; intros Hnd; [done|].
  apply NoDup_cons in Hnd as [Hz Hnd]. destruct (decide (x = z)); [done|].
  apply NoDup_cons. split; [|auto].
  rewrite elem_of_retirer by done. tauto.
Qed.

Lemma retirer_tous (a b : list Z) :
  NoDup b →
  NoDup (foldr retirer b a) ∧ ∀ t, t ∈ foldr retirer b a ↔ t ∈ b ∧ t ∉ a.
Proof.
  intros Hb. induction a as [|x a [IH1 IH2]]; simpl.
  - split; [done|]. intros t. split; [|tauto]. intros ?. split; [done|]. apply not_elem_of_nil.
  - split; [by apply retirer_NoDup|].
    intros t. rewrite elem_of_retirer, IH2, not_elem_of_cons by done. tauto.
Qed.

Lemma index_union_spec (a b : list Z) :
  StronglySorted Z.lt a → StronglySorted Z.lt b →
  StronglySorted Z.lt (index_union a b)
  ∧ ∀ t, t ∈ index_union a b ↔ t ∈ a ∨ t ∈ b.
Proof.
  intros Ha Hb. unfold index_union.
  destruct (decide (b = [] ∨ a = b)) as [[->| ->]|_].
  - split; [done|]. intros t. rewrite elem_of_nil. tauto.
  - split; [done|]. tauto.
  - destruct (decide (a = [])) as [->|_].
    + split; [done|]. intros t. rewrite elem_of_nil. tauto.
    + destruct (retirer_tous a b (strict_NoDup _ Hb)) as [Hnd Hin]. split.
      * apply tri_strict, NoDup_app. split_and!; [by apply strict_NoDup| |done].
        intros t Ht. rewrite Hin. tauto.
      * intros t. rewrite elem_of_tri, elem_of_app, Hin.
        destruct (decide (t ∈ a)); tauto.
Qed.


(** ** reindex, update and their composition *)

Section PandasFacts.
Context {V : Type}.
Implicit Types (df acc : DataFrame V) (r : list (option V)) (cols : list string).

Lemma position_lookup c cols j :
  position c cols = Some j → cols !! j = Some c ∧ (j < length cols)%nat.
Proof.
  revert j. induction cols as [|c' cols IH]; simpl; intros j; [done|].
  destruct (decide (c = c')) as [->|Hne].
  - intros [= <-]. split; [done|lia].
  - destruct (position c cols) as [j'|]; [|done]. intros [= <-].
    destruct (IH j' eq_refl). split; [done|lia].
Qed.

Lemma valeur_en_hors_index df t c : t ∉ index df → valeur_en df t c = None.
Proof.
  intros Ht. unfold valeur_en.
  by rewrite (proj2 (dict_get_None t (lignes df)) Ht).
Qed.


Lemma cellule_ligne_vide df c : cellule_nommee (columns df) (ligne_vide df) c = None.
Proof.
  unfold cellule_nommee, cellule, ligne_vide.
  destruct (position c (columns df)) as [j|] eqn:Hp; [|done].
  destruct (replicate (length (columns df)) None !! j) as [o|] eqn:Hl; [|done].
  apply lookup_replicate in Hl as [-> _]. done.
Qed.

Lemma index_fmap (idx : list Z) (f : Z → list (option V)) cols :
  index {| columns := cols; lignes := (λ t, (t, f t)) <$> idx |} = idx.
Proof.
  unfold index; simpl. rewrite <- list_fmap_compose.
  rewrite <- (list_fmap_id idx) at 2. by apply list_fmap_ext.
Qed.

Lemma reindex_spec cols df idx :
  bien_forme cols df → StronglySorted Z.lt idx →
  (∀ t, t ∈ index df → t ∈ idx) →
  ∃ df', reindex df idx = inr df'
    ∧ bien_forme cols df' ∧ index df' = idx
    ∧ ∀ t c, valeur_en df' t c = valeur_en df t c.
Proof.
  intros (Hc & Hl & Hs) Hidx Hin. unfold reindex.
  destruct (decide (index df = idx)) as [<-|Hne].
  { exists df. by repeat split. }
  rewrite decide_True by by apply strict_NoDup.
  eexists. split; [done|]. rewrite index_fmap. split_and!; [|done|].
  - split_and!; [done| |by rewrite index_fmap]. simpl.
    apply Forall_fmap, Forall_forall. intros t _; simpl.
    destruct (dict_get t (lignes df)) as [r|] eqn:Hr; simpl.
    + apply dict_get_elem in Hr. rewrite Forall_forall in Hl. apply (Hl _ Hr).
    + unfold ligne_vide. by rewrite length_replicate, Hc.
  - intros t c. unfold valeur_en at 1; simpl. rewrite dict_get_fmap_keys.
    destruct (decide (t ∈ idx)) as [Ht|Ht].
    + unfold valeur_en. destruct (dict_get t (lignes df)); simpl; [done|].
      apply cellule_ligne_vide.
    + symmetry. apply valeur_en_hors_index. auto.
Qed.

Lemma dict_get_zip (g : list (option V) → list (option V) → list (option V))
    (l l' : list (Z * list (option V))) t :
  l.*1 = l'.*1 →
  dict_get t (zip_with (λ x y, (x.1, g x.2 y.2)) l l')
  = match dict_get t l, dict_get t l' with
    | Some r, Some r' => Some (g r r')
    | _, _ => None
    end.
Proof.
  revert l'. induction l as [|[k r] l IH]; intros [|[k' r'] l']; csimpl; try done.
  intros [= <- Heq]. destruct (decide (t = k)); [done|]. by apply IH.
Qed.

Lemma index_zip (g : list (option V) → list (option V) → list (option V))
    (l l' : list (Z * list (option V))) :
  l.*1 = l'.*1 → (zip_with (λ x y, (x.1, g x.2 y.2)) l l').*1 = l.*1.
Proof.
  revert l'. induction l as [|[k r] l IH]; intros [|[k' r'] l']; csimpl; try done.
  intros [= <- Heq]. f_equal. by apply IH.
Qed.

Lemma cellule_update_ligne cols r r' c :
  length r = length cols →
  cellule_nommee cols (update_ligne cols cols r r') c
  = match cellule_nommee cols r' c with
    | Some v => Some v
    | None => cellule_nommee cols r c
    end.
Proof.
  intros Hlen. unfold cellule_nommee.
  destruct (position c cols) as [j|] eqn:Hp; [|done].
  destruct (position_lookup _ _ _ Hp) as [Hj Hlt].
  unfold cellule at 1 3, update_ligne. rewrite list_lookup_imap.
  destruct (lookup_lt_is_Some_2 r j) as [x Hx]; [lia|].
  rewrite Hx; simpl. rewrite Hj. unfold cellule_nommee. rewrite Hp.
  by destruct (cellule r' j).
Qed.

Lemma update_spec cols self other :
  bien_forme cols self → bien_forme cols other →
  (∀ t, t ∈ index other → t ∈ index self) →
  ∃ df, update self other = inr df
    ∧ bien_forme cols df ∧ index df = index self
    ∧ ∀ t c, valeur_en df t c
             = match valeur_en other t c with
               | Some v => Some v
               | None => valeur_en self t c
               end.
Proof.
  intros Hself Hother Hin. unfold update.
  destruct (reindex_spec cols other (index self) Hother) as (o & -> & Ho & Hio & Hvo);
    [apply Hself|done|].
  destruct Hself as (Hc & Hl & Hs). destruct Ho as (Hc' & Hl' & Hs').
  eexists. split; [done|].
  assert (Hk : (lignes self).*1 = (lignes o).*1) by (symmetry; apply Hio).
  split_and!.
  - split_and!; [done| |unfold index; simpl; by rewrite index_zip].
    simpl. clear Hvo Hio Hs Hs' Hl' Hin. revert Hl Hk. generalize (lignes o).
    induction (lignes self) as [|[k r] l IH]; intros [|[k' r'] l'] Hl Hk; csimpl;
      try done.
    apply Forall_cons in Hl as [Hr Hl]. simplify_eq. constructor; [|by apply IH].
    simpl. unfold update_ligne. by rewrite length_imap.
  - unfold index; simpl. by rewrite index_zip.
  - intros t c. rewrite <- Hvo. unfold valeur_en; simpl.
    rewrite dict_get_zip by done. rewrite Hc'. rewrite <- Hc.
    assert (Hsome : is_Some (dict_get t (lignes self)) ↔ is_Some (dict_get t (lignes o))).
    { rewrite <- !dict_keys_get. unfold dict_keys. by rewrite Hk. }
    destruct (dict_get t (lignes self)) as [r|] eqn:Hr;
      destruct (dict_get t (lignes o)) as [r'|] eqn:Hr'; try done.
    + apply cellule_update_ligne. apply dict_get_elem in Hr.
      rewrite Forall_forall in Hl. rewrite Hc. apply (Hl _ Hr).
    + destruct (proj1 Hsome) as [? ?]; [eauto|done].
    + destruct (proj2 Hsome) as [? ?]; [eauto|done].
Qed.

Lemma fusion_spec cols acc ext :
  bien_forme cols acc → bien_forme cols ext →
  ∃ df, fusion acc ext = inr df
    ∧ bien_forme cols df
    ∧ (∀ t, t ∈ index df ↔ t ∈ index acc ∨ t ∈ index ext)
    ∧ ∀ t c, valeur_en df t c
             = match valeur_en ext t c with
               | Some v => Some v
               | None => valeur_en acc t c
               end.
Proof.
  intros Hacc Hext. unfold fusion.
  destruct (index_union_spec (index acc) (index ext)) as [Hs Hu];
    [apply Hacc|apply Hext|].
  destruct (reindex_spec cols acc _ Hacc Hs) as (df1 & -> & Hdf1 & Hi1 & Hv1).
  { intros t Ht. apply Hu. by left. }
  destruct (update_spec cols df1 ext Hdf1 Hext) as (df & -> & Hdf & Hi & Hv).
  { intros t Ht. rewrite Hi1. apply Hu. by right. }
  exists df. split_and!; [done|done| |].
  - intros t. by rewrite Hi, Hi1.
  - intros t c. by rewrite Hv, Hv1.
Qed.
End PandasFacts.


(** ** The fold over the tables of a station *)

Section Repli.
Context {V : Type}.
Implicit Types (d df acc : DataFrame V) (o : option (DataFrame V)).

Lemma replier_spec cols tables o :
  Forall (bien_forme cols) tables →
  from_option (bien_forme cols) True o →
  ∃ o', replier tables o = inr o'
    ∧ from_option (bien_forme cols) True o'
    ∧ (o' = None → o = None ∧ tables = [])
    ∧ (∀ t, from_option (λ d, t ∈ index d) False o'
            ↔ from_option (λ d, t ∈ index d) False o ∨ Exists (λ d, t ∈ index d) tables)
    ∧ ∀ t c, from_option (λ d, valeur_en d t c) None o'
             = foldl (retenir t c) (from_option (λ d, valeur_en d t c) None o) tables.
Proof.
  intros Htab. revert o. induction Htab as [|d tables Hd Htab IH]; intros o Ho; simpl.
  - exists o. split_and!; try done. intros t. rewrite Exists_nil. tauto.
  - destruct o as [a|]; simpl in *.
    + destruct (fusion_spec cols a d Ho Hd) as (df & -> & Hdf & Hi & Hv).
      destruct (IH (Some df) Hdf) as (o' & -> & Ho' & Hn & Hi' & Hv').
      exists o'. split_and!; try done.
      * intros Hnone. by destruct (Hn Hnone) as [[=] _].
      * intros t. rewrite Hi', Exists_cons; simpl. rewrite Hi. tauto.
      * intros t c. rewrite Hv'; simpl. by rewrite Hv.
    + destruct (IH (Some d) Hd) as (o' & -> & Ho' & Hn & Hi' & Hv').
      exists o'. split_and!; try done.
      * intros Hnone. by destruct (Hn Hnone) as [[=] _].
      * intros t. rewrite Hi', Exists_cons; simpl. tauto.
      * intros t c. rewrite Hv'; simpl. f_equal. unfold retenir.
        by destruct (valeur_en d t c).
Qed.


End Repli.


(** ** Runs of the aggregation *)

Section Aggregation.
Context {V : Type}.
Implicit Types (w : monde V) (tab_data : dico_donnees) (resultat : dict string nat).

Lemma etend_lookup w w' r d : etend w w' → tas w !! r = Some d → tas w' !! r = Some d.
Proof. intros [Hp _] Hr. by eapply prefix_lookup_Some. Qed.

Lemma etend_length w w' : etend w w' → (length (tas w) ≤ length (tas w'))%nat.
Proof. intros [Hp _]. by apply prefix_length. Qed.

Lemma etend_alloc w (df : DataFrame V) :
  etend w (mkMonde (tas w ++ [df]) (sortie w) (lus w) (ecrits w)).
Proof. repeat split; simpl. by apply prefix_app_r. Qed.

Lemma superposer_run acc data_station w a d :
  tas w !! acc = Some a → tas w !! data_station = Some d →
  match fusion a d with
  | inr df =>
      superposer acc data_station w
      = (inr (length (tas w)), mkMonde (tas w ++ [df]) (sortie w) (lus w) (ecrits w))
  | inl e => ∃ w', superposer acc data_station w = (inl e, w')
  end.
Proof.
  intros Ha Hd. unfold superposer, fusion, bind, deref. rewrite Ha, Hd.
  destruct (reindex a _) as [e|df1]; simpl; [by eexists|].
  rewrite lookup_app_r, Nat.sub_diag by done; simpl.
  rewrite lookup_app_l by by eapply lookup_lt_Some. rewrite Hd.
  destruct (update df1 d) as [e|df]; simpl; [by eexists|].
  unfold store, ret; simpl. do 2 f_equal.
  by rewrite insert_app_r_alt, Nat.sub_diag by done.
Qed.

Lemma tables_de_cons (h : list (DataFrame V)) ledger v dates r d :
  dict_get v ledger = Some r → h !! r = Some d →
  tables_de h ledger (v :: dates) = d :: tables_de h ledger dates.
Proof. intros Hv Hr. unfold tables_de; simpl. rewrite Hv; simpl. by rewrite Hr. Qed.

Lemma tables_de_etend (h h' : list (DataFrame V)) ledger dates :
  h `prefix_of` h' →
  Forall (λ v, ∃ r, dict_get v ledger = Some r ∧ is_Some (h !! r)) dates →
  tables_de h' ledger dates = tables_de h ledger dates.
Proof.
  intros Hp. induction 1 as [|v dates (r & Hv & [d Hr]) _ IH]; [done|].
  rewrite (tables_de_cons h _ _ _ r d), (tables_de_cons h' _ _ _ r d); try done.
  - by rewrite IH.
  - by eapply prefix_lookup_Some.
Qed.

Lemma serie_set_eq w resultat s r : serie w (dict_set s r resultat) s = tas w !! r.
Proof. unfold serie. by rewrite dict_get_set_eq. Qed.

Lemma aggreger_date_run tab_data nom_station derniere_date resultat w ledger r d :
  dict_get nom_station tab_data = Some ledger →
  dict_get derniere_date ledger = Some r →
  tas w !! r = Some d →
  resultat_valide w resultat →
  ∃ out w', aggreger_date tab_data nom_station derniere_date resultat w = (out, w')
    ∧ match replier [d] (serie w resultat nom_station) with
      | inr o => etend w w'
                 ∧ ∃ r', out = inr (dict_set nom_station r' resultat)
                         ∧ tas w' !! r' = o ∧ is_Some o
      | inl e => out = inl e
      end.
Proof.
  intros Hl Hr Hd Hres. unfold aggreger_date, bind, dict_getitem, serie.
  rewrite Hl; simpl. rewrite Hr; simpl.
  destruct (dict_get nom_station resultat) as [acc|] eqn:Hacc; simpl.
  - destruct (Hres _ _ Hacc) as [a Ha]. rewrite Ha.
    pose proof (superposer_run acc r w a d Ha Hd) as Hrun.
    destruct (fusion a d) as [e|df].
    + destruct Hrun as [w' ->]. by exists (inl e), w'.
    + rewrite Hrun. do 2 eexists. split; [done|]. split; [apply etend_alloc|].
      eexists. split; [done|]. simpl.
      rewrite lookup_app_r, Nat.sub_diag by done. eauto.
  - do 2 eexists. split; [done|]. split; [done|]. eauto.
Qed.

Lemma replier_cons (d : DataFrame V) tables o :
  replier (d :: tables) o
  = match replier [d] o with
    | inl e => inl e
    | inr o' => replier tables o'
    end.
Proof. destruct o as [a|]; simpl; [|done]. by destruct (fusion a d). Qed.

Lemma dict_keys_set_set {A} (s : string) (x y : A) (d : dict string A) :
  dict_keys (dict_set s x (dict_set s y d)) = dict_keys (dict_set s y d).
Proof.
  rewrite (dict_keys_set s x). 
  by rewrite (proj2 (dict_in_true s _)) by (apply dict_keys_get; rewrite dict_get_set_eq; eauto).
Qed.

Lemma dict_keys_set_valeur {A} (s : string) (x y : A) (d : dict string A) :
  dict_keys (dict_set s x d) = dict_keys (dict_set s y d).
Proof. by rewrite !dict_keys_set. Qed.

Lemma resultat_valide_etend w w' resultat :
  etend w w' → resultat_valide w resultat → resultat_valide w' resultat.
Proof.
  intros He Hres s r Hs. destruct (Hres s r Hs) as [d Hd].
  exists d. by eapply etend_lookup.
Qed.

Lemma resultat_valide_set w resultat s r :
  is_Some (tas w !! r) → resultat_valide w resultat →
  resultat_valide w (dict_set s r resultat).
Proof.
  intros Hr Hres s' r'. rewrite dict_get_set. case_decide; [by intros [= <-]|].
  apply Hres.
Qed.

Lemma aggreger_dates_run tab_data nom_station ledger dates :
  dict_get nom_station tab_data = Some ledger →
  ∀ resultat w,
  Forall (λ v, ∃ r, dict_get v ledger = Some r ∧ is_Some (tas w !! r)) dates →
  resultat_valide w resultat →
  ∃ out w', for_ dates (aggreger_date tab_data nom_station) resultat w = (out, w')
    ∧ match replier (tables_de (tas w) ledger dates) (serie w resultat nom_station) with
      | inr o =>
          etend w w'
          ∧ ∃ resultat', out = inr resultat'
              ∧ serie w' resultat' nom_station = o
              ∧ resultat_valide w' resultat'
              ∧ (∀ s, s ≠ nom_station → dict_get s resultat' = dict_get s resultat)
              ∧ dict_keys resultat'
                = match dates with
                  | [] => dict_keys resultat
                  | _ => dict_keys (dict_set nom_station 0%nat resultat)
                  end
      | inl e => out = inl e
      end.
Proof.
  intros Hl. induction dates as [|v dates IH]; intros resultat w Hdates Hres.
  - simpl. do 2 eexists. split; [done|]. split; [done|]. eauto 10.
  - apply Forall_cons in Hdates as [(r & Hv & [d Hr]) Hdates].
    rewrite (tables_de_cons _ _ _ _ r d) by done. rewrite replier_cons.
    destruct (aggreger_date_run _ _ _ _ _ _ _ _ Hl Hv Hr Hres) as (out1 & w1 & Hrun & Hstep).
    cbn [for_]. unfold bind at 1. rewrite Hrun.
    destruct (replier [d] (serie w resultat nom_station)) as [e|o1].
    { subst out1. by do 2 eexists. }
    destruct Hstep as (He1 & r' & -> & Hr' & Ho1).
    assert (Hdates1 : Forall (λ v, ∃ r, dict_get v ledger = Some r
                                        ∧ is_Some (tas w1 !! r)) dates).
    { eapply Forall_impl; [done|]. intros v' (r0 & ? & [d0 ?]).
      exists r0. split; [done|]. exists d0. by eapply etend_lookup. }
    assert (Hres1 : resultat_valide w1 (dict_set nom_station r' resultat)).
    { apply resultat_valide_set; [by rewrite Hr'|]. by eapply resultat_valide_etend. }
    destruct (IH _ _ Hdates1 Hres1) as (out & w' & -> & Hrest).
    rewrite serie_set_eq, Hr' in Hrest.
    rewrite (tables_de_etend (tas w) (tas w1)) in Hrest; [|apply He1|done].
    do 2 eexists. split; [done|].
    destruct (replier (tables_de (tas w) ledger dates) o1) as [e|o]; [done|].
    destruct Hrest as (He & resultat' & -> & Hs & Hv' & Hautres & Hkeys).
    split; [by etrans|]. exists resultat'. split_and!; try done.
    + intros s Hs'. rewrite Hautres by done. by apply dict_get_set_ne.
    + rewrite Hkeys. destruct dates; [apply dict_keys_set_valeur|].
      rewrite dict_keys_set_set. apply dict_keys_set_valeur.
Qed.

Lemma ledger_valide_dates (h : list (DataFrame V)) ledger :
  ledger_valide h ledger →
  Forall (λ v, ∃ r, dict_get v ledger = Some r ∧ is_Some (h !! r))
    (merge_sort Z.le (dict_keys ledger)).
Proof.
  intros [Hnd Hv]. apply Forall_forall. intros v Hin.
  apply elem_of_tri, dict_keys_get in Hin as [r Hr]. exists r. split; [done|].
  apply lookup_lt_is_Some_2. rewrite Forall_forall in Hv.
  apply (Hv (v, r)). by apply dict_get_elem.
Qed.

Lemma ledger_valide_etend w w' ledger :
  etend w w' → ledger_valide (tas w) ledger → ledger_valide (tas w') ledger.
Proof.
  intros He [Hnd Hv]. split; [done|]. eapply Forall_impl; [done|].
  intros vr Hlt; simpl in *. apply etend_length in He. lia.
Qed.

Lemma serie_pure_etend w w' ledger :
  etend w w' → ledger_valide (tas w) ledger →
  serie_pure (tas w') ledger = serie_pure (tas w) ledger.
Proof.
  intros He Hv. unfold serie_pure. rewrite (tables_de_etend (tas w) (tas w')); [done| |].
  - apply He.
  - by apply ledger_valide_dates.
Qed.

Lemma aggreger_station_run tab_data nom_station ledger resultat w :
  dict_get nom_station tab_data = Some ledger →
  ledger_valide (tas w) ledger →
  resultat_valide w resultat →
  dict_get nom_station resultat = None →
  ∃ out w', aggreger_station tab_data nom_station resultat w = (out, w')
    ∧ match serie_pure (tas w) ledger with
      | inr o =>
          etend w w'
          ∧ ∃ resultat', out = inr resultat'
              ∧ serie w' resultat' nom_station = o
              ∧ resultat_valide w' resultat'
              ∧ (∀ s, s ≠ nom_station → dict_get s resultat' = dict_get s resultat)
              ∧ dict_keys resultat'
                = dict_keys resultat
                  ++ (if ledger_non_vide tab_data nom_station then [nom_station] else [])
      | inl e => out = inl e
      end.
Proof.
  intros Hl Hv Hres Hnone. unfold aggreger_station, bind, dict_getitem.
  rewrite Hl; simpl.
  destruct (aggreger_dates_run tab_data nom_station ledger
              (merge_sort Z.le (dict_keys ledger)) Hl resultat w
              (ledger_valide_dates _ _ Hv) Hres) as (out & w' & -> & Hrun).
  do 2 eexists. split; [done|]. unfold serie_pure.
  replace (serie w resultat nom_station) with (@None (DataFrame V)) in Hrun
    by (unfold serie; by rewrite Hnone).
  destruct (replier _ None) as [e|o]; [done|].
  destruct Hrun as (He & resultat' & -> & Hs & Hv' & Hautres & Hkeys).
  split; [done|]. exists resultat'. split_and!; try done.
  rewrite Hkeys. unfold ledger_non_vide. rewrite Hl.
  destruct ledger as [|[v r] ledger]; [by rewrite app_nil_r|].
  destruct (merge_sort Z.le (dict_keys ((v, r) :: ledger))) eqn:Hsort.
  { apply (f_equal length) in Hsort.
    rewrite (Permutation_length (merge_sort_Permutation _ _)) in Hsort. done. }
  rewrite dict_keys_set. by rewrite (proj2 (dict_in_false _ _)) by by apply dict_get_None.
Qed.

Lemma aggreger_stations_run tab_data w0 :
  tab_valide w0 tab_data →
  ∀ stations resultat w,
  etend w0 w → NoDup stations →
  (∀ s, s ∈ stations → s ∈ dict_keys tab_data) →
  (∀ s, s ∈ stations → dict_get s resultat = None) →
  resultat_valide w resultat →
  ∃ out w', for_ stations (aggreger_station tab_data) resultat w = (out, w')
    ∧ (∀ resultat', out = inr resultat' →
        etend w w'
        ∧ resultat_valide w' resultat'
        ∧ (∀ s ledger, s ∈ stations → dict_get s tab_data = Some ledger →
             serie_pure (tas w0) ledger = inr (serie w' resultat' s))
        ∧ (∀ s, s ∉ stations → dict_get s resultat' = dict_get s resultat)
        ∧ dict_keys resultat'
          = dict_keys resultat ++ filter (ledger_non_vide tab_data) stations)
    ∧ ((∀ s ledger, s ∈ stations → dict_get s tab_data = Some ledger →
          ∃ o, serie_pure (tas w0) ledger = inr o) →
       ∃ resultat', out = inr resultat').
Proof.
  intros [Hnd Htab].
  induction stations as [|s stations IH]; intros resultat w He0 Hsts Hin Hnone Hres.
  - simpl. do 2 eexists. split; [done|]. split; [|eauto].
    intros ? [= <-]. split_and!; try done.
    + intros s ledger Hs. by apply elem_of_nil in Hs.
    + by rewrite filter_nil, app_nil_r.
  - apply NoDup_cons in Hsts as [Hs Hsts].
    destruct (proj1 (dict_keys_get s tab_data)) as [ledger Hl]; [apply Hin; left|].
    assert (Hlv : ledger_valide (tas w0) ledger).
    { rewrite Forall_forall in Htab. apply (Htab (s, ledger)). by apply dict_get_elem. }
    destruct (aggreger_station_run tab_data s ledger resultat w Hl) as (out1 & w1 & Hrun & Hstep);
      [by eapply ledger_valide_etend|done|apply Hnone; left|].
    rewrite (serie_pure_etend w0 w) in Hstep by done.
    cbn [for_]. unfold bind at 1. rewrite Hrun.
    destruct (serie_pure (tas w0) ledger) as [e|o] eqn:Hpure.
    { subst out1. do 2 eexists. split; [done|]. split; [done|].
      intros Hok. destruct (Hok s ledger) as [o Ho]; [left|done|]. congruence. }
    destruct Hstep as (He1 & resultat1 & -> & Hs1 & Hres1 & Hautres1 & Hkeys1).
    destruct (IH resultat1 w1) as (out & w' & -> & Hsound & Hcomplete); try done.
    { by etrans. }
    { intros s' Hs'. apply Hin. by right. }
    { intros s' Hs'. rewrite Hautres1 by (by intros ->). apply Hnone. by right. }
    do 2 eexists. split; [done|]. split.
    + intros resultat' ->.
      destruct (Hsound _ eq_refl) as (He & Hres' & Hseries & Hautres & Hkeys).
      split_and!; [by etrans|done| | |].
      * intros s' ledger' [->|Hs']%elem_of_cons Hl'.
        -- rewrite Hl in Hl'. injection Hl' as <-. rewrite Hpure. f_equal.
           rewrite <- Hs1. unfold serie. rewrite Hautres by done.
           destruct (dict_get s resultat1) as [r|] eqn:Hr; simpl; [|done].
           destruct (Hres1 s r Hr) as [d Hd].
           rewrite Hd. symmetry. by eapply etend_lookup.
        -- by apply Hseries.
      * intros s' Hs'. apply not_elem_of_cons in Hs' as [? ?].
        rewrite Hautres, Hautres1 by done. done.
      * rewrite Hkeys, Hkeys1, <- app_assoc. f_equal.
        rewrite filter_cons.
        destruct (ledger_non_vide tab_data s);
          [by rewrite decide_True by done|by rewrite decide_False by (by intros [])].
    + intros Hok. apply Hcomplete. intros s' ledger' Hs'. apply Hok. by right.
Qed.
End Aggregation.


Section AggregationSpec.
Context {V : Type}.
Implicit Types (w : monde V) (tab_data : dico_donnees) (resultat : dict string nat).

Lemma aggreger_donnees_run tab_data w :
  tab_valide w tab_data →
  ∃ out w', aggreger_donnees tab_data w = (out, w')
    ∧ (∀ resultat, out = inr resultat →
        etend w w'
        ∧ resultat_valide w' resultat
        ∧ (∀ s ledger, dict_get s tab_data = Some ledger →
             serie_pure (tas w) ledger = inr (serie w' resultat s))
        ∧ (∀ s, dict_get s tab_data = None → dict_get s resultat = None)
        ∧ dict_keys resultat = filter (ledger_non_vide tab_data) (dict_keys tab_data))
    ∧ ((∀ s ledger, dict_get s tab_data = Some ledger →
          ∃ o, serie_pure (tas w) ledger = inr o) →
       ∃ resultat, out = inr resultat).
Proof.
  intros Hv. unfold aggreger_donnees.
  destruct (aggreger_stations_run tab_data w Hv (dict_keys tab_data) [] w)
    as (out & w' & Hrun & Hsound & Hcomplete); try done.
  { apply Hv. }
  exists out, w'. split; [done|]. split.
  - intros resultat ->. destruct (Hsound _ eq_refl) as (He & Hres & Hs & Ha & Hk).
    split_and!; try done.
    + intros s ledger Hl. apply Hs; [|done]. apply dict_keys_get. eauto.
    + intros s Hs'. rewrite Ha; [done|]. by apply dict_get_None.
  - intros Hok. apply Hcomplete. eauto.
Qed.

Lemma bien_forme_valide (h : list (DataFrame V)) ledger :
  ledger_bien_forme h ledger → ledger_valide h ledger.
Proof.
  intros [Hnd Hf]. split; [done|]. eapply Forall_impl; [done|].
  intros [v r] Hr; simpl in *. apply lookup_lt_is_Some.
  by destruct (h !! r).
Qed.

Lemma tab_bien_forme_valide w tab_data :
  tab_bien_forme w tab_data → tab_valide w tab_data.
Proof.
  intros [Hnd Hf]. split; [done|]. eapply Forall_impl; [done|].
  intros sl. apply bien_forme_valide.
Qed.

Lemma tables_de_bien_formees (h : list (DataFrame V)) ledger dates :
  ledger_bien_forme h ledger →
  Forall (bien_forme (colonnes_ledger h ledger)) (tables_de h ledger dates).
Proof.
  intros [Hnd Hf]. apply Forall_forall. intros d Hd.
  apply list_elem_of_omap in Hd as (v & _ & Hv).
  destruct (dict_get v ledger) as [r|] eqn:Hr; simpl in Hv; [|done].
  rewrite Forall_forall in Hf. specialize (Hf (v, r) (dict_get_elem _ _ _ Hr)).
  simpl in Hf. by rewrite Hv in Hf.
Qed.

Lemma elem_of_tables_de (h : list (DataFrame V)) ledger dates d :
  d ∈ tables_de h ledger dates
  ↔ ∃ v r, v ∈ dates ∧ dict_get v ledger = Some r ∧ h !! r = Some d.
Proof.
  unfold tables_de. rewrite list_elem_of_omap. split.
  - intros (v & Hv & Hd). destruct (dict_get v ledger) as [r|] eqn:Hr; [|done].
    eauto.
  - intros (v & r & Hv & Hr & Hd). exists v. split; [done|]. by rewrite Hr.
Qed.

(** The series of a station with well-formed extracts. *)
Lemma serie_pure_spec (h : list (DataFrame V)) ledger :
  ledger_bien_forme h ledger →
  ∃ o, serie_pure h ledger = inr o
    ∧ (o = None → ledger = [])
    ∧ ∀ dr, o = Some dr →
        bien_forme (colonnes_ledger h ledger) dr
        ∧ (∀ t, t ∈ index dr
                ↔ ∃ v r d, dict_get v ledger = Some r ∧ h !! r = Some d ∧ t ∈ index d)
        ∧ ∀ t c, valeur_en dr t c
                 = valeur_retenue
                     (tables_de h ledger (merge_sort Z.le (dict_keys ledger))) t c.
Proof.
  intros Hbf. unfold serie_pure.
  destruct (replier_spec (colonnes_ledger h ledger)
              (tables_de h ledger (merge_sort Z.le (dict_keys ledger))) None)
    as (o & -> & Ho & Hn & Hi & Hval); [by apply tables_de_bien_formees|done|].
  exists o. split; [done|]. split.
  - intros Hnone. destruct (Hn Hnone) as [_ Ht].
    destruct ledger as [|[v r] ledger]; [done|]. exfalso.
    destruct Hbf as [Hnd Hf]. apply Forall_cons in Hf as [Hr _]. simpl in Hr.
    destruct (h !! r) as [d|] eqn:Hd; [|done].
    assert (Hin : d ∈ tables_de h ((v, r) :: ledger)
                        (merge_sort Z.le (dict_keys ((v, r) :: ledger)))).
    { apply elem_of_tables_de. exists v, r. split_and!; [|simpl; by rewrite decide_True|done].
      apply elem_of_tri. left. }
    rewrite Ht in Hin. by apply elem_of_nil in Hin.
  - intros dr ->. simpl in *. split_and!; [done| |apply Hval].
    intros t. rewrite Hi, Exists_exists. split.
    + intros [[]|(d & Hd & Ht)]. apply elem_of_tables_de in Hd as (v & r & _ & ? & ?).
      eauto 10.
    + intros (v & r & d & Hr & Hd & Ht). right. exists d. split; [|done].
      apply elem_of_tables_de. exists v, r. split_and!; try done.
      apply elem_of_tri, dict_keys_get. eauto.
Qed.

Lemma extrait_Some w tab_data s v d :
  extrait w tab_data s v = Some d
  ↔ ∃ ledger r, dict_get s tab_data = Some ledger
                ∧ dict_get v ledger = Some r ∧ tas w !! r = Some d.
Proof.
  unfold extrait. split.
  - destruct (dict_get s tab_data) as [ledger|]; simpl; [|done].
    destruct (dict_get v ledger) as [r|] eqn:Hr; simpl; [|done]. eauto.
  - intros (ledger & r & -> & Hr & Hd); simpl. by rewrite Hr.
Qed.



(** What [aggreger_donnees] returns on well-formed ledgers. *)
Lemma aggreger_donnees_spec tab_data w :
  tab_bien_forme w tab_data →
  ∃ resultat w', aggreger_donnees tab_data w = (inr resultat, w')
    ∧ etend w w'
    ∧ dict_keys resultat = filter (ledger_non_vide tab_data) (dict_keys tab_data)
    ∧ (∀ s, dict_get s tab_data = None → serie w' resultat s = None)
    ∧ ∀ s ledger, dict_get s tab_data = Some ledger →
        match serie w' resultat s with
        | None => ledger = []
        | Some dr =>
            bien_forme (colonnes_ledger (tas w) ledger) dr
            ∧ (∀ t, t ∈ index dr ↔ ∃ v d, extrait w tab_data s v = Some d ∧ t ∈ index d)
            ∧ ∀ t c, valeur_en dr t c
                     = valeur_retenue
                         (tables_de (tas w) ledger (merge_sort Z.le (dict_keys ledger)))
                         t c
        end.
Proof.
  intros Hbf.
  destruct (aggreger_donnees_run tab_data w (tab_bien_forme_valide _ _ Hbf))
    as (out & w' & Hrun & Hsound & Hcomplete).
  assert (Hledger : ∀ s ledger, dict_get s tab_data = Some ledger →
                                ledger_bien_forme (tas w) ledger).
  { intros s ledger Hl. destruct Hbf as [_ Hf]. rewrite Forall_forall in Hf.
    apply (Hf (s, ledger)). by apply dict_get_elem. }
  destruct Hcomplete as [resultat ->].
  { intros s ledger Hl. destruct (serie_pure_spec _ _ (Hledger _ _ Hl)) as (o & ? & _).
    eauto. }
  destruct (Hsound _ eq_refl) as (He & Hres & Hs & Ha & Hk).
  exists resultat, w'. split_and!; try done.
  - intros s Hnone. unfold serie. by rewrite (Ha s Hnone).
  - intros s ledger Hl.
    destruct (serie_pure_spec _ _ (Hledger _ _ Hl)) as (o & Ho & Hn & Hdr).
    rewrite (Hs _ _ Hl) in Ho. injection Ho as ->.
    destruct o as [dr|]; [|by apply Hn].
    destruct (Hdr dr eq_refl) as (Hwf & Hi & Hval). split_and!; try done.
    intros t. rewrite Hi. split.
    + intros (v & r & d & Hr & Hd & Ht). exists v, d. split; [|done].
      apply extrait_Some. eauto.
    + intros (v & d & (ledger' & r & Hl' & Hr & Hd)%extrait_Some & Ht).
      rewrite Hl in Hl'. injection Hl' as <-. eauto 10.
Qed.
End AggregationSpec.


(** ** The claims on [aggreger_donnees] *)

Section AggregationClaims.
Context {V : Type}.
Implicit Types (w : monde V) (tab_data : dico_donnees) (resultat : dict string nat).




(** C7 (idempotence).  When a first call of [aggreger_donnees] returns,
    every object that existed before the call still has the content it had
    (the extracts are not modified), and a second call on the same
    [tab_data] returns as well, with the same stations and, for each of
    them, a series equal to that of the first call, which is itself left
    untouched by the second call. *)
Theorem aggreger_donnees_idempotent w tab_data resultat1 w1 :
  tab_valide w tab_data →
  aggreger_donnees tab_data w = (inr resultat1, w1) →
  (∀ r d, tas w !! r = Some d → tas w1 !! r = Some d)
  ∧ (∀ s v, extrait w1 tab_data s v = extrait w tab_data s v)
  ∧ ∃ resultat2 w2, aggreger_donnees tab_data w1 = (inr resultat2, w2)
      ∧ dict_keys resultat2 = dict_keys resultat1
      ∧ ∀ s, serie w2 resultat2 s = serie w1 resultat1 s
             ∧ serie w2 resultat1 s = serie w1 resultat1 s.
Proof.
  intros Hv Hrun1.
  destruct (aggreger_donnees_run tab_data w Hv) as (out & w' & Hrun & Hsound & _).
  rewrite Hrun1 in Hrun. injection Hrun as <- <-.
  destruct (Hsound _ eq_refl) as (He & Hres & Hs & Ha & Hk).
  assert (Hledger : ∀ s ledger, dict_get s tab_data = Some ledger →
                                ledger_valide (tas w) ledger).
  { intros s ledger Hl. destruct Hv as [_ Hf]. rewrite Forall_forall in Hf.
    apply (Hf (s, ledger)). by apply dict_get_elem. }
  assert (Hv1 : tab_valide w1 tab_data).
  { destruct Hv as [Hnd Hf]. split; [done|]. eapply Forall_impl; [done|].
    intros sl. by apply ledger_valide_etend. }
  split_and!.
  - intros r d. by apply etend_lookup.
  - intros s v. unfold extrait.
    destruct (dict_get s tab_data) as [ledger|] eqn:Hl; simpl; [|done].
    destruct (dict_get v ledger) as [r|] eqn:Hr; simpl; [|done].
    destruct (Hledger _ _ Hl) as [_ Hf]. rewrite Forall_forall in Hf.
    destruct (lookup_lt_is_Some_2 (tas w) r) as [d Hd].
    { apply (Hf (v, r)). by apply dict_get_elem. }
    rewrite Hd. by eapply etend_lookup.
  - destruct (aggreger_donnees_run tab_data w1 Hv1) as (out & w2 & Hrun2 & Hsound2 & Hcomplete2).
    destruct Hcomplete2 as [resultat2 ->].
    { intros s ledger Hl. rewrite (serie_pure_etend w w1) by eauto. eauto. }
    destruct (Hsound2 _ eq_refl) as (He2 & Hres2 & Hs2 & Ha2 & Hk2).
    exists resultat2, w2. split_and!; [done|congruence|].
    intros s. split.
    + destruct (dict_get s tab_data) as [ledger|] eqn:Hl.
      * specialize (Hs2 _ _ Hl). rewrite (serie_pure_etend w w1) in Hs2 by eauto.
        rewrite (Hs _ _ Hl) in Hs2. by injection Hs2.
      * unfold serie. by rewrite (Ha _ Hl), (Ha2 _ Hl).
    + unfold serie. destruct (dict_get s resultat1) as [r|] eqn:Hr; simpl; [|done].
      destruct (Hres s r Hr) as [d Hd]. rewrite Hd. by eapply etend_lookup.
Qed.

Lemma filter_tous {A} (P : A → Prop) `{∀ x, Decision (P x)} (l : list A) :
  Forall P l → filter P l = l.
Proof.
  induction 1 as [|x l Hx _ IH]; [done|].
  by rewrite filter_cons, decide_True, IH.
Qed.

(** C10, amended (stations of the result).  Whenever [aggreger_donnees]
    returns, the keys of the dict it returns are, in the order of
    [tab_data], the stations that have at least one extract, each with a
    series; a station whose ledger is empty gets none.  So the stations of
    the result are those of [tab_data] when every ledger holds an extract.
    And [aggreger_donnees] does return when the extracts are well formed. *)
Theorem aggreger_donnees_stations w tab_data :
  tab_valide w tab_data →
  (∀ resultat w', aggreger_donnees tab_data w = (inr resultat, w') →
     dict_keys resultat = filter (ledger_non_vide tab_data) (dict_keys tab_data)
     ∧ (∀ s, s ∈ dict_keys resultat → is_Some (serie w' resultat s))
     ∧ (Forall (λ sl, sl.2 ≠ []) tab_data → dict_keys resultat = dict_keys tab_data))
  ∧ (tab_bien_forme w tab_data →
     ∃ resultat w', aggreger_donnees tab_data w = (inr resultat, w')).
Proof.
  intros Hv. split.
  - intros resultat w' Hrun.
    destruct (aggreger_donnees_run tab_data w Hv) as (out & w2 & Hrun2 & Hsound & _).
    rewrite Hrun in Hrun2. injection Hrun2 as <- <-.
    destruct (Hsound _ eq_refl) as (_ & Hres & _ & _ & Hk).
    split_and!; [done| |].
    + intros s [r Hr]%dict_keys_get. unfold serie. rewrite Hr; simpl. by eapply Hres.
    + intros Hne. rewrite Hk. apply filter_tous, Forall_forall.
      intros s [ledger Hl]%dict_keys_get. unfold ledger_non_vide. rewrite Hl.
      rewrite Forall_forall in Hne. specialize (Hne _ (dict_get_elem _ _ _ Hl)).
      by destruct ledger.
  - intros Hbf.
    destruct (aggreger_donnees_spec tab_data w Hbf) as (resultat & w2 & Hrun2 & _).
    eauto.
Qed.
End AggregationClaims.


(** ** Runs without input file, and unknown formats *)

Section Collecte.
Context {V : Type} (sys : systeme V).
Implicit Types (w : monde V) (tab_data : dico_donnees).

End Collecte.



Lemma config_get_erreur cfg section option e :
  config_get cfg section option = inl e → ConfigurationError e = true.
Proof.
  unfold config_get. destruct (dict_get section cfg) as [s|]; [|by intros [= <-]].
  destruct (dict_get option s); [done|by intros [= <-]].
Qed.

Lemma get_params_erreur cfg e :
  get_params cfg = inl e → ConfigurationError e = true.
Proof.
  unfold get_params, lire_param_format.
  destruct (config_get cfg "params" "FORMAT_DONNEES") as [e1|f] eqn:H1;
    [intros [= <-]; by eapply config_get_erreur|].
  destruct (config_get cfg "params" "FICHIERS_INPUT") as [e2|fi] eqn:H2;
    [intros [= <-]; by eapply config_get_erreur|].
  destruct (config_get cfg "params" "RESULTATS") as [e3|r] eqn:H3;
    [intros [= <-]; by eapply config_get_erreur|].
  destruct (config_get cfg (strip f) "col_params") as [e4|c] eqn:H4;
    [intros [= <-]; by eapply config_get_erreur|].
  pose proof (_extraire_lignes_spec (split saut_de_ligne (strip c)) []) as H5.
  unfold _extraire_col_params.
  destruct (_extraire_lignes (split saut_de_ligne (strip c)) []) as [e5|d]; [|done].
  intros [= <-]. by destruct H5 as [-> _].
Qed.

Section FormatInconnu.
Context {V : Type} (sys : systeme V).
Implicit Types (w : monde V).

Lemma lire_liste_fichiers_format_inconnu fic liste_fic dico_param format_donnees w :
  format_donnees ≠ "SALLELES" → format_donnees ≠ "POSTE_CENTRAL" →
  lire_liste_fichiers sys (fic :: liste_fic) dico_param format_donnees w
  = (inl UnboundLocalError,
     mkMonde (tas w) (sortie w ++ [MsgLecture fic]) (lus w) (ecrits w)).
Proof.
  intros H1 H2. unfold lire_liste_fichiers; simpl.
  unfold bind, lire_un_fichier, bind, lire_fic; simpl.
  by rewrite !decide_False by done.
Qed.

(** C6, amended.  When FORMAT_DONNEES is neither 'SALLELES' nor
    'POSTE_CENTRAL', a run reads no input file, writes no output file and
    creates no table; the errors of [get_params] (section or key absent,
    malformed line) are configuration errors and end the run; and the run
    fails whenever the pattern FICHIERS_INPUT matches a file. *)
Theorem main_format_inconnu (argv0 inputfile f : string) w :
  config_get (config_read sys inputfile) "params" "FORMAT_DONNEES" = inr f →
  strip f ≠ "SALLELES" → strip f ≠ "POSTE_CENTRAL" →
  ∃ out w', main sys [argv0; inputfile] w = (out, w')
    ∧ lus w' = lus w ∧ ecrits w' = ecrits w ∧ tas w' = tas w
    ∧ (∀ e, get_params (config_read sys inputfile) = inl e →
            out = inl e ∧ ConfigurationError e = true)
    ∧ (∀ fi, config_get (config_read sys inputfile) "params" "FICHIERS_INPUT" = inr fi →
             glob sys fi ≠ [] → ∃ e, out = inl e).
Proof.
  intros Hf H1 H2. unfold main, bind at 1 2, print, lift.
  destruct (get_params (config_read sys inputfile)) as [e|params] eqn:Hparams.
  { do 2 eexists. split; [done|]. split_and!; try done.
    - intros e' [= <-]. split; [done|]. by eapply get_params_erreur.
    - eauto. }
  unfold get_params in Hparams. rewrite Hf in Hparams.
  destruct (config_get _ "params" "FICHIERS_INPUT") as [|fi] eqn:Hfi; [done|].
  destruct (config_get _ "params" "RESULTATS") as [|res] eqn:Hres; [done|].
  destruct (lire_param_format _ (strip f)) as [|d]; [done|].
  set (F := strip f) in *. clearbody F.
  assert (Hp : params = dict_set F (PDict d)
            [("FORMAT_DONNEES", PStr F); ("FICHIERS_INPUT", PStr fi); ("RESULTATS", PStr res)])
    by (by injection Hparams as <-).
  assert (HpF : dict_get "FORMAT_DONNEES" params
                = Some (if decide (F = "FORMAT_DONNEES") then PDict d else PStr F)).
  { rewrite Hp, dict_get_set. destruct (decide (F = "FORMAT_DONNEES")); [done|by vm_compute]. }
  assert (HpI : dict_get "FICHIERS_INPUT" params
                = Some (if decide (F = "FICHIERS_INPUT") then PDict d else PStr fi)).
  { rewrite Hp, dict_get_set. destruct (decide (F = "FICHIERS_INPUT")); [done|by vm_compute]. }
  assert (HpR : dict_get "RESULTATS" params
                = Some (if decide (F = "RESULTATS") then PDict d else PStr res)).
  { rewrite Hp, dict_get_set. destruct (decide (F = "RESULTATS")); [done|by vm_compute]. }
  assert (Hpd : dict_get F params = Some (PDict d)).
  { by rewrite Hp, dict_get_set_eq. }
  clear Hparams Hp. unfold bind, dict_getitem. simpl. rewrite HpF, HpI, HpR. simpl.
  destruct (decide (F = "FORMAT_DONNEES")) as [HF|HF]; simpl.
  { do 2 eexists. split; [done|]. split_and!; try done. eauto. }
  rewrite Hpd; simpl.
  destruct (decide (F = "FICHIERS_INPUT")) as [HI|HI]; simpl.
  { do 2 eexists. split; [done|]. split_and!; try done. eauto. }
  destruct (glob sys fi) as [|fic liste_fic] eqn:Hglob.
  - unfold lire_liste_fichiers; simpl.
    destruct (decide (F = "RESULTATS")) as [HR|HR]; simpl.
    { do 2 eexists. split; [done|]. split_and!; try done. by intros fi' [= <-]. }
    unfold bind.
    destruct (path_exists sys res); simpl; do 2 eexists; (split; [done|]);
      split_and!; try done; by intros fi' [= <-].
  - rewrite lire_liste_fichiers_format_inconnu by done.
    do 2 eexists. split; [done|]. split_and!; try done. eauto.
Qed.
End FormatInconnu.

Lemma main_format_inconnu_witness :
  config_get (config_read sys_autre "params.ini") "params" "FORMAT_DONNEES" = inr "AUTRE"
  ∧ strip "AUTRE" ≠ "SALLELES" ∧ strip "AUTRE" ≠ "POSTE_CENTRAL"
  ∧ ∃ out w', main sys_autre ["lire_donnees_excel.py"; "params.ini"] monde_initial = (out, w')
      ∧ lus w' = [] ∧ ecrits w' = [].
Proof.
  split; [reflexivity|]. split; [by vm_compute|]. split; [by vm_compute|].
  destruct (main_format_inconnu sys_autre "lire_donnees_excel.py" "params.ini" "AUTRE"
              monde_initial) as (out & w' & Hrun & Hlus & Hecrits & _);
    [reflexivity|by vm_compute|by vm_compute|].
  exists out, w'. by split_and!.
Defined.

(** C6 as stated fails: with FORMAT_DONNEES = AUTRE, a section [AUTRE]
    that holds 'col_params' and a pattern that matches no file, the run
    ends without any error. *)
Lemma main_format_inconnu_sans_erreur :
  config_get config_autre "params" "FORMAT_DONNEES" = inr "AUTRE"
  ∧ "AUTRE" ≠ "SALLELES" ∧ "AUTRE" ≠ "POSTE_CENTRAL"
  ∧ (main sys_autre ["lire_donnees_excel.py"; "params.ini"] monde_initial).1 = inr tt.
Proof. split_and!; [reflexivity|done|done|by vm_compute]. Qed.


(** ** The collector: merging the data read in one file *)

Section Integration.
Context {V : Type}.
Implicit Types (w : monde V) (tab_data dico_data : dico_donnees)
  (data_station lu : dict Z nat).

Lemma ajouter_serie_doublon fic lu last_date data_station w :
  dict_in last_date data_station = true →
  ajouter_serie fic lu last_date data_station w
  = (inr data_station,
     mkMonde (tas w) (sortie w ++ [MsgDoublon fic last_date]) (lus w) (ecrits w)).
Proof. intros Hin. unfold ajouter_serie. by rewrite Hin. Qed.

Lemma ajouter_serie_nouveau fic lu last_date data_station w r :
  dict_in last_date data_station = false →
  dict_get last_date lu = Some r →
  ajouter_serie fic lu last_date data_station w
  = (inr (dict_set last_date r data_station), w).
Proof.
  intros Hin Hr. unfold ajouter_serie, bind, dict_getitem. by rewrite Hin, Hr.
Qed.

Lemma ajouter_series_run fic lu dates :
  (∀ v, v ∈ dates → is_Some (dict_get v lu)) →
  NoDup dates →
  ∀ data_station w,
  ∃ data_station' w',
    for_ dates (ajouter_serie fic lu) data_station w = (inr data_station', w')
    ∧ imprime w w'
    ∧ (∀ v, dict_get v data_station'
            = match dict_get v data_station with
              | Some r => Some r
              | None => if decide (v ∈ dates) then dict_get v lu else None
              end)
    ∧ (∀ m, m ∈ sortie w'
            ↔ m ∈ sortie w
              ∨ ∃ v, m = MsgDoublon fic v ∧ v ∈ dates ∧ v ∈ dict_keys data_station)
    ∧ (NoDup (dict_keys data_station) → NoDup (dict_keys data_station')).
Proof.
  induction dates as [|v dates IH]; intros Hlu Hnd data_station w.
  - simpl. exists data_station, w. split_and!; try done.
    + intros v. by destruct (dict_get v data_station).
    + intros m. split; [auto|]. intros [?|(v & _ & Hv & _)]; [done|].
      by apply elem_of_nil in Hv.
  - apply NoDup_cons in Hnd as [Hv Hnd]. cbn [for_]. unfold bind at 1.
    assert (Hlu' : ∀ v', v' ∈ dates → is_Some (dict_get v' lu)).
    { intros v' Hv'. apply Hlu. by right. }
    destruct (dict_in v data_station) eqn:Hin.
    + rewrite ajouter_serie_doublon by done.
      destruct (IH Hlu' Hnd data_station
                  (mkMonde (tas w) (sortie w ++ [MsgDoublon fic v]) (lus w) (ecrits w)))
        as (ds' & w' & -> & Himp & Hget & Hmsg & Hnd').
      exists ds', w'. split_and!; try done.
      * intros v'. rewrite Hget. destruct (dict_get v' data_station) eqn:Hv'; [done|].
        destruct (decide (v' = v)) as [->|Hne].
        { apply dict_in_true, dict_keys_get in Hin as [? ?]. congruence. }
        destruct (decide (v' ∈ dates)).
        -- by rewrite decide_True by (by right).
        -- rewrite decide_False; [done|]. rewrite elem_of_cons. tauto.
      * intros m. rewrite Hmsg; simpl. rewrite elem_of_app, list_elem_of_singleton.
        apply dict_in_true in Hin. split.
        -- intros [[?| ->] |(v' & -> & Hv' & Hk)]; [by left|right..].
           ++ exists v. split_and!; [done|left|done].
           ++ exists v'. split_and!; [done|by right|done].
        -- intros [?|(v' & -> & [-> |Hv']%elem_of_cons & Hk)]; [by left; left|by left; right|].
           right. by exists v'.
    + destruct (Hlu v) as [r Hr]; [left|].
      rewrite (ajouter_serie_nouveau _ _ _ _ _ r) by done.
      destruct (IH Hlu' Hnd (dict_set v r data_station) w)
        as (ds' & w' & -> & Himp & Hget & Hmsg & Hnd').
      apply dict_in_false in Hin.
      exists ds', w'. split_and!; try done.
      * intros v'. rewrite Hget, dict_get_set.
        destruct (decide (v = v')) as [<-|Hne].
        { rewrite (proj2 (dict_get_None v data_station)) by done.
          rewrite decide_True by left. done. }
        destruct (dict_get v' data_station); [done|].
        destruct (decide (v' ∈ dates)).
        -- by rewrite decide_True by (by right).
        -- rewrite decide_False; [done|]. rewrite elem_of_cons. intros [?|?]; [congruence|done].
      * intros m. rewrite Hmsg. split.
        -- intros [?|(v' & -> & Hv' & Hk)]; [by left|right].
           exists v'. split_and!; [done|by right|].
           rewrite dict_keys_set in Hk.
           rewrite (proj2 (dict_in_false v data_station)) in Hk by done.
           apply elem_of_app in Hk as [?|Hk]; [done|].
           apply list_elem_of_singleton in Hk. by subst.
        -- intros [?|(v' & -> & [-> |Hv']%elem_of_cons & Hk)]; [by left|done|].
           right. exists v'. split_and!; try done.
           rewrite dict_keys_set. destruct (dict_in v data_station); [done|].
           apply elem_of_app. by left.
      * intros Hnd0. by apply Hnd', dict_keys_set_NoDup.
Qed.

Lemma dict_set_Forall {K A} `{EqDecision K} (P : A → Prop) (k : K) (a : A) (d : dict K A) :
  Forall (λ ka, P ka.2) d → P a → Forall (λ ka, P ka.2) (dict_set k a d).
Proof.
  intros Hd Ha. induction Hd as [|[k' a'] d Hk Hd IH]; simpl.
  - by repeat constructor.
  - destruct (decide (k = k')); constructor; done.
Qed.

Lemma dict_get_Forall {K A} `{EqDecision K} (P : A → Prop) (k : K) (a : A) (d : dict K A) :
  Forall (λ ka, P ka.2) d → dict_get k d = Some a → P a.
Proof.
  intros Hd Ha. rewrite Forall_forall in Hd. apply (Hd (k, a)). by apply dict_get_elem.
Qed.

Lemma ajouter_station_run fic dico_data nom_station lu tab_data w :
  dict_get nom_station dico_data = Some lu →
  NoDup (dict_keys lu) →
  ∃ tab_data' w',
    ajouter_station fic dico_data nom_station tab_data w = (inr tab_data', w')
    ∧ imprime w w'
    ∧ (∀ s v, reference tab_data' s v
              = match reference tab_data s v with
                | Some r => Some r
                | None => if decide (s = nom_station) then dict_get v lu else None
                end)
    ∧ (∀ m, m ∈ sortie w'
            ↔ m ∈ sortie w
              ∨ ∃ v, m = MsgDoublon fic v ∧ is_Some (dict_get v lu)
                     ∧ is_Some (reference tab_data nom_station v))
    ∧ (dico_valide tab_data → dico_valide tab_data').
Proof.
  intros Hlu Hnd. unfold ajouter_station, bind, dict_getitem.
  set (tab1 := if dict_in nom_station tab_data then tab_data
               else dict_set nom_station [] tab_data).
  set (ds := default [] (dict_get nom_station tab_data)).
  assert (Hds : dict_get nom_station tab1 = Some ds).
  { unfold tab1, ds, dict_in. destruct (dict_get nom_station tab_data) eqn:Hs; [done|].
    apply dict_get_set_eq. }
  assert (Hautres : ∀ s, s ≠ nom_station → dict_get s tab1 = dict_get s tab_data).
  { intros s Hs. unfold tab1. destruct (dict_in nom_station tab_data); [done|].
    by apply dict_get_set_ne. }
  assert (Href : ∀ v, reference tab_data nom_station v = dict_get v ds).
  { intros v. unfold reference, ds. by destruct (dict_get nom_station tab_data). }
  rewrite Hds; simpl. rewrite Hlu; simpl.
  destruct (ajouter_series_run fic lu (dict_keys lu)) with (data_station := ds) (w := w)
    as (ds' & w' & -> & Himp & Hget & Hmsg & Hnd'); [by intros v ?%dict_keys_get|done|].
  exists (dict_set nom_station ds' tab1), w'. split_and!; try done.
  - intros s v. unfold reference at 1. rewrite dict_get_set.
    destruct (decide (nom_station = s)) as [<-|Hne]; simpl.
    + rewrite decide_True by done. rewrite Hget, Href.
      destruct (dict_get v ds); [done|]. destruct (decide (v ∈ dict_keys lu)) as [|Hn]; [done|].
      symmetry. by apply dict_get_None.
    + rewrite Hautres by done. fold (reference tab_data s v).
      rewrite decide_False by done. by destruct (reference tab_data s v).
  - intros m. rewrite Hmsg. split.
    + intros [?|(v & -> & Hv & Hk)]; [by left|right]. exists v. split_and!; [done| |].
      * by apply dict_keys_get.
      * rewrite Href. by apply dict_keys_get.
    + intros [?|(v & -> & Hv & Hk)]; [by left|right]. exists v. split_and!; [done| |].
      * by apply dict_keys_get.
      * apply dict_keys_get. by rewrite <- Href.
  - intros [Hk Hf].
    assert (Hv1 : dico_valide tab1).
    { unfold tab1. destruct (dict_in nom_station tab_data); [done|]. split.
      - by apply dict_keys_set_NoDup.
      - apply (dict_set_Forall (λ l, NoDup (dict_keys l))); [done|constructor]. }
    destruct Hv1 as [Hk1 Hf1]. split.
    + by apply dict_keys_set_NoDup.
    + apply (dict_set_Forall (λ l, NoDup (dict_keys l))); [done|].
      apply Hnd'. apply (dict_get_Forall (λ l, NoDup (dict_keys l)) _ _ _ Hf1 Hds).
Qed.

Lemma integrer_stations_run fic dico_data stations :
  dico_valide dico_data →
  (∀ s, s ∈ stations → s ∈ dict_keys dico_data) →
  NoDup stations →
  ∀ tab_data w,
  ∃ tab_data' w',
    for_ stations (ajouter_station fic dico_data) tab_data w = (inr tab_data', w')
    ∧ imprime w w'
    ∧ (∀ s v, reference tab_data' s v
              = match reference tab_data s v with
                | Some r => Some r
                | None => if decide (s ∈ stations) then reference dico_data s v else None
                end)
    ∧ (∀ m, m ∈ sortie w'
            ↔ m ∈ sortie w
              ∨ ∃ s v, m = MsgDoublon fic v ∧ s ∈ stations
                       ∧ is_Some (reference dico_data s v)
                       ∧ is_Some (reference tab_data s v))
    ∧ (dico_valide tab_data → dico_valide tab_data').
Proof.
  intros [Hdk Hdf]. induction stations as [|s0 stations IH]; intros Hin Hnd tab_data w.
  - simpl. exists tab_data, w. split_and!; try done.
    + intros s v. by destruct (reference tab_data s v).
    + intros m. split; [auto|]. intros [?|(s & v & _ & Hs & _)]; [done|].
      by apply elem_of_nil in Hs.
  - apply NoDup_cons in Hnd as [Hs0 Hnd]. cbn [for_]. unfold bind at 1.
    destruct (proj1 (dict_keys_get s0 dico_data)) as [lu Hlu]; [apply Hin; left|].
    destruct (ajouter_station_run fic dico_data s0 lu tab_data w Hlu)
      as (tab1 & w1 & -> & Himp1 & Href1 & Hmsg1 & Hv1).
    { apply (dict_get_Forall (λ l, NoDup (dict_keys l)) _ _ _ Hdf Hlu). }
    destruct (IH (λ s Hs, Hin s (list_elem_of_further _ _ _ Hs)) Hnd tab1 w1)
      as (tab' & w' & -> & Himp & Href & Hmsg & Hv).
    assert (Hlu' : ∀ v, reference dico_data s0 v = dict_get v lu).
    { intros v. unfold reference. by rewrite Hlu. }
    exists tab', w'. split_and!; try done.
    + destruct Himp1 as (? & ? & ?), Himp as (? & ? & ?). split_and!; congruence.
    + intros s v. rewrite Href, Href1.
      destruct (reference tab_data s v) as [r|]; [done|].
      destruct (decide (s = s0)) as [->|Hne].
      * rewrite (decide_True (P := s0 ∈ s0 :: stations)) by left. rewrite Hlu'.
        destruct (dict_get v lu) eqn:Hv'; [done|]. by destruct (decide (s0 ∈ stations)).
      * destruct (decide (s ∈ stations)).
        -- by rewrite decide_True by (by right).
        -- rewrite decide_False; [done|]. rewrite elem_of_cons. tauto.
    + intros m. rewrite Hmsg, Hmsg1. split.
      * intros [[?|(v & -> & Hv' & Hk)]|(s & v & -> & Hs & Hd & Hk)]; [by left|right..].
        -- exists s0, v. split_and!; [done|left|by rewrite Hlu'|done].
        -- exists s, v. split_and!; [done|by right|done|].
           rewrite Href1 in Hk. destruct (reference tab_data s v); [done|].
           rewrite decide_False in Hk by (by intros ->). by destruct Hk.
      * intros [?|(s & v & -> & [-> |Hs]%elem_of_cons & Hd & Hk)]; [by left; left| |].
        -- left. right. exists v. split_and!; [done|by rewrite <- Hlu'|done].
        -- right. exists s, v. split_and!; try done.
           rewrite Href1. by destruct Hk as [r ->].
    + eauto.
Qed.

(** Lines 195-206 on the data read in a file and the ledgers built so
    far. *)
Lemma integrer_fichier_run fic dico_data tab_data w :
  dico_valide dico_data →
  dico_valide tab_data →
  ∃ tab_data' w',
    integrer_fichier fic dico_data tab_data w = (inr tab_data', w')
    ∧ imprime w w'
    ∧ dico_valide tab_data'
    ∧ (∀ s v r, reference tab_data s v = Some r → reference tab_data' s v = Some r)
    ∧ (∀ s v, reference tab_data s v = None →
              reference tab_data' s v = reference dico_data s v)
    ∧ (∀ m, m ∈ sortie w'
            ↔ m ∈ sortie w
              ∨ ∃ s v, m = MsgDoublon fic v
                       ∧ is_Some (reference dico_data s v)
                       ∧ is_Some (reference tab_data s v)).
Proof.
  intros Hd Ht. unfold integrer_fichier.
  destruct (integrer_stations_run fic dico_data (dict_keys dico_data) Hd) with
    (tab_data := tab_data) (w := w) as (tab' & w' & -> & Himp & Href & Hmsg & Hv);
    [done|apply Hd|].
  exists tab', w'. split_and!; [done|done|auto| | |].
  - intros s v r Hr. by rewrite Href, Hr.
  - intros s v Hr. rewrite Href, Hr. destruct (decide (s ∈ dict_keys dico_data)) as [|Hn]; [done|].
    unfold reference. by rewrite (proj2 (dict_get_None s dico_data)).
  - intros m. rewrite Hmsg. split.
    + intros [?|(s & v & -> & _ & ? & ?)]; [by left|right]. by exists s, v.
    + intros [?|(s & v & -> & Hdv & ?)]; [by left|right]. exists s, v. split_and!; try done.
      apply dict_keys_get. unfold reference in Hdv.
      destruct (dict_get s dico_data); [eauto|by destruct Hdv].
Qed.
End Integration.


(** ** The readers allocate and never look at the heap *)

Section Lecteurs.
Context {V : Type} (sys : systeme V).
Implicit Types (w : monde V) (dico_data : dico_donnees).

Lemma joindre_initial w : joindre w monde_initial = w.
Proof. destruct w. unfold joindre; simpl. by rewrite !app_nil_r. Qed.

Lemma dict_set_fmap {K A B} `{EqDecision K} (f : A → B) (k : K) (a : A) (d : dict K A) :
  (λ ka : K * A, (ka.1, f ka.2)) <$> (dict_set k a d : list (K * A))
  = dict_set k (f a) ((λ ka : K * A, (ka.1, f ka.2)) <$> (d : list (K * A))).
Proof.
  induction d as [|[k' a'] d IH]; csimpl; [done|].
  destruct (decide (k = k')); csimpl; [done|]. by rewrite IH.
Qed.

Lemma dict_get_fmap {K A B} `{EqDecision K} (f : A → B) (k : K) (d : dict K A) :
  dict_get k ((λ ka : K * A, (ka.1, f ka.2)) <$> (d : list (K * A))) = f <$> dict_get k d.
Proof.
  induction d as [|[k' a'] d IH]; csimpl; [done|].
  by destruct (decide (k = k')).
Qed.

Lemma dict_keys_fmap {K A B} `{EqDecision K} (f : A → B) (d : dict K A) :
  dict_keys ((λ ka : K * A, (ka.1, f ka.2)) <$> (d : list (K * A))) = dict_keys d.
Proof. unfold dict_keys. rewrite <- list_fmap_compose. by apply list_fmap_ext. Qed.

Lemma decaler_set n s v r dico_data :
  decaler n (dict_set s (dict_set v r []) dico_data)
  = dict_set s (dict_set v (n + r)%nat []) (decaler n dico_data).
Proof. unfold decaler. by rewrite (dict_set_fmap (decaler_ledger n)). Qed.

Lemma reference_decaler n dico_data s v :
  reference (decaler n dico_data) s v = (λ r, (n + r)%nat) <$> reference dico_data s v.
Proof.
  unfold reference, decaler. rewrite (dict_get_fmap (decaler_ledger n)).
  destruct (dict_get s dico_data) as [l|]; simpl; [|done].
  unfold decaler_ledger. by rewrite (dict_get_fmap (λ r, (n + r)%nat)).
Qed.

Lemma decale_ret {A B} w (f : A → B) (a : A) : decale w f (ret (f a)) (ret a).
Proof. by intros w1. Qed.

Lemma decale_raise {A B} w (f : A → B) e : decale w f (raise e) (raise e).
Proof. by intros w1. Qed.

Lemma decale_lift {A} w (r : resultat_ou_erreur A) : decale w id (lift r) (lift r).
Proof. intros w1. by destruct r. Qed.

Lemma decale_dict_getitem {K A} `{EqDecision K} w (d : dict K A) (k : K) :
  decale w id (dict_getitem d k) (dict_getitem d k).
Proof. intros w1. unfold dict_getitem. by destruct (dict_get k d). Qed.

Lemma decale_bind {A A' B B'} w (f : A → A') (g : B → B')
    (m : M V A') (m1 : M V A) (k : A' → M V B') (k1 : A → M V B) :
  decale w f m m1 → (∀ a, decale w g (k (f a)) (k1 a)) →
  decale w g (bind m k) (bind m1 k1).
Proof.
  intros Hm Hk w1. unfold bind. rewrite Hm.
  destruct (m1 w1) as [[e|a] w1']; [done|]. apply Hk.
Qed.

Lemma decale_noter_lecture w fic onglet :
  decale w id (noter_lecture fic onglet) (noter_lecture fic onglet).
Proof.
  intros w1. unfold noter_lecture, joindre; simpl. by rewrite (assoc_L (++)).
Qed.

Lemma decale_print w m : decale w id (print m) (print m).
Proof. intros w1. unfold print, joindre; simpl. by rewrite (assoc_L (++)). Qed.

Lemma decale_alloc w (df : DataFrame V) :
  decale w (λ r, (length (tas w) + r)%nat) (alloc df) (alloc df).
Proof.
  intros w1. unfold alloc, joindre; simpl. by rewrite length_app, (assoc_L (++)).
Qed.

Lemma decale_for {A S S'} w (f : S → S') (l : list A)
    (body : A → S' → M V S') (body1 : A → S → M V S) s :
  (∀ x s, decale w f (body x (f s)) (body1 x s)) →
  decale w f (for_ l body (f s)) (for_ l body1 s).
Proof.
  intros Hbody. revert s. induction l as [|x l IH]; intros s; cbn [for_].
  - apply decale_ret.
  - eapply decale_bind; [apply Hbody|]. apply IH.
Qed.

Lemma lire_fic_salleles_decale fic dico_param w :
  decale w (decaler (length (tas w)))
    (lire_fic_salleles sys fic dico_param) (lire_fic_salleles sys fic dico_param).
Proof.
  unfold lire_fic_salleles.
  apply (decale_for w (decaler (length (tas w))) _ _ _ []).
  intros onglet resultat.
  eapply decale_bind; [apply decale_noter_lecture|]. intros _.
  eapply decale_bind; [apply decale_lift|]. intros data_lue.
  eapply decale_bind; [apply decale_dict_getitem|]. intros cols.
  eapply decale_bind; [apply decale_lift|]. intros data_lue'.
  eapply decale_bind; [apply decale_lift|]. intros last_date.
  eapply decale_bind; [apply decale_alloc|]. intros r.
  rewrite <- decaler_set. apply decale_ret.
Qed.

Lemma lire_fic_poste_central_decale fic dico_param w :
  decale w (decaler (length (tas w)))
    (lire_fic_poste_central sys fic dico_param) (lire_fic_poste_central sys fic dico_param).
Proof.
  unfold lire_fic_poste_central.
  eapply decale_bind; [apply decale_noter_lecture|]. intros _.
  eapply decale_bind; [apply decale_lift|]. intros data_lue.
  eapply decale_bind; [apply decale_lift|]. intros chronique_lue.
  eapply decale_bind; [apply decale_lift|]. intros last_date.
  apply (decale_for w (decaler (length (tas w))) _ _ _ []).
  intros station resultat.
  eapply decale_bind; [apply decale_dict_getitem|]. intros cols.
  eapply decale_bind; [apply decale_lift|]. intros df.
  eapply decale_bind; [apply decale_alloc|]. intros r.
  rewrite <- decaler_set. apply decale_ret.
Qed.

Lemma lire_fic_decale format_donnees fic dico_param w :
  decale w (decaler (length (tas w)))
    (lire_fic sys format_donnees fic dico_param) (lire_fic sys format_donnees fic dico_param).
Proof.
  unfold lire_fic. repeat case_decide.
  - apply lire_fic_salleles_decale.
  - apply lire_fic_poste_central_decale.
  - apply decale_raise.
Qed.
End Lecteurs.


(** ** What the readers return *)

Section LecteursInvariants.
Context {V : Type} (sys : systeme V).
Implicit Types (w : monde V) (dico_data : dico_donnees).

Lemma bind_inr {A B} (m : M V A) (k : A → M V B) w b w' :
  bind m k w = (inr b, w') → ∃ a w1, m w = (inr a, w1) ∧ k a w1 = (inr b, w').
Proof. unfold bind. destruct (m w) as [[e|a] w1]; [done|]. eauto. Qed.

Lemma lift_inr {A} (r : resultat_ou_erreur A) w a w' :
  lift r w = (inr a, w') → r = inr a ∧ w' = w.
Proof. destruct r; [done|]. by intros [= -> ->]. Qed.

Lemma dict_getitem_inr {K A} `{EqDecision K} (d : dict K A) k w a w' :
  dict_getitem d k w = (inr a, w') → dict_get k d = Some a ∧ w' = w.
Proof. unfold dict_getitem. destruct (dict_get k d); [|done]. by intros [= -> ->]. Qed.

Lemma for_invariant {A S} (I : S → monde V → Prop) (l : list A)
    (body : A → S → M V S) :
  (∀ x s w s' w', I s w → body x s w = (inr s', w') → I s' w') →
  ∀ s w s' w', I s w → for_ l body s w = (inr s', w') → I s' w'.
Proof.
  intros Hbody. induction l as [|x l IH]; intros s w s' w' HI; cbn [for_].
  - by intros [= <- <-].
  - intros (s1 & w1 & H1 & H2)%bind_inr. eauto.
Qed.

Lemma reference_set_singleton dico_data s v r s' v' r' :
  reference (dict_set s (dict_set v r []) dico_data) s' v' = Some r' →
  (s' = s ∧ v' = v ∧ r' = r) ∨ (s' ≠ s ∧ reference dico_data s' v' = Some r').
Proof.
  unfold reference. rewrite dict_get_set.
  destruct (decide (s = s')) as [<-|Hne]; simpl.
  - destruct (decide (v' = v)) as [->|]; [|done]. intros [= <-]. by left.
  - intros ?. right. split; [done|]. done.
Qed.

Lemma lecture_en_cours_alloc w0 resultat w s v (df : DataFrame V) :
  lecture_en_cours w0 resultat w →
  lecture_en_cours w0 (dict_set s (dict_set v (length (tas w)) []) resultat)
    (mkMonde (tas w ++ [df]) (sortie w) (lus w) (ecrits w)).
Proof.
  intros ([Hk Hf] & Hr & Hne & Hp & Hs & He). split_and!; try done.
  - split; [by apply dict_keys_set_NoDup|].
    apply (dict_set_Forall (λ l, NoDup (dict_keys l))); [done|]. apply NoDup_singleton.
  - intros s' v' r' [(-> & -> & ->)|[_ Hr']]%reference_set_singleton; simpl.
    + rewrite length_app; simpl. lia.
    + apply Hr in Hr'. rewrite length_app; simpl. lia.
  - by apply (dict_set_Forall (λ l, l ≠ [])).
  - simpl. etrans; [done|]. by apply prefix_app_r.
Qed.

Lemma lecture_en_cours_lus w0 resultat w l :
  lecture_en_cours w0 resultat w →
  lecture_en_cours w0 resultat (mkMonde (tas w) (sortie w) l (ecrits w)).
Proof. by intros (? & ? & ? & ? & ? & ?). Qed.

Lemma lire_fic_salleles_resultat fic dico_param w dico_data w' :
  lire_fic_salleles sys fic dico_param w = (inr dico_data, w') →
  lecture_en_cours w dico_data w'.
Proof.
  unfold lire_fic_salleles. apply (for_invariant (lecture_en_cours w)).
  - intros onglet resultat w1 resultat' w1' HI.
    intros (? & w2 & [= <- <-] & H)%bind_inr.
    apply bind_inr in H as (data & ? & [_ ->]%lift_inr & H).
    apply bind_inr in H as (cols & ? & [_ ->]%dict_getitem_inr & H).
    apply bind_inr in H as (data' & ? & [_ ->]%lift_inr & H).
    apply bind_inr in H as (last_date & ? & [_ ->]%lift_inr & H).
    apply bind_inr in H as (r & ? & [= <- <-] & [= <- <-]).
    apply (lecture_en_cours_alloc w _ (mkMonde _ _ _ _)).
    by apply lecture_en_cours_lus.
  - split_and!; try done. split; constructor.
Qed.

Lemma lire_fic_poste_central_resultat fic dico_param w dico_data w' :
  lire_fic_poste_central sys fic dico_param w = (inr dico_data, w') →
  lecture_en_cours w dico_data w'.
Proof.
  unfold lire_fic_poste_central.
  intros (? & w2 & [= <- <-] & H)%bind_inr.
  apply bind_inr in H as (data & ? & [_ ->]%lift_inr & H).
  apply bind_inr in H as (chronique & ? & [_ ->]%lift_inr & H).
  apply bind_inr in H as (last_date & ? & [_ ->]%lift_inr & H).
  revert H. apply (for_invariant (lecture_en_cours w)).
  - intros station resultat w1 resultat' w1' HI.
    intros (cols & ? & [_ ->]%dict_getitem_inr & H)%bind_inr.
    apply bind_inr in H as (df & ? & [_ ->]%lift_inr & H).
    apply bind_inr in H as (r & ? & [= <- <-] & [= <- <-]).
    by apply lecture_en_cours_alloc.
  - split_and!; try done. split; constructor.
Qed.

Lemma lire_fic_resultat format_donnees fic dico_param w dico_data w' :
  lire_fic sys format_donnees fic dico_param w = (inr dico_data, w') →
  lecture_en_cours w dico_data w'.
Proof.
  unfold lire_fic. repeat case_decide.
  - apply lire_fic_salleles_resultat.
  - apply lire_fic_poste_central_resultat.
  - done.
Qed.
End LecteursInvariants.


(** ** The collector over a list of files *)

Section CollecteRun.
Context {V : Type} (sys : systeme V).
Implicit Types (w : monde V) (tab_data dico_data : dico_donnees).

Lemma extrait_reference w tab_data s v :
  extrait w tab_data s v
  = match reference tab_data s v with
    | Some r => tas w !! r
    | None => None
    end.
Proof.
  unfold extrait, reference. destruct (dict_get s tab_data) as [l|]; simpl; [|done].
  by destruct (dict_get v l).
Qed.

Lemma dico_valide_decaler n dico_data :
  dico_valide dico_data → dico_valide (decaler n dico_data).
Proof.
  intros [Hk Hf]. unfold decaler. split.
  - by rewrite (dict_keys_fmap (decaler_ledger n)).
  - apply Forall_fmap. eapply Forall_impl; [done|]. intros [s l] Hl; simpl in *.
    unfold decaler_ledger. by rewrite (dict_keys_fmap (λ r, (n + r)%nat)).
Qed.

Lemma lire_un_fichier_run dico_param format_donnees fic tab_data w :
  refs_valides w tab_data → dico_valide tab_data →
  match lire_fic sys format_donnees fic dico_param monde_initial with
  | (inr _, _) =>
      ∃ tab_data' w',
        lire_un_fichier sys dico_param format_donnees fic tab_data w = (inr tab_data', w')
        ∧ tas w `prefix_of` tas w' ∧ ecrits w' = ecrits w
        ∧ refs_valides w' tab_data' ∧ dico_valide tab_data'
        ∧ ∀ s v, extrait w' tab_data' s v
                 = match extrait w tab_data s v with
                   | Some d => Some d
                   | None => tables_lues sys format_donnees dico_param fic s v
                   end
  | (inl e, _) =>
      ∃ w', lire_un_fichier sys dico_param format_donnees fic tab_data w = (inl e, w')
  end.
Proof.
  intros Hrefs Hval. unfold lire_un_fichier, bind, print. cbv beta iota.
  set (wp := mkMonde (tas w) (sortie w ++ [MsgLecture fic]) (lus w) (ecrits w)).
  pose proof (lire_fic_decale sys format_donnees fic dico_param wp monde_initial) as Hdec.
  rewrite joindre_initial in Hdec. unfold tables_lues.
  destruct (lire_fic sys format_donnees fic dico_param monde_initial)
    as [[e|d0] w0] eqn:Hlu; rewrite Hdec; [by eexists|].
  apply lire_fic_resultat in Hlu as (Hv0 & Hr0 & _ & _ & _ & He0).
  destruct (integrer_fichier_run fic (decaler (length (tas wp)) d0) tab_data
              (joindre wp w0)) as (tab' & w' & -> & (Ht & _ & He) & Hv' & Hold & Hnew & _);
    [by apply dico_valide_decaler|done|].
  simpl in Ht, He. exists tab', w'. split_and!; try done.
  - rewrite Ht. by apply prefix_app_r.
  - rewrite He, He0. simpl. by rewrite app_nil_r.
  - intros s v r Hr. rewrite Ht, length_app.
    destruct (reference tab_data s v) as [r0|] eqn:Href.
    + rewrite (Hold _ _ _ Href) in Hr. injection Hr as <-.
      apply Hrefs in Href. lia.
    + rewrite (Hnew _ _ Href), reference_decaler in Hr.
      destruct (reference d0 s v) as [r0|] eqn:Hr0'; [|done].
      injection Hr as <-. apply Hr0 in Hr0'. simpl. lia.
  - intros s v. rewrite !extrait_reference.
    destruct (reference tab_data s v) as [r0|] eqn:Href.
    + rewrite (Hold _ _ _ Href), Ht. pose proof (Hrefs _ _ _ Href) as Hlt.
      rewrite lookup_app_l by done.
      by destruct (lookup_lt_is_Some_2 _ _ Hlt) as [d ->].
    + rewrite (Hnew _ _ Href), reference_decaler.
      destruct (reference d0 s v) as [r0|]; simpl; [|done].
      rewrite Ht. by rewrite lookup_app_r, Nat.add_sub' by lia.
Qed.

Lemma lire_liste_run dico_param format_donnees liste_fic :
  ∀ tab_data w,
  refs_valides w tab_data → dico_valide tab_data →
  ∃ out w', for_ liste_fic (lire_un_fichier sys dico_param format_donnees) tab_data w
            = (out, w')
    ∧ ((∀ fic, fic ∈ liste_fic →
          ∃ d0 w0, lire_fic sys format_donnees fic dico_param monde_initial = (inr d0, w0)) →
       ∃ tab_data', out = inr tab_data'
         ∧ tas w `prefix_of` tas w' ∧ ecrits w' = ecrits w
         ∧ refs_valides w' tab_data' ∧ dico_valide tab_data'
         ∧ ∀ s v, extrait w' tab_data' s v
                  = match extrait w tab_data s v with
                    | Some d => Some d
                    | None => premiere_table sys format_donnees dico_param liste_fic s v
                    end)
    ∧ (∀ tab_data', out = inr tab_data' →
         ∀ fic, fic ∈ liste_fic →
           ∃ d0 w0, lire_fic sys format_donnees fic dico_param monde_initial = (inr d0, w0)).
Proof.
  induction liste_fic as [|fic liste_fic IH]; intros tab_data w Hrefs Hval.
  - simpl. exists (inr tab_data), w. split; [done|]. split.
    + intros _. exists tab_data. split_and!; try done.
      intros s v. by destruct (extrait w tab_data s v).
    + intros ? _ fic Hfic. by apply elem_of_nil in Hfic.
  - cbn [for_]. unfold bind at 1.
    pose proof (lire_un_fichier_run dico_param format_donnees fic tab_data w Hrefs Hval) as H1.
    destruct (lire_fic sys format_donnees fic dico_param monde_initial)
      as [[e|d0] w0] eqn:Hlu.
    { destruct H1 as [w' ->]. exists (inl e), w'. split; [done|]. split.
      - intros Hok. destruct (Hok fic) as (? & ? & ?); [left|]. congruence.
      - done. }
    destruct H1 as (tab1 & w1 & -> & Hp1 & He1 & Hrefs1 & Hval1 & Hext1).
    destruct (IH tab1 w1 Hrefs1 Hval1) as (out & w' & -> & Hok & Hback).
    exists out, w'. split; [done|]. split.
    + intros Hall. destruct Hok as (tab' & -> & Hp & He & Hrefs' & Hval' & Hext).
      { intros f Hf. apply Hall. by right. }
      exists tab'. split_and!; try done.
      * by etrans.
      * congruence.
      * intros s v. rewrite Hext, Hext1. simpl.
        destruct (extrait w tab_data s v); [done|].
        by destruct (tables_lues sys format_donnees dico_param fic s v).
    + intros tab' -> f [->|Hf]%elem_of_cons; [eauto|]. by eapply Hback.
Qed.
End CollecteRun.


(** ** Order of the files *)

Section Permutation.
Context {V : Type} (sys : systeme V).
Implicit Types (w : monde V) (tab_data : dico_donnees).




Lemma tab_valide_intro w tab_data :
  dico_valide tab_data → refs_valides w tab_data → tab_valide w tab_data.
Proof.
  intros [Hk Hf] Hr. split; [done|]. apply Forall_forall. intros [s l] Hsl.
  rewrite Forall_forall in Hf. split; [apply (Hf _ Hsl)|].
  apply Forall_forall. intros [v r] Hvr; simpl. apply (Hr s v).
  unfold reference. rewrite (dict_elem_get _ _ _ Hk Hsl); simpl.
  apply dict_elem_get; [|done]. apply (Hf _ Hsl).
Qed.









End Permutation.


(** ** The tables the readers build are well formed *)

Section LecteursTables.
Context {V : Type} (sys : systeme V).
Implicit Types (w : monde V) (df : DataFrame V) (dico_data : dico_donnees).

Lemma getitem_spec df cols df' :
  getitem df cols = inr df' →
  columns df' = cols
  ∧ Forall (λ l, length l.2 = length cols) (lignes df')
  ∧ index df' = index df.
Proof.
  unfold getitem. destruct (positions cols (columns df)) as [e|js] eqn:Hjs; [done|].
  intros [= <-]. split_and!; simpl.
  - done.
  - apply Forall_fmap, Forall_forall. intros l _; simpl. rewrite length_fmap.
    clear -Hjs. revert js Hjs. induction cols as [|c cols IH]; intros js; simpl.
    + by intros [= <-].
    + destruct (position c (columns df)); [|done].
      destruct (positions cols (columns df)) as [|js']; [done|].
      intros [= <-]. simpl. f_equal. by apply IH.
  - unfold index; simpl. rewrite <- list_fmap_compose. by apply list_fmap_ext.
Qed.







End LecteursTables.

(** ** Duplicate dernières dates *)

(** C4 (duplicate rejection, first seen wins).  Lines 195-206, on the data
    read in a file and the ledgers built so far: the merge never raises and
    modifies no table; an extract whose dernière date is already recorded
    for its station is skipped, the ledger keeping the reference it had,
    and the warning naming the file and the date is printed for it and for
    no other; the other extracts are recorded; no station and no date ever
    appears twice.  In the scenario of the two files A then B that end on
    the same date with values 1 and 2, the ledger keeps the extract of A
    alone, the warning names B, and the aggregated series is the table of
    A, which holds 1. *)
Theorem integrer_fichier_premier_vu {V} fic dico_data tab_data (w : monde V) :
  dico_valide dico_data →
  dico_valide tab_data →
  (∃ tab_data' w',
     integrer_fichier fic dico_data tab_data w = (inr tab_data', w')
     ∧ imprime w w'
     ∧ dico_valide tab_data'
     ∧ (∀ s v r, reference tab_data s v = Some r → reference tab_data' s v = Some r)
     ∧ (∀ s v, reference tab_data s v = None →
               reference tab_data' s v = reference dico_data s v)
     ∧ (∀ m, m ∈ sortie w'
             ↔ m ∈ sortie w
               ∨ ∃ s v, m = MsgDoublon fic v
                        ∧ is_Some (reference dico_data s v)
                        ∧ is_Some (reference tab_data s v)))
  ∧ lire_fichiers_excel sys_doublon (PStr "*.xlsx") dico_param_cesse "SALLELES"
      monde_initial
    = (inr [("Cesse", [(20250110, 0%nat)])], monde_doublon)
  ∧ aggreger_donnees [("Cesse", [(20250110, 0%nat)])] monde_doublon
    = (inr [("Cesse", 0%nat)], monde_doublon)
  ∧ serie monde_doublon [("Cesse", 0%nat)] "Cesse" = Some table_A
  ∧ valeur_en table_A 20250110 "debit" = Some 1.
Proof.
  intros Hd Ht. split; [by apply integrer_fichier_run|].
  split_and!; by vm_compute.
Qed.

Lemma integrer_fichier_premier_vu_witness :
  dico_valide [("Cesse", [(20250110, 1%nat)])]
  ∧ dico_valide [("Cesse", [(20250110, 0%nat)])]
  ∧ ∃ tab_data' w',
      integrer_fichier "B.xlsx" [("Cesse", [(20250110, 1%nat)])]
        [("Cesse", [(20250110, 0%nat)])] (mkMonde [table_A; table_B] [] [] [])
      = (inr tab_data', w')
      ∧ reference tab_data' "Cesse" 20250110 = Some 0%nat
      ∧ MsgDoublon "B.xlsx" 20250110 ∈ sortie w'.
Proof.
  assert (H1 : dico_valide [("Cesse", [(20250110, 1%nat)])]).
  { split; [apply NoDup_singleton|]. constructor; [apply NoDup_singleton|constructor]. }
  assert (H0 : dico_valide [("Cesse", [(20250110, 0%nat)])]).
  { split; [apply NoDup_singleton|]. constructor; [apply NoDup_singleton|constructor]. }
  split; [done|]. split; [done|].
  destruct (integrer_fichier_premier_vu "B.xlsx" [("Cesse", [(20250110, 1%nat)])]
              [("Cesse", [(20250110, 0%nat)])] (mkMonde [table_A; table_B] [] [] []) H1 H0)
    as [(tab' & w' & Hrun & _ & _ & Hold & _ & Hmsg) _].
  exists tab', w'. split_and!; [done| |].
  - by apply Hold.
  - apply Hmsg. right. exists "Cesse", 20250110. split_and!; [done|by eexists|by eexists].
Defined.

(** ** Witnesses and counterexamples *)

Lemma extrait_cesse v d :
  extrait monde_cesse tab_cesse "Cesse" v = Some d →
  (v = 20250112 ∧ d = extrait_Y) ∨ (v = 20250110 ∧ d = extrait_X).
Proof.
  unfold extrait; simpl. repeat case_decide; simpl; intros [= <-]; auto.
Qed.




Lemma aggreger_donnees_idempotent_witness :
  tab_valide monde_cesse tab_cesse
  ∧ ∃ resultat1 w1, aggreger_donnees tab_cesse monde_cesse = (inr resultat1, w1)
      ∧ tas w1 !! 0%nat = Some extrait_X ∧ tas w1 !! 1%nat = Some extrait_Y
      ∧ ∃ resultat2 w2, aggreger_donnees tab_cesse w1 = (inr resultat2, w2)
          ∧ serie w2 resultat2 "Cesse" = serie w1 resultat1 "Cesse".
Proof.
  split; [compute_done|].
  destruct (aggreger_donnees tab_cesse monde_cesse) as [[e|resultat1] w1] eqn:Hrun;
    [by vm_compute in Hrun|].
  destruct (aggreger_donnees_idempotent monde_cesse tab_cesse resultat1 w1)
    as (Hobj & _ & resultat2 & w2 & Hrun2 & _ & Hs); [compute_done|done|].
  exists resultat1, w1. split_and!; [done|by apply Hobj|by apply Hobj|].
  exists resultat2, w2. split; [done|]. apply Hs.
Defined.

Lemma aggreger_donnees_stations_witness :
  tab_valide monde_cesse tab_cesse
  ∧ ∃ resultat w', aggreger_donnees tab_cesse monde_cesse = (inr resultat, w')
      ∧ dict_keys resultat = ["Cesse"].
Proof.
  split; [compute_done|].
  destruct (aggreger_donnees_stations monde_cesse tab_cesse) as [Hk Hret];
    [compute_done|].
  destruct Hret as (resultat & w' & Hrun); [compute_done|].
  exists resultat, w'. split; [done|].
  destruct (Hk resultat w' Hrun) as (-> & _). reflexivity.
Defined.

(** C10 as stated fails on a station whose ledger is empty: it gets no
    series, and is not a key of the result. *)
Lemma aggreger_donnees_station_sans_extrait :
  tab_bien_forme (V := Z) monde_initial [("Cesse", [])]
  ∧ aggreger_donnees (V := Z) [("Cesse", [])] monde_initial = (inr [], monde_initial)
  ∧ dict_keys (K := string) (A := dict Z nat) [("Cesse", [])] = ["Cesse"]
  ∧ dict_keys (K := string) (A := nat) [] = [].
Proof. split_and!; [compute_done|done..]. Qed.





(** ** The whole run *)

(** What the collector returns is a dict of dicts of live objects. *)
Lemma lire_liste_fichiers_valide {V} (sys : systeme V) liste_fic dico_param
    format_donnees (w : monde V) tab_data w' :
  lire_liste_fichiers sys liste_fic dico_param format_donnees w = (inr tab_data, w') →
  tab_valide w' tab_data.
Proof.
  intros Hrun. unfold lire_liste_fichiers in Hrun.
  assert (Hr0 : refs_valides w []) by done.
  assert (Hv0 : dico_valide []) by (split; constructor).
  destruct (lire_liste_run sys dico_param format_donnees liste_fic [] w Hr0 Hv0)
    as (out & w2 & Hrun2 & Hok & Hback).
  rewrite Hrun in Hrun2. injection Hrun2 as <- <-.
  destruct Hok as (tab' & [= <-] & _ & _ & Hrefs & Hval & _); [by eapply Hback|].
  by apply tab_valide_intro.
Qed.

(** The end-to-end scenario of station Cesse: the two files are read, Y
    first, and the series written holds the rows of X up to 2025-01-09,
    then those of Y, whose value 5.5 replaces 5.4 at 2025-01-10 while the
    cell Y leaves missing keeps the value of X. *)
Example main_cesse :
  main sys_cesse ["lire_donnees_excel.py"; "params.ini"] monde_initial
  = (inr tt,
     mkMonde
       [extrait_Y; extrait_X;
        mkDataFrame ["debit"; "cote"]
          [(20250108, [Some 50; Some 1]); (20250109, [Some 52; Some 2]);
           (20250110, [Some 55; Some 3]); (20250111, [Some 56; Some 5]);
           (20250112, [Some 57; Some 6])]]
       [MsgInputFile "params.ini"; MsgLecture "Y.xlsx"; MsgLecture "X.xlsx";
        MsgEnregistrement "sorties/export_Cesse_.csv"]
       [("Y.xlsx", "Cesse"); ("X.xlsx", "Cesse")]
       [("sorties/export_Cesse_.csv",
         mkDataFrame ["debit"; "cote"]
           [(20250108, [Some 50; Some 1]); (20250109, [Some 52; Some 2]);
            (20250110, [Some 55; Some 3]); (20250111, [Some 56; Some 5]);
            (20250112, [Some 57; Some 6])])]).
Proof. by vm_compute. Qed.


(** * Further properties *)

(** ** The extraction parameters: grouping of the lines *)

Lemma dict_set_set {K A} `{EqDecision K} (k : K) (x y : A) (d : dict K A) :
  dict_set k x (dict_set k y d) = dict_set k x d.
Proof.
  induction d as [|[k' a] d IH]; simpl.
  - by rewrite decide_True.
  - destruct (decide (k = k')) as [->|Hk]; simpl.
    + by rewrite decide_True.
    + rewrite decide_False by done. by rewrite IH.
Qed.

Lemma _extraire_ligne_cle_valeur resultat ligne :
  _extraire_ligne resultat ligne
  = match cle_valeur ligne with
    | Some (k, v) => inr (dict_set k (default [] (dict_get k resultat) ++ [v]) resultat)
    | None => inl ValueError
    end.
Proof.
  unfold _extraire_ligne, cle_valeur.
  destruct (split deux_points ligne) as [|k [|v [|? ?]]]; try done.
  unfold dict_in. destruct (dict_get (strip k) resultat) eqn:Hk; [by rewrite Hk|].
  by rewrite dict_get_set_eq, dict_set_set.
Qed.

Lemma premieres_ext vus vus' l :
  (∀ k, k ∈ vus ↔ k ∈ vus') → premieres vus l = premieres vus' l.
Proof.
  revert vus vus'. induction l as [|k r IH]; intros vus vus' Hv; simpl; [done|].
  destruct (decide (k ∈ vus)) as [Hk|Hk].
  - rewrite decide_True by by apply Hv. by apply IH.
  - rewrite decide_False by by rewrite <- Hv. f_equal. apply IH.
    intros k'. rewrite !elem_of_cons. by rewrite Hv.
Qed.

Lemma premieres_spec vus l :
  NoDup (premieres vus l)
  ∧ ∀ k, k ∈ premieres vus l ↔ k ∈ l ∧ k ∉ vus.
Proof.
  revert vus. induction l as [|k r IH]; intros vus; simpl.
  - split; [constructor|]. intros k. rewrite elem_of_nil. tauto.
  - destruct (decide (k ∈ vus)) as [Hk|Hk].
    + destruct (IH vus) as [Hn He]. split; [done|].
      intros k'. rewrite He, elem_of_cons. split; [tauto|].
      intros [[->|?] ?]; tauto.
    + destruct (IH (k :: vus)) as [Hn He]. split.
      * constructor; [|done]. rewrite He, elem_of_cons. tauto.
      * intros k'. rewrite !elem_of_cons, He, elem_of_cons.
        destruct (decide (k' = k)) as [->|]; tauto.
Qed.

Lemma _extraire_lignes_regroupe lignes :
  ∀ resultat d,
  _extraire_lignes lignes resultat = inr d →
  ∃ kvs, Forall2 (λ ligne kv, cle_valeur ligne = Some kv) lignes kvs
    ∧ dict_keys d = dict_keys resultat ++ premieres (dict_keys resultat) kvs.*1
    ∧ (∀ k, default [] (dict_get k d)
            = default [] (dict_get k resultat) ++ (filter (λ kv, kv.1 = k) kvs).*2)
    ∧ (Forall (λ kv, kv.2 ≠ []) resultat → Forall (λ kv, kv.2 ≠ []) d).
Proof.
  induction lignes as [|ligne reste IH]; intros resultat d; simpl.
  - intros [= <-]. exists []. split_and!; [constructor| |intros k|done].
    + simpl. by rewrite app_nil_r.
    + simpl. by rewrite app_nil_r.
  - rewrite _extraire_ligne_cle_valeur.
    destruct (cle_valeur ligne) as [[k v]|] eqn:Hl; [|done].
    intros Hd. apply IH in Hd as (kvs & Hkvs & Hkeys & Hval & Hne).
    exists ((k, v) :: kvs). split_and!.
    + by constructor.
    + rewrite Hkeys, dict_keys_set. simpl.
      destruct (dict_in k resultat) eqn:Hin.
      * apply dict_in_true in Hin. by rewrite decide_True.
      * apply dict_in_false in Hin. rewrite decide_False by done.
        rewrite <- (assoc_L (++)). simpl. do 2 f_equal.
        apply premieres_ext. intros k'. rewrite elem_of_app, !elem_of_cons, elem_of_nil. tauto.
    + intros k'. rewrite Hval, dict_get_set. rewrite filter_cons. simpl.
      destruct (decide (k = k')) as [->|Hk]; simpl.
      * by rewrite <- (assoc_L (++)).
      * done.
    + intros Hr. apply Hne. apply (dict_set_Forall (λ l, l ≠ [])); [done|].
      by destruct (default [] (dict_get k resultat)).
Qed.

(** X1. On the string of the extraction parameters, when it is accepted,
    [_extraire_col_params] groups the lines by key: every line is a pair
    'key : value'; the keys of the dict are the stripped keys of the
    lines, each once, in the order of their first occurrence; and the
    list stored under a key holds the stripped values of the lines of that
    key, in the order of the lines. *)
Theorem _extraire_col_params_regroupe (str_colonnes : string) d :
  _extraire_col_params str_colonnes = inr d →
  ∃ kvs,
    Forall2 (λ ligne kv, cle_valeur ligne = Some kv)
      (split saut_de_ligne str_colonnes) kvs
    ∧ dict_keys d = premieres [] kvs.*1
    ∧ NoDup (dict_keys d)
    ∧ (∀ k, k ∈ dict_keys d ↔ k ∈ kvs.*1)
    ∧ ∀ k, dict_get k d
           = if decide (k ∈ kvs.*1)
             then Some (filter (λ kv, kv.1 = k) kvs).*2
             else None.
Proof.
  intros Hd. apply _extraire_lignes_regroupe in Hd as (kvs & Hkvs & Hkeys & Hval & _).
  simpl in Hkeys. exists kvs.
  destruct (premieres_spec [] kvs.*1) as [Hn He].
  assert (∀ k, k ∈ dict_keys d ↔ k ∈ kvs.*1) as Hin.
  { intros k. rewrite Hkeys, He. rewrite elem_of_nil. tauto. }
  split_and!; [done|done|by rewrite Hkeys|done|].
  intros k. specialize (Hval k). simpl in Hval.
  destruct (decide (k ∈ kvs.*1)) as [Hk|Hk].
  - apply Hin, dict_keys_get in Hk as [l Hl]. rewrite Hl in *. simpl in Hval. by rewrite Hval.
  - apply dict_get_None. by rewrite Hin.
Qed.

Lemma _extraire_col_params_regroupe_witness :
  _extraire_col_params col_params_cesse = inr dico_param_debit_cote
  ∧ dict_get "Cesse" dico_param_debit_cote = Some ["debit"; "cote"]
  ∧ ∃ kvs, Forall2 (λ ligne kv, cle_valeur ligne = Some kv)
             (split saut_de_ligne col_params_cesse) kvs
           ∧ dict_keys dico_param_debit_cote = premieres [] kvs.*1.
Proof.
  split_and!; [reflexivity..|].
  destruct (_extraire_col_params_regroupe col_params_cesse dico_param_debit_cote)
    as (kvs & ? & ? & _); [reflexivity|].
  by exists kvs.
Defined.

Lemma sum_list_dict_set (k : string) (x : list string) (d : dict string (list string)) :
  (sum_list (length <$> (dict_set k x d).*2) + length (default [] (dict_get k d))
   = sum_list (length <$> d.*2) + length x)%nat.
Proof.
  induction d as [|[k' a] d IH]; simpl; [lia|].
  destruct (decide (k = k')) as [->|Hk]; csimpl in *; lia.
Qed.

Lemma _extraire_lignes_compte lignes :
  ∀ resultat d,
  _extraire_lignes lignes resultat = inr d →
  sum_list (length <$> d.*2) = (sum_list (length <$> resultat.*2) + length lignes)%nat
  ∧ (lignes ≠ [] → d ≠ []).
Proof.
  induction lignes as [|ligne reste IH]; intros resultat d; simpl.
  - intros [= <-]. split; [lia|done].
  - rewrite _extraire_ligne_cle_valeur.
    destruct (cle_valeur ligne) as [[k v]|] eqn:Hl; [|done].
    intros Hd. destruct reste as [|l2 reste].
    + simpl in Hd. injection Hd as <-. split.
      * pose proof (sum_list_dict_set k (default [] (dict_get k resultat) ++ [v]) resultat) as Hs.
        rewrite length_app in Hs. simpl in *. lia.
      * intros _. by destruct resultat as [|[k' a] ?]; simpl; [|destruct (decide (k = k'))].
    + apply IH in Hd as [Hs Hne]. split; [|intros _; by apply Hne].
      pose proof (sum_list_dict_set k (default [] (dict_get k resultat) ++ [v]) resultat) as Hs'.
      rewrite length_app in Hs'. simpl in *. lia.
Qed.

(** X2. The dict returned by [_extraire_col_params] is never empty, no key
    of it holds an empty list, and the lists hold together exactly one
    value per line of the string: no line is lost and none counts
    twice. *)
Theorem _extraire_col_params_une_valeur_par_ligne (str_colonnes : string) d :
  _extraire_col_params str_colonnes = inr d →
  d ≠ []
  ∧ Forall (λ kv, kv.2 ≠ []) d
  ∧ sum_list (length <$> d.*2) = length (split saut_de_ligne str_colonnes).
Proof.
  intros Hd. unfold _extraire_col_params in Hd.
  destruct (_extraire_lignes_compte _ _ _ Hd) as [Hs Hne].
  apply _extraire_lignes_regroupe in Hd as (kvs & _ & _ & _ & Hv).
  split_and!.
  - apply Hne. pose proof (split_length saut_de_ligne str_colonnes).
    by destruct (split saut_de_ligne str_colonnes).
  - by apply Hv.
  - by rewrite Hs.
Qed.

Lemma _extraire_col_params_une_valeur_par_ligne_witness :
  _extraire_col_params col_params_cesse = inr dico_param_debit_cote
  ∧ sum_list (length <$> dico_param_debit_cote.*2)
    = length (split saut_de_ligne col_params_cesse).
Proof.
  split; [reflexivity|].
  by destruct (_extraire_col_params_une_valeur_par_ligne col_params_cesse
                 dico_param_debit_cote) as (_ & _ & ?); [reflexivity|].
Defined.


(** ** The parameters read from the .ini file *)

Lemma get_params_inr cfg params :
  get_params cfg = inr params →
  ∃ f fi r d,
    config_get cfg "params" "FORMAT_DONNEES" = inr f
    ∧ config_get cfg "params" "FICHIERS_INPUT" = inr fi
    ∧ config_get cfg "params" "RESULTATS" = inr r
    ∧ lire_param_format cfg (strip f) = inr d
    ∧ params = dict_set (strip f) (PDict d)
                 [("FORMAT_DONNEES", PStr (strip f)); ("FICHIERS_INPUT", PStr fi);
                  ("RESULTATS", PStr r)].
Proof.
  unfold get_params.
  destruct (config_get cfg "params" "FORMAT_DONNEES") as [|f] eqn:Hf; [done|].
  destruct (config_get cfg "params" "FICHIERS_INPUT") as [|fi] eqn:Hfi; [done|].
  destruct (config_get cfg "params" "RESULTATS") as [|r] eqn:Hr; [done|].
  destruct (lire_param_format cfg (strip f)) as [|d] eqn:Hd; [done|].
  intros [= <-]. exists f, fi, r, d. split_and!; done.
Qed.

Lemma get_params_lookup (F fi r : string) d (k : string) :
  dict_get k (dict_set F (PDict d)
                [("FORMAT_DONNEES", PStr F); ("FICHIERS_INPUT", PStr fi);
                 ("RESULTATS", PStr r)])
  = if decide (F = k) then Some (PDict d)
    else if decide (k = "FORMAT_DONNEES") then Some (PStr F)
    else if decide (k = "FICHIERS_INPUT") then Some (PStr fi)
    else if decide (k = "RESULTATS") then Some (PStr r)
    else None.
Proof.
  rewrite dict_get_set. destruct (decide (F = k)); [done|].
  cbn [dict_get]. by repeat destruct (decide _).
Qed.

(** X3. What [get_params] returns.  The three options of section [params]
    and the extraction dict are found again in the dict returned:
    FORMAT_DONNEES is stored stripped, FICHIERS_INPUT and RESULTATS as
    the parser gives them, and the extraction dict, read in the section
    that bears the name of the format, under that name.  This last key is
    written last: when the format bears the name of one of the three fixed
    keys, the extraction dict takes the place of that key's string.  The
    dict holds no other key. *)
Theorem get_params_valeurs cfg params :
  get_params cfg = inr params →
  ∃ f fi r d,
    config_get cfg "params" "FORMAT_DONNEES" = inr f
    ∧ config_get cfg "params" "FICHIERS_INPUT" = inr fi
    ∧ config_get cfg "params" "RESULTATS" = inr r
    ∧ lire_param_format cfg (strip f) = inr d
    ∧ dict_get (strip f) params = Some (PDict d)
    ∧ (strip f ≠ "FORMAT_DONNEES" →
       dict_get "FORMAT_DONNEES" params = Some (PStr (strip f)))
    ∧ (strip f ≠ "FICHIERS_INPUT" →
       dict_get "FICHIERS_INPUT" params = Some (PStr fi))
    ∧ (strip f ≠ "RESULTATS" → dict_get "RESULTATS" params = Some (PStr r))
    ∧ ∀ k, k ∈ dict_keys params
           ↔ k ∈ ["FORMAT_DONNEES"; "FICHIERS_INPUT"; "RESULTATS"; strip f].
Proof.
  intros (f & fi & r & d & Hf & Hfi & Hr & Hd & ->)%get_params_inr.
  exists f, fi, r, d. split_and!; try done.
  - by rewrite dict_get_set_eq.
  - intros Hne. rewrite get_params_lookup. by rewrite decide_False.
  - intros Hne. rewrite get_params_lookup. by rewrite decide_False.
  - intros Hne. rewrite get_params_lookup. by rewrite decide_False.
  - intros k. rewrite dict_keys_get, get_params_lookup.
    rewrite !elem_of_cons, elem_of_nil.
    repeat destruct (decide _); subst; split; try (intros [? [=]]); eauto; try tauto.
    intros [?|[?|[?|[?|[]]]]]; by subst.
Qed.

Lemma get_params_valeurs_witness :
  get_params config_cesse
  = inr [("FORMAT_DONNEES", PStr "SALLELES"); ("FICHIERS_INPUT", PStr "donnees/*.xlsx");
         ("RESULTATS", PStr "sorties"); ("SALLELES", PDict dico_param_debit_cote)]
  ∧ ∃ f d, config_get config_cesse "params" "FORMAT_DONNEES" = inr f
           ∧ lire_param_format config_cesse (strip f) = inr d.
Proof.
  split; [reflexivity|].
  destruct (get_params_valeurs config_cesse
              [("FORMAT_DONNEES", PStr "SALLELES"); ("FICHIERS_INPUT", PStr "donnees/*.xlsx");
               ("RESULTATS", PStr "sorties"); ("SALLELES", PDict dico_param_debit_cote)])
    as (f & fi & r & d & Hf & _ & _ & Hd & _); [reflexivity|].
  by exists f, d.
Defined.


(** ** Loops and failures *)

Section Boucles.
Context {V : Type}.
Implicit Types (w : monde V).

Lemma bind_inl {A B} (m : M V A) (k : A → M V B) w e w' :
  bind m k w = (inl e, w') →
  m w = (inl e, w') ∨ ∃ a w1, m w = (inr a, w1) ∧ k a w1 = (inl e, w').
Proof.
  unfold bind. destruct (m w) as [[e1|a] w1]; [intros [= -> ->]; by left|].
  right. eauto.
Qed.

Lemma lift_inl {A} (r : resultat_ou_erreur A) w e w' :
  lift r w = (inl e, w') → r = inl e ∧ w' = w.
Proof. destruct r; [|done]. by intros [= -> ->]. Qed.

Lemma dict_getitem_inl {K A} `{EqDecision K} (d : dict K A) k w e w' :
  dict_getitem d k w = (inl e, w') → dict_get k d = None ∧ e = KeyError ∧ w' = w.
Proof. unfold dict_getitem. destruct (dict_get k d); [done|]. by intros [= <- <-]. Qed.

(** A loop that returns, with what holds of the elements gone through. *)
Lemma for_prefixe {A S} (I : list A → S → monde V → Prop) (l : list A)
    (body : A → S → M V S) :
  (∀ l1 x l2 s w s' w', l = l1 ++ x :: l2 → I l1 s w →
     body x s w = (inr s', w') → I (l1 ++ [x]) s' w') →
  ∀ s w s' w', I [] s w → for_ l body s w = (inr s', w') → I l s' w'.
Proof.
  intros Hbody.
  assert (∀ l2 l1 s w s' w', l = l1 ++ l2 → I l1 s w →
            for_ l2 body s w = (inr s', w') → I l s' w') as Hgen.
  { induction l2 as [|x l2 IH]; intros l1 s w s' w' Hl HI; cbn [for_].
    - intros [= <- <-]. by rewrite Hl, app_nil_r.
    - intros (s1 & w1 & H1 & H2)%bind_inr.
      apply (IH (l1 ++ [x]) s1 w1); [by rewrite <- (assoc_L (++))| |done].
      by eapply Hbody. }
  intros s w s' w'. by apply (Hgen l []).
Qed.

(** A loop that fails, failed on one of its elements, after the loop on
    the elements before returned. *)
Lemma for_erreur {A S} (l : list A) (body : A → S → M V S) s w e w' :
  for_ l body s w = (inl e, w') →
  ∃ l1 x l2 s1 w1, l = l1 ++ x :: l2
    ∧ for_ l1 body s w = (inr s1, w1) ∧ body x s1 w1 = (inl e, w').
Proof.
  revert s w. induction l as [|x l IH]; intros s w; cbn [for_]; [done|].
  intros [H|(s1 & w1 & H1 & H2)]%bind_inl.
  - by exists [], x, l, s, w.
  - apply IH in H2 as (l1 & y & l2 & s2 & w2 & -> & H2 & H3).
    exists (x :: l1), y, l2, s2, w2. split_and!; [done| |done].
    cbn [for_]. unfold bind. by rewrite H1.
Qed.
End Boucles.

(** ** What a reader returns, and how it fails *)

Section LecteursExtraits.
Context {V : Type} (sys : systeme V).
Implicit Types (w : monde V) (df : DataFrame V) (dico_data : dico_donnees).

Lemma position_None c (cols : list string) : position c cols = None ↔ c ∉ cols.
Proof.
  induction cols as [|c' cols IH]; simpl.
  - split; [intros _; apply not_elem_of_nil|done].
  - rewrite not_elem_of_cons. destruct (decide (c = c')) as [->|Hne].
    + split; [done|]. by intros [? _].
    + destruct (position c cols); simpl.
      * split; [done|]. intros [_ Hc]. by apply IH in Hc.
      * split; [|done]. intros _. split; [done|]. by apply IH.
Qed.

Lemma positions_erreur (cols df_cols : list string) e :
  positions cols df_cols = inl e → e = KeyError ∧ ∃ c, c ∈ cols ∧ c ∉ df_cols.
Proof.
  induction cols as [|c cols IH]; simpl; [done|].
  destruct (position c df_cols) eqn:Hc.
  - destruct (positions cols df_cols) as [e'|]; [|done].
    intros [= <-]. destruct IH as (-> & c' & ? & ?); [done|].
    split; [done|]. exists c'. split; [by right|done].
  - intros [= <-]. split; [done|]. exists c. split; [by left|]. by apply position_None.
Qed.

Lemma getitem_erreur df cols e :
  getitem df cols = inl e → e = KeyError ∧ ∃ c, c ∈ cols ∧ c ∉ columns df.
Proof.
  unfold getitem. destruct (positions cols (columns df)) eqn:Hp; [|done].
  intros [= <-]. by apply positions_erreur.
Qed.

Lemma getitem_lignes df cols df' :
  getitem df cols = inr df' → lignes df' = [] ↔ lignes df = [].
Proof.
  unfold getitem. destruct (positions cols (columns df)); [done|].
  intros [= <-]. simpl. split; [apply fmap_nil_inv|by intros ->].
Qed.

Lemma dernier_inr (idx : list Z) t : dernier idx = inr t ↔ last idx = Some t.
Proof. unfold dernier. destruct (last idx); naive_solver. Qed.

Lemma dernier_inl (idx : list Z) e : dernier idx = inl e → e = IndexError ∧ idx = [].
Proof.
  unfold dernier. destruct (last idx) eqn:Hl; [done|].
  intros [= <-]. split; [done|]. by apply last_None.
Qed.

(** The last label of an ascending index is its greatest. *)
Lemma last_maximum (l : list Z) v :
  StronglySorted Z.le l → last l = Some v → v ∈ l ∧ ∀ t, t ∈ l → t ≤ v.
Proof.
  intros Hs Hl. apply last_Some in Hl as [l' ->]. split.
  - apply elem_of_app. right. by left.
  - intros t [Ht|Ht%list_elem_of_singleton]%elem_of_app; [|lia].
    apply StronglySorted_app in Hs as (Hs & _ & _). apply Hs; [done|by left].
Qed.

Lemma sort_index_croissant df :
  StronglySorted Z.le (index (sort_index df))
  ∧ lignes (sort_index df) ≡ₚ lignes df
  ∧ index (sort_index df) ≡ₚ index df.
Proof.
  split_and!.
  - unfold index, sort_index; simpl.
    apply (StronglySorted_fmap fst avant Z.le); [|apply StronglySorted_merge_sort; apply _].
    by intros l l'.
  - apply merge_sort_Permutation.
  - unfold index, sort_index; simpl. by rewrite merge_sort_Permutation.
Qed.

Lemma lire_fic_salleles_en_cours fic dico_param w dico_data w' :
  NoDup (dict_keys dico_param) →
  lire_fic_salleles sys fic dico_param w = (inr dico_data, w') →
  salleles_en_cours sys fic dico_param w (dict_keys dico_param) dico_data w'.
Proof.
  intros Hnd. unfold lire_fic_salleles.
  apply (for_prefixe (salleles_en_cours sys fic dico_param w)).
  - intros l1 onglet l2 resultat w1 resultat' w1' Hl
      (Hk & Hlus & Hs & He & Hp & Hlen & Hi).
    intros (? & w2 & [= <- <-] & H)%bind_inr.
    apply bind_inr in H as (data & ? & [Hdata ->]%lift_inr & H).
    apply bind_inr in H as (cols & ? & [Hcols ->]%dict_getitem_inr & H).
    apply bind_inr in H as (df & ? & [Hdf ->]%lift_inr & H).
    apply bind_inr in H as (last_date & ? & [Hlast%dernier_inr ->]%lift_inr & H).
    apply bind_inr in H as (r & ? & [= <- <-] & [= <- <-]).
    simpl in *.
    assert (onglet ∉ l1) as Hnew.
    { rewrite Hl in Hnd. apply NoDup_app in Hnd as (_ & Hnd & _).
      intros Hin. apply (Hnd _ Hin). by left. }
    destruct (sort_index_croissant df) as (Hsorted & Hperm & Hpermi).
    destruct (last_maximum _ _ Hsorted Hlast) as [Hin Hmax].
    destruct (getitem_spec _ _ _ Hdf) as (Hc & _ & Hidx).
    split_and!; simpl.
    + rewrite dict_keys_set.
      destruct (dict_in onglet resultat) eqn:Hd; [|by rewrite Hk].
      apply dict_in_true in Hd. by rewrite Hk in Hd.
    + by rewrite Hlus, fmap_app, (assoc_L (++)).
    + done.
    + done.
    + etrans; [done|]. by apply prefix_app_r.
    + rewrite !length_app; simpl. lia.
    + intros i onglet' Hlook.
      destruct (decide (i < length l1)%nat) as [Hlt|Hge].
      * rewrite lookup_app_l in Hlook by done.
        destruct (Hi _ _ Hlook)
          as (cols' & data' & df' & v' & table' & ? & ? & ? & Hget & Htas & ? & ? & ? & ? & ?).
        exists cols', data', df', v', table'. split_and!; try done.
        -- rewrite dict_get_set_ne; [done|]. intros ->.
           by apply Hnew, (list_elem_of_lookup_2 _ i).
        -- rewrite lookup_app_l; [done|]. by eapply lookup_lt_Some.
      * rewrite lookup_app_r in Hlook by lia.
        apply list_lookup_singleton_Some in Hlook as [Hi0 <-].
        assert (i = length l1) as -> by lia.
        exists cols, data, df, last_date, (sort_index df). split_and!; try done.
        -- by rewrite dict_get_set_eq, Hlen.
        -- rewrite <- Hlen. by rewrite lookup_app_r, Nat.sub_diag.
        -- rewrite <- Hidx, <- Hpermi. done.
        -- intros t Ht. apply Hmax. by rewrite Hpermi, Hidx.
  - split_and!; simpl; try done; try lia. by rewrite app_nil_r.
Qed.


(** X5. [lire_fic_salleles] fails in three ways only, on one of the
    sheets named in the parameters: pandas could not read the sheet (the
    error of [read_excel] is passed on); a column of the parameters is
    not in the sheet ([KeyError]); the sheet has no row ([IndexError], no
    last date).  In each case nothing was printed or written and the
    objects that existed are untouched. *)
Theorem lire_fic_salleles_echecs fic dico_param w e w' :
  lire_fic_salleles sys fic dico_param w = (inl e, w') →
  lecture_sans_effet w w'
  ∧ ∃ onglet cols,
      dict_get onglet dico_param = Some cols
      ∧ (read_excel sys fic onglet = inl e
         ∨ ∃ data_lue,
             read_excel sys fic onglet = inr data_lue
             ∧ ((e = KeyError ∧ ∃ c, c ∈ cols ∧ c ∉ columns data_lue)
                ∨ (e = IndexError ∧ lignes data_lue = []
                   ∧ ∀ c, c ∈ cols → c ∈ columns data_lue))).
Proof.
  unfold lire_fic_salleles.
  intros (l1 & onglet & l2 & resultat & w1 & Hl & Hl1 & Hbody)%for_erreur.
  assert (lecture_sans_effet w w1) as (Hp & Hs & He).
  { revert Hl1. apply (for_invariant (λ _ w1, lecture_sans_effet w w1)); [|done].
    intros x s w2 s' w2' (Hp & Hs & He).
    intros (? & w3 & [= <- <-] & H)%bind_inr.
    apply bind_inr in H as (data & ? & [_ ->]%lift_inr & H).
    apply bind_inr in H as (cols & ? & [_ ->]%dict_getitem_inr & H).
    apply bind_inr in H as (df & ? & [_ ->]%lift_inr & H).
    apply bind_inr in H as (last_date & ? & [_ ->]%lift_inr & H).
    apply bind_inr in H as (r & ? & [= <- <-] & [= <- <-]).
    split_and!; simpl; try done. etrans; [done|]. by apply prefix_app_r. }
  assert (is_Some (dict_get onglet dico_param)) as [cols Hcols].
  { apply dict_keys_get. rewrite Hl. apply elem_of_app. right. by left. }
  apply bind_inl in Hbody as [[=]|(? & w2 & [= <- <-] & H)].
  apply bind_inl in H as [[He1 ->]%lift_inl|(data & ? & [Hdata ->]%lift_inr & H)].
  { split; [done|]. exists onglet, cols. split; [done|]. by left. }
  apply bind_inl in H as [(Hn & _)%dict_getitem_inl|(cols' & ? & [Hc' ->]%dict_getitem_inr & H)].
  { by rewrite Hcols in Hn. }
  assert (cols' = cols) as -> by congruence.
  apply bind_inl in H as [[Hg ->]%lift_inl|(df & ? & [Hdf ->]%lift_inr & H)].
  { split; [done|]. exists onglet, cols. split; [done|]. right. exists data.
    split; [done|]. left. by apply getitem_erreur. }
  apply bind_inl in H as [[Hd ->]%lift_inl|(v & ? & [_ ->]%lift_inr & H)].
  { split; [done|]. exists onglet, cols. split; [done|]. right. exists data.
    split; [done|]. right. apply dernier_inl in Hd as [-> Hnil]. split_and!; [done| |].
    - apply (getitem_lignes _ _ _ Hdf).
      destruct (sort_index_croissant df) as (_ & Hperm & _).
      apply fmap_nil_inv in Hnil. rewrite Hnil in Hperm.
      by apply Permutation_nil_l in Hperm.
    - intros c Hc. unfold getitem in Hdf.
      destruct (positions cols (columns data)) as [|js] eqn:Hjs; [done|].
      destruct (decide (c ∈ columns data)) as [|Hnc]; [done|].
      exfalso. clear -Hjs Hc Hnc. induction cols as [|c' cols IH] in js, Hjs, Hc |- *.
      + by apply elem_of_nil in Hc.
      + simpl in Hjs. destruct (position c' (columns data)) eqn:Hp; [|done].
        destruct (positions cols (columns data)) as [|js'] eqn:Hjs'; [done|].
        apply elem_of_cons in Hc as [->|Hc].
        * apply position_None in Hnc. congruence.
        * by eapply IH. }
  apply bind_inl in H as [[=]|(r & ? & [= <- <-] & [=])].
Qed.
End LecteursExtraits.


Section LecteurPosteCentral.
Context {V : Type} (sys : systeme V).
Implicit Types (w : monde V) (df : DataFrame V) (dico_data : dico_donnees).

Lemma pivot_inr (data : table_longue V) df :
  pivot data = inr df →
  NoDup data.*1
  ∧ index df = merge_sort Z.le (remove_dups data.*1.*1)
  ∧ ∀ c, c ∈ columns df ↔ c ∈ data.*1.*2.
Proof.
  unfold pivot. case_decide; [|done]. intros [= <-]. split_and!; [done| |].
  - by rewrite index_fmap.
  - intros c. simpl. by rewrite merge_sort_Permutation, elem_of_remove_dups.
Qed.

Lemma pivot_inl (data : table_longue V) e :
  pivot data = inl e → e = ValueError ∧ ¬ NoDup data.*1.
Proof. unfold pivot. case_decide; [done|]. by intros [= <-]. Qed.


Lemma lire_fic_poste_central_en_cours chronique_lue last_date dico_param w dico_data w' :
  NoDup (dict_keys dico_param) →
  for_ (dict_keys dico_param)
    (λ station resultat,
       cols <- dict_getitem dico_param station ;;
       df <- lift (getitem chronique_lue cols) ;;
       r <- alloc df ;;
       ret (dict_set station (dict_set last_date r []) resultat))
    [] w = (inr dico_data, w') →
  poste_central_en_cours chronique_lue last_date dico_param w
    (dict_keys dico_param) dico_data w'.
Proof.
  intros Hnd.
  apply (for_prefixe (poste_central_en_cours chronique_lue last_date dico_param w)).
  - intros l1 station l2 resultat w1 resultat' w1' Hl
      (Hk & Hlus & Hs & He & Hp & Hlen & Hi).
    intros (cols & ? & [Hcols ->]%dict_getitem_inr & H)%bind_inr.
    apply bind_inr in H as (df & ? & [Hdf ->]%lift_inr & H).
    apply bind_inr in H as (r & ? & [= <- <-] & [= <- <-]).
    simpl in *.
    assert (station ∉ l1) as Hnew.
    { rewrite Hl in Hnd. apply NoDup_app in Hnd as (_ & Hnd & _).
      intros Hin. apply (Hnd _ Hin). by left. }
    destruct (getitem_spec _ _ _ Hdf) as (Hc & _ & Hidx).
    split_and!; simpl; try done.
    + rewrite dict_keys_set.
      destruct (dict_in station resultat) eqn:Hd; [|by rewrite Hk].
      apply dict_in_true in Hd. by rewrite Hk in Hd.
    + etrans; [done|]. by apply prefix_app_r.
    + rewrite !length_app; simpl. lia.
    + intros i station' Hlook.
      destruct (decide (i < length l1)%nat) as [Hlt|Hge].
      * rewrite lookup_app_l in Hlook by done.
        destruct (Hi _ _ Hlook) as (cols' & df' & ? & ? & Hget & Htas & ?).
        exists cols', df'. split_and!; try done.
        -- rewrite dict_get_set_ne; [done|]. intros ->.
           by apply Hnew, (list_elem_of_lookup_2 _ i).
        -- rewrite lookup_app_l; [done|]. by eapply lookup_lt_Some.
      * rewrite lookup_app_r in Hlook by lia.
        apply list_lookup_singleton_Some in Hlook as [Hi0 <-].
        assert (i = length l1) as -> by lia.
        exists cols, df. split_and!; try done.
        -- by rewrite dict_get_set_eq, Hlen.
        -- rewrite <- Hlen. by rewrite lookup_app_r, Nat.sub_diag.
  - split_and!; simpl; first [done|lia].
Qed.


(** X7. [lire_fic_poste_central] fails in four ways only: pandas could
    not read the sheet DATA (the error of [read_excel] is passed on); a
    date and a rank occur twice in the sheet ([ValueError], no pivot); the
    sheet has no row ([IndexError], no last date); a rank that the
    parameters give to a station is not in the sheet ([KeyError]).  In
    each case the sheet DATA was opened and no other, nothing was printed
    or written and the objects that existed are untouched. *)
Theorem lire_fic_poste_central_echecs fic dico_param w e w' :
  lire_fic_poste_central sys fic dico_param w = (inl e, w') →
  lecture_sans_effet w w'
  ∧ lus w' = lus w ++ [(fic, "DATA")]
  ∧ (read_excel_DATA sys fic = inl e
     ∨ ∃ data_lue,
         read_excel_DATA sys fic = inr data_lue
         ∧ ((e = ValueError ∧ ¬ NoDup data_lue.*1)
            ∨ (e = IndexError ∧ data_lue = [])
            ∨ (e = KeyError ∧ NoDup data_lue.*1 ∧ data_lue ≠ []
               ∧ ∃ station cols c,
                   dict_get station dico_param = Some cols
                   ∧ c ∈ cols ∧ c ∉ data_lue.*1.*2))).
Proof.
  unfold lire_fic_poste_central, lecture_sans_effet.
  intros [[=]|(? & w2 & [= <- <-] & H)]%bind_inl.
  apply bind_inl in H as [[He1 ->]%lift_inl|(data & ? & [Hdata ->]%lift_inr & H)].
  { split_and!; [done..|]. by left. }
  apply bind_inl in H as [[Hp ->]%lift_inl|(chronique & ? & [Hpivot ->]%lift_inr & H)].
  { split_and!; [done..|]. right. exists data. split; [done|]. left.
    by apply pivot_inl. }
  destruct (pivot_inr _ _ Hpivot) as (Hnd & Hidx & Hcols).
  apply bind_inl in H as [[Hd ->]%lift_inl|(last_date & ? & [Hlast%dernier_inr ->]%lift_inr & H)].
  { split_and!; [done..|]. right. exists data. split; [done|]. right. left.
    apply dernier_inl in Hd as [-> Hnil]. split; [done|].
    rewrite Hidx in Hnil.
    assert (remove_dups data.*1.*1 = []) as Hr.
    { apply Permutation_nil_r. rewrite <- Hnil. by rewrite merge_sort_Permutation. }
    destruct data as [|[[t c] x] data]; [done|]. exfalso.
    assert (t ∈ remove_dups ((t, c, x) :: data).*1.*1) as Ht.
    { apply elem_of_remove_dups. by left. }
    rewrite Hr in Ht. by apply elem_of_nil in Ht. }
  apply for_erreur in H as (l1 & station & l2 & resultat & w1 & Hl & Hl1 & Hbody).
  assert ((tas w `prefix_of` tas w1 ∧ sortie w1 = sortie w ∧ ecrits w1 = ecrits w)
          ∧ lus w1 = lus w ++ [(fic, "DATA")]) as [(Hp & Hs & He) Hlus].
  { revert Hl1.
    apply (for_invariant
             (λ _ w1, (tas w `prefix_of` tas w1 ∧ sortie w1 = sortie w ∧ ecrits w1 = ecrits w)
                      ∧ lus w1 = lus w ++ [(fic, "DATA")]));
      [|done].
    intros x s w3 s' w3' [(Hp & Hs & He) Hlus].
    intros (cols & ? & [_ ->]%dict_getitem_inr & H)%bind_inr.
    apply bind_inr in H as (df & ? & [_ ->]%lift_inr & H).
    apply bind_inr in H as (r & ? & [= <- <-] & [= <- <-]).
    split_and!; simpl; try done. etrans; [done|]. by apply prefix_app_r. }
  assert (is_Some (dict_get station dico_param)) as [cols Hc].
  { apply dict_keys_get. rewrite Hl. apply elem_of_app. right. by left. }
  apply bind_inl in Hbody
    as [(Hn & _)%dict_getitem_inl|(cols' & ? & [Hc' ->]%dict_getitem_inr & H)].
  { by rewrite Hc in Hn. }
  assert (cols' = cols) as -> by congruence.
  apply bind_inl in H as [[Hg ->]%lift_inl|(df & ? & [Hdf ->]%lift_inr & H)].
  - split_and!; [done..|]. right. exists data. split; [done|]. right. right.
    apply getitem_erreur in Hg as (-> & c & Hin & Hnc).
    split_and!; [done|done| |].
    + intros ->. simpl in Hidx. rewrite Hidx in Hlast. done.
    + exists station, cols, c. split_and!; [done..|]. by rewrite <- Hcols.
  - apply bind_inl in H as [[=]|(r & ? & [= <- <-] & [=])].
Qed.
End LecteurPosteCentral.


(** ** The collector: what is read and printed, the stations, the dates *)

Section Collecteur.
Context {V : Type} (sys : systeme V).
Implicit Types (w : monde V) (df : DataFrame V) (dico_data tab_data : dico_donnees).

Lemma lire_fic_lus format_donnees fic dico_param w dico_data w' :
  lire_fic sys format_donnees fic dico_param w = (inr dico_data, w') →
  lus w' = lus w ++ feuilles_lues format_donnees dico_param fic
  ∧ sortie w' = sortie w ∧ ecrits w' = ecrits w.
Proof.
  unfold lire_fic, feuilles_lues. destruct (decide (format_donnees = "SALLELES")) as [_|_];
    [|destruct (decide (format_donnees = "POSTE_CENTRAL")) as [_|_]; [|done]].
  - unfold lire_fic_salleles.
    apply (for_prefixe
             (λ l1 (_ : dico_donnees) w1,
                lus w1 = lus w ++ ((λ onglet, (fic, onglet)) <$> l1)
                ∧ sortie w1 = sortie w ∧ ecrits w1 = ecrits w)).
    + intros l1 onglet l2 resultat w1 resultat' w1' Hl (Hlus & Hs & He).
      intros (? & w2 & [= <- <-] & H)%bind_inr.
      apply bind_inr in H as (data & ? & [_ ->]%lift_inr & H).
      apply bind_inr in H as (cols & ? & [_ ->]%dict_getitem_inr & H).
      apply bind_inr in H as (df & ? & [_ ->]%lift_inr & H).
      apply bind_inr in H as (last_date & ? & [_ ->]%lift_inr & H).
      apply bind_inr in H as (r & ? & [= <- <-] & [= <- <-]).
      split_and!; simpl; try done. by rewrite Hlus, fmap_app, (assoc_L (++)).
    + split_and!; simpl; try done. by rewrite app_nil_r.
  - unfold lire_fic_poste_central.
    intros (? & w2 & [= <- <-] & H)%bind_inr.
    apply bind_inr in H as (data & ? & [_ ->]%lift_inr & H).
    apply bind_inr in H as (chronique & ? & [_ ->]%lift_inr & H).
    apply bind_inr in H as (last_date & ? & [_ ->]%lift_inr & H).
    revert H.
    apply (for_invariant
             (λ (_ : dico_donnees) w1,
                lus w1 = lus w ++ [(fic, "DATA")]
                ∧ sortie w1 = sortie w ∧ ecrits w1 = ecrits w)); [|done].
    intros station resultat w1 resultat' w1' HI.
    intros (cols & ? & [_ ->]%dict_getitem_inr & H)%bind_inr.
    apply bind_inr in H as (df & ? & [_ ->]%lift_inr & H).
    by apply bind_inr in H as (r & ? & [= <- <-] & [= <- <-]).
Qed.

(** Merging the data of a file prints warnings on that file and nothing
    else. *)
Lemma integrer_fichier_sortie fic dico_data tab_data w tab_data' w' :
  integrer_fichier fic dico_data tab_data w = (inr tab_data', w') →
  imprime w w'
  ∧ ∃ l, sortie w' = sortie w ++ l ∧ Forall (λ m, ∃ v, m = MsgDoublon fic v) l.
Proof.
  set (I := λ w1 : monde V,
         imprime w w1
         ∧ ∃ l, sortie w1 = sortie w ++ l ∧ Forall (λ m, ∃ v, m = MsgDoublon fic v) l).
  assert (I w) as HI0.
  { split; [done|]. exists []. by rewrite app_nil_r. }
  unfold integrer_fichier. revert HI0.
  apply (for_invariant (λ (_ : dico_donnees) w1, I w1)).
  intros s tab w1 tab' w1' HI. unfold ajouter_station.
  intros (ds & ? & [_ ->]%dict_getitem_inr & H)%bind_inr.
  apply bind_inr in H as (lu & ? & [_ ->]%dict_getitem_inr & H).
  apply bind_inr in H as (ds' & w2 & H & [= <- <-]).
  revert H HI. intros H HI. revert HI H.
  apply (for_invariant (λ (_ : dict Z nat) w1, I w1)).
  intros v ds1 w3 ds2 w3' [(Ht & Hl & He) (l & Hs & Hf)]. unfold ajouter_serie.
  destruct (dict_in v ds1).
  - intros (? & ? & [= <- <-] & [= <- <-])%bind_inr. split; [done|].
    exists (l ++ [MsgDoublon fic v]). simpl. rewrite Hs, (assoc_L (++)). split; [done|].
    apply Forall_app. split; [done|]. repeat constructor. by exists v.
  - intros (r & ? & [_ ->]%dict_getitem_inr & [= <- <-])%bind_inr.
    split; [done|]. by exists l.
Qed.

Lemma lire_liste_journal liste_fic dico_param format_donnees w tab_data w' :
  lire_liste_fichiers sys liste_fic dico_param format_donnees w = (inr tab_data, w') →
  lus w' = lus w ++ (liste_fic ≫= feuilles_lues format_donnees dico_param)
  ∧ annonces w w' liste_fic
  ∧ ecrits w' = ecrits w.
Proof.
  unfold lire_liste_fichiers.
  apply (for_prefixe
           (λ l1 (_ : dico_donnees) w1,
              lus w1 = lus w ++ (l1 ≫= feuilles_lues format_donnees dico_param)
              ∧ annonces w w1 l1 ∧ ecrits w1 = ecrits w)).
  - intros l1 fic l2 tab w1 tab' w1' Hl (Hlus & (l & Hs & Hfil & Hd) & He).
    unfold lire_un_fichier.
    intros (? & w2 & [= <- <-] & H)%bind_inr.
    apply bind_inr in H as (dico_data & w3 & (Hlus3 & Hs3 & He3)%lire_fic_lus & H).
    apply integrer_fichier_sortie in H as [(Ht4 & Hlus4 & He4) (l4 & Hs4 & Hd4)].
    simpl in *. split_and!.
    + rewrite Hlus4, Hlus3, Hlus, bind_app. simpl. by rewrite app_nil_r, (assoc_L (++)).
    + exists (l ++ MsgLecture fic :: l4). split_and!.
      * rewrite Hs4, Hs3, Hs. by rewrite <- !(assoc_L (++)).
      * rewrite filter_app, Hfil, fmap_app. f_equal.
        rewrite filter_cons_True by done. simpl. f_equal.
        clear -Hd4. induction Hd4 as [|m l4 [v ->] _ IH]; [done|].
        by rewrite filter_cons_False by done.
      * apply Forall_app. split.
        -- eapply Forall_impl; [done|]. intros m Hm Hdm.
           destruct (Hm Hdm) as (f & v & -> & Hf). exists f, v. split; [done|].
           apply elem_of_app. by left.
        -- constructor; [done|]. eapply Forall_impl; [done|]. intros m [v ->] _.
           exists fic, v. split; [done|]. apply elem_of_app. right. by left.
    + congruence.
  - split_and!; simpl.
    + by rewrite app_nil_r.
    + exists []. split_and!; [by rewrite app_nil_r|done|done].
    + done.
Qed.

(** X8. The collector, when it returns, has opened every file of the
    list, in the order of the list, each once: the sheets of the
    parameters on the tabbed format, the sheet DATA on the pivoted format.
    It has announced every file, in the same order; the other lines it
    printed are warnings of a duplicate last date, on a file of the list.
    It wrote no file. *)
Theorem lire_liste_fichiers_journal liste_fic dico_param format_donnees w tab_data w' :
  lire_liste_fichiers sys liste_fic dico_param format_donnees w = (inr tab_data, w') →
  lus w' = lus w ++ (liste_fic ≫= feuilles_lues format_donnees dico_param)
  ∧ annonces w w' liste_fic
  ∧ ecrits w' = ecrits w.
Proof. apply lire_liste_journal. Qed.




End Collecteur.


Section CollecteurStations.
Context {V : Type} (sys : systeme V).
Implicit Types (w : monde V) (df : DataFrame V) (dico_data tab_data : dico_donnees)
  (data_station lu : dict Z nat).

Lemma dict_set_nouveau {K A} `{EqDecision K} (k : K) (a : A) (d : dict K A) :
  dict_get k d = None → dict_set k a d = d ++ [(k, a)].
Proof.
  induction d as [|[k' a'] d IH]; simpl; [done|].
  destruct (decide (k = k')); [done|]. intros Hk. by rewrite IH.
Qed.

Lemma ajouter_series_effet fic lu dates :
  ∀ data_station w data_station' w',
  for_ dates (ajouter_serie fic lu) data_station w = (inr data_station', w') →
  ∃ l, data_station' = data_station ++ l
    ∧ (length l ≤ length dates)%nat
    ∧ (dates ≠ [] → data_station' ≠ []).
Proof.
  induction dates as [|v dates IH]; intros ds w ds' w'; cbn [for_].
  - intros [= <- <-]. exists []. by rewrite app_nil_r.
  - intros (ds1 & w1 & H1 & H2)%bind_inr.
    apply IH in H2 as (l & -> & Hlen & _). unfold ajouter_serie in H1.
    destruct (dict_in v ds) eqn:Hin.
    + apply bind_inr in H1 as (? & ? & [= <- <-] & [= <- <-]).
      exists l. split_and!; [done|simpl; lia|]. intros _.
      apply dict_in_true in Hin. destruct ds; [by apply elem_of_nil in Hin|done].
    + apply bind_inr in H1 as (r & ? & [_ ->]%dict_getitem_inr & [= <- <-]).
      apply dict_in_false, dict_get_None in Hin.
      rewrite (dict_set_nouveau _ _ _ Hin), <- (assoc_L (++)).
      exists ((v, r) :: l). split_and!; [done|simpl; lia|]. intros _.
      by destruct ds.
Qed.

Lemma ajouter_station_effet fic dico_data nom_station tab_data w tab_data' w' :
  ajouter_station fic dico_data nom_station tab_data w = (inr tab_data', w') →
  ∃ lu l,
    dict_get nom_station dico_data = Some lu
    ∧ dict_keys tab_data'
      = (if dict_in nom_station tab_data then dict_keys tab_data
         else dict_keys tab_data ++ [nom_station])
    ∧ (∀ s, s ≠ nom_station → dict_get s tab_data' = dict_get s tab_data)
    ∧ dict_get nom_station tab_data'
      = Some (default [] (dict_get nom_station tab_data) ++ l)
    ∧ (length l ≤ length lu)%nat
    ∧ (lu ≠ [] → default [] (dict_get nom_station tab_data) ++ l ≠ []).
Proof.
  unfold ajouter_station.
  set (tab1 := if dict_in nom_station tab_data then tab_data
               else dict_set nom_station [] tab_data).
  intros (ds & ? & [Hds ->]%dict_getitem_inr & H)%bind_inr.
  apply bind_inr in H as (lu & ? & [Hlu ->]%dict_getitem_inr & H).
  apply bind_inr in H as (ds' & w2 & H & [= <- <-]).
  apply ajouter_series_effet in H as (l & -> & Hlen & Hne).
  assert (ds = default [] (dict_get nom_station tab_data)
          ∧ dict_keys tab1 = (if dict_in nom_station tab_data then dict_keys tab_data
                              else dict_keys tab_data ++ [nom_station])
          ∧ (∀ s, s ≠ nom_station → dict_get s tab1 = dict_get s tab_data)
          ∧ dict_in nom_station tab1 = true) as (-> & Hk1 & Ho1 & Hin1).
  { unfold tab1 in *. unfold dict_in in *.
    destruct (dict_get nom_station tab_data) as [ds0|] eqn:H0.
    - rewrite H0 in Hds. injection Hds as <-. by rewrite H0.
    - rewrite dict_get_set_eq in Hds. injection Hds as <-.
      split_and!; [done| | |by rewrite dict_get_set_eq].
      + rewrite dict_keys_set. unfold dict_in. by rewrite H0.
      + intros s Hs. by rewrite dict_get_set_ne. }
  exists lu, l. split_and!; try done.
  - by rewrite dict_keys_set, Hin1.
  - intros s Hs. rewrite dict_get_set_ne by done. by apply Ho1.
  - by rewrite dict_get_set_eq.
  - unfold dict_keys in Hlen. by rewrite length_fmap in Hlen.
  - intros Hlu0. apply Hne. unfold dict_keys. by destruct lu.
Qed.

Lemma integrer_fichier_stations fic dico_data tab_data w tab_data' w' (n : nat) :
  NoDup (dict_keys dico_data) →
  (∀ s lu, dict_get s dico_data = Some lu → length lu = 1%nat) →
  (∀ s ds, dict_get s tab_data = Some ds → ds ≠ [] ∧ (length ds ≤ n)%nat) →
  integrer_fichier fic dico_data tab_data w = (inr tab_data', w') →
  dict_keys tab_data'
  = dict_keys tab_data ++ filter (λ s, s ∉ dict_keys tab_data) (dict_keys dico_data)
  ∧ ∀ s ds, dict_get s tab_data' = Some ds → ds ≠ [] ∧ (length ds ≤ S n)%nat.
Proof.
  intros Hnd Hun Htab. unfold integrer_fichier.
  set (P := λ (l1 : list string) (tab1 : dico_donnees) (_ : monde V),
         dict_keys tab1
         = dict_keys tab_data ++ filter (λ s, s ∉ dict_keys tab_data) l1
         ∧ (∀ s, s ∉ l1 → dict_get s tab1 = dict_get s tab_data)
         ∧ ∀ s ds, dict_get s tab1 = Some ds → ds ≠ [] ∧ (length ds ≤ S n)%nat).
  intros H. apply (for_prefixe P) in H as (? & _ & ?); [done| |].
  - clear H. intros l1 s l2 tab1 w1 tab2 w2 Hl (Hk & Ho & Hlen).
    intros (lu & l & Hlu & Hk2 & Ho2 & Hs2 & Hl2 & Hne2)%ajouter_station_effet.
    assert (s ∉ l1) as Hnew.
    { rewrite Hl in Hnd. apply NoDup_app in Hnd as (_ & Hnd & _).
      intros Hin. apply (Hnd _ Hin). by left. }
    pose proof (Hun _ _ Hlu) as Hlu1.
    split_and!.
    + rewrite Hk2, filter_app, (assoc_L (++)), <- Hk.
      destruct (dict_in s tab1) eqn:Hin.
      * apply dict_in_true in Hin. rewrite Hk, elem_of_app in Hin.
        destruct Hin as [Hin|Hin%list_elem_of_filter]; [|by destruct Hin].
        rewrite filter_cons_False by (by intros ?). by rewrite filter_nil, app_nil_r.
      * apply dict_in_false in Hin. rewrite Hk, elem_of_app in Hin.
        rewrite filter_cons_True; [done|]. intros ?. apply Hin. by left.
    + intros s' Hs'. rewrite elem_of_app, list_elem_of_singleton in Hs'.
      rewrite Ho2 by (intros ->; tauto). apply Ho. tauto.
    + intros s' ds. destruct (decide (s' = s)) as [->|Hne].
      * rewrite Hs2. intros [= <-]. split; [apply Hne2; by destruct lu|].
        rewrite length_app. rewrite (Ho s Hnew).
        destruct (dict_get s tab_data) as [ds0|] eqn:H0; simpl; [|lia].
        destruct (Htab _ _ H0). lia.
      * rewrite Ho2 by done. apply Hlen.
  - split_and!.
    + by rewrite filter_nil, app_nil_r.
    + done.
    + intros s ds Hs. destruct (Htab _ _ Hs). split; [done|lia].
Qed.

(** What a reader returns: the stations of the parameters, each with one
    extract. *)
Lemma lire_fic_stations format_donnees fic dico_param w dico_data w' :
  NoDup (dict_keys dico_param) →
  lire_fic sys format_donnees fic dico_param w = (inr dico_data, w') →
  dict_keys dico_data = dict_keys dico_param
  ∧ ∀ s lu, dict_get s dico_data = Some lu → length lu = 1%nat.
Proof.
  intros Hnd. unfold lire_fic.
  destruct (decide (format_donnees = "SALLELES")) as [_|_];
    [|destruct (decide (format_donnees = "POSTE_CENTRAL")) as [_|_]; [|done]].
  - intros (Hk & _ & _ & _ & _ & _ & Hi)%lire_fic_salleles_en_cours; [|done].
    split; [done|]. intros s lu Hs.
    assert (s ∈ dict_keys dico_data) as [i Hin]%list_elem_of_lookup.
    { apply dict_keys_get. by rewrite Hs. }
    rewrite Hk in Hin.
    destruct (Hi _ _ Hin) as (? & ? & ? & ? & ? & _ & _ & _ & Hs' & _).
    rewrite Hs in Hs'. by injection Hs' as ->.
  - unfold lire_fic_poste_central.
    intros (? & w2 & [= <- <-] & H)%bind_inr.
    apply bind_inr in H as (data & ? & [_ ->]%lift_inr & H).
    apply bind_inr in H as (chronique & ? & [_ ->]%lift_inr & H).
    apply bind_inr in H as (last_date & ? & [_ ->]%lift_inr & H).
    apply lire_fic_poste_central_en_cours in H as (Hk & _ & _ & _ & _ & _ & Hi); [|done].
    split; [done|]. intros s lu Hs.
    assert (s ∈ dict_keys dico_data) as [i Hin]%list_elem_of_lookup.
    { apply dict_keys_get. by rewrite Hs. }
    rewrite Hk in Hin.
    destruct (Hi _ _ Hin) as (? & ? & _ & _ & Hs' & _).
    rewrite Hs in Hs'. by injection Hs' as ->.
Qed.

Lemma lire_liste_stations liste_fic dico_param format_donnees
    w tab_data w' :
  NoDup (dict_keys dico_param) →
  lire_liste_fichiers sys liste_fic dico_param format_donnees w = (inr tab_data, w') →
  dict_keys tab_data = (if decide (liste_fic = []) then [] else dict_keys dico_param)
  ∧ ∀ s ledger, dict_get s tab_data = Some ledger →
      ledger ≠ [] ∧ NoDup (dict_keys ledger)
      ∧ (length ledger ≤ length liste_fic)%nat.
Proof.
  intros Hnd Hrun.
  pose proof (lire_liste_fichiers_valide sys _ _ _ _ _ _ Hrun) as [_ Hval].
  unfold lire_liste_fichiers in Hrun.
  set (P := λ (l1 : list string) (tab : dico_donnees) (_ : monde V),
         dict_keys tab = (if decide (l1 = []) then [] else dict_keys dico_param)
         ∧ ∀ s ds, dict_get s tab = Some ds → ds ≠ [] ∧ (length ds ≤ length l1)%nat).
  apply (for_prefixe P) in Hrun as [Hk Hlen].
  - split; [done|]. intros s ledger Hs. destruct (Hlen _ _ Hs). split_and!; [done| |done].
    by destruct (dict_get_Forall (λ l, ledger_valide (tas w') l) _ _ _ Hval Hs).
  - intros l1 fic l2 tab w1 tab' w1' Hl [Hk Hlen]. unfold lire_un_fichier.
    intros (? & w2 & [= <- <-] & H)%bind_inr.
    apply bind_inr in H as (dico_data & w3 & [Hk3 Hun]%lire_fic_stations & H); [|done].
    apply (integrer_fichier_stations _ _ _ _ _ _ (length l1)) in H as [Hk4 Hlen4];
      [|by rewrite Hk3|done|done].
    split.
    + rewrite Hk4, Hk3, Hk.
      destruct (decide (l1 ++ [fic] = [])) as [Hx|_]; [by destruct l1|].
      destruct (decide (l1 = [])) as [->|Hne]; simpl.
      * clear. induction (dict_keys dico_param) as [|k l IH]; [done|].
        rewrite filter_cons_True by apply not_elem_of_nil. by rewrite IH.
      * assert (∀ l : list string,
                  (∀ s, s ∈ l → s ∈ dict_keys dico_param) →
                  filter (λ s, s ∉ dict_keys dico_param) l = []) as Hvide.
        { clear. induction l as [|k l IH]; intros Hl; [done|].
          rewrite filter_cons_False by (intros Hk; apply Hk, Hl; by left).
          apply IH. intros s Hs. apply Hl. by right. }
        rewrite Hvide by done. by rewrite app_nil_r.
    + intros s ds Hs. rewrite length_app. simpl.
      destruct (Hlen4 _ _ Hs). split; [done|lia].
  - split; [done|]. intros s ds. done.
Qed.

(** X10. The stations of the ledgers.  When the collector returns from a
    list of at least one file, its ledgers are those of the stations of
    the parameters, in the order of the parameters, whatever the files
    hold; from an empty list it returns no ledger.  No ledger is empty,
    none holds a date twice, and none holds more extracts than there are
    files: a file gives every station one extract, kept or skipped as a
    duplicate. *)
Theorem lire_liste_fichiers_stations liste_fic dico_param format_donnees
    w tab_data w' :
  NoDup (dict_keys dico_param) →
  lire_liste_fichiers sys liste_fic dico_param format_donnees w = (inr tab_data, w') →
  dict_keys tab_data = (if decide (liste_fic = []) then [] else dict_keys dico_param)
  ∧ ∀ s ledger, dict_get s tab_data = Some ledger →
      ledger ≠ [] ∧ NoDup (dict_keys ledger)
      ∧ (length ledger ≤ length liste_fic)%nat.
Proof. apply lire_liste_stations. Qed.
End CollecteurStations.


(** ** The export *)





Section Exportation.
Context {V : Type} (sys : systeme V).
Implicit Types (w : monde V) (tab_data : dict string nat).




End Exportation.


(** ** The aggregation: failures, columns, objects *)

Section PandasEchecs.
Context {V : Type}.
Implicit Types (df acc self other d : DataFrame V).


Lemma reindex_inr df idx df' :
  reindex df idx = inr df' → columns df' = columns df ∧ index df' = idx.
Proof.
  unfold reindex. destruct (decide (index df = idx)) as [Hi|_]; [by intros [= <-]|].
  case_decide; [|done]. intros [= <-]. split; [done|]. apply index_fmap.
Qed.


Lemma update_inr self other df :
  update self other = inr df → columns df = columns self ∧ index df = index self.
Proof.
  unfold update. destruct (reindex other (index self)) as [e'|o] eqn:Hr; [done|].
  intros [= <-]. split; [done|]. apply reindex_inr in Hr as [_ Hi].
  unfold index; simpl. by apply index_zip.
Qed.


Lemma fusion_inr acc d df :
  fusion acc d = inr df →
  columns df = columns acc ∧ index df = index_union (index acc) (index d).
Proof.
  unfold fusion.
  destruct (reindex acc (index_union (index acc) (index d))) as [e'|df1] eqn:Hr; [done|].
  apply reindex_inr in Hr as [Hc Hi]. intros [Hc' Hi']%update_inr. split; congruence.
Qed.



Lemma replier_colonnes (tables : list (DataFrame V)) acc o :
  replier tables (Some acc) = inr o → ∃ dr, o = Some dr ∧ columns dr = columns acc.
Proof.
  revert acc. induction tables as [|d tables IH]; intros acc; simpl.
  - intros [= <-]. by exists acc.
  - destruct (fusion acc d) as [e'|df] eqn:Hf; [done|].
    intros (dr & -> & Hc)%IH. exists dr. split; [done|].
    apply fusion_inr in Hf as [Hc' _]. congruence.
Qed.



Lemma serie_pure_colonnes (h : list (DataFrame V)) ledger dr :
  ledger_valide h ledger →
  serie_pure h ledger = inr (Some dr) →
  ∃ v r d, dict_get v ledger = Some r ∧ h !! r = Some d
    ∧ (∀ v', v' ∈ dict_keys ledger → v ≤ v')
    ∧ columns dr = columns d.
Proof.
  intros Hval. unfold serie_pure.
  pose proof (ledger_valide_dates h ledger Hval) as Hdates.
  assert (StronglySorted Z.le (merge_sort Z.le (dict_keys ledger))) as Hsorted
    by (apply StronglySorted_merge_sort; apply _).
  assert (∀ v', v' ∈ dict_keys ledger → v' ∈ merge_sort Z.le (dict_keys ledger)) as Hin
    by (intros v'; by rewrite merge_sort_Permutation).
  destruct (merge_sort Z.le (dict_keys ledger)) as [|v dates]; [done|].
  apply Forall_cons in Hdates as [(r & Hr & [d Hd]) _].
  rewrite (tables_de_cons _ _ _ _ r d) by done. simpl.
  intros (dr' & [= <-] & Hc)%replier_colonnes.
  exists v, r, d. split_and!; [done|done| |done].
  intros v' [->|Hv']%Hin%elem_of_cons; [lia|].
  apply StronglySorted_inv in Hsorted as [_ Hall].
  rewrite Forall_forall in Hall. by apply Hall.
Qed.
End PandasEchecs.

Section AggregationObjets.
Context {V : Type}.
Implicit Types (w : monde V) (tab_data : dico_donnees) (resultat : dict string nat).


Lemma deref_inr r w (df : DataFrame V) w' :
  deref r w = (inr df, w') → tas w !! r = Some df ∧ w' = w.
Proof. unfold deref. destruct (tas w !! r); [|done]. by intros [= -> ->]. Qed.

Lemma superposer_inr acc data_station w r w' :
  superposer acc data_station w = (inr r, w') →
  r = length (tas w) ∧ length (tas w') = S (length (tas w)).
Proof.
  intros Hrun. pose proof Hrun as H. unfold superposer in H.
  apply bind_inr in H as (a & ? & [Ha ->]%deref_inr & H).
  apply bind_inr in H as (d & ? & [Hd ->]%deref_inr & _).
  pose proof (superposer_run acc data_station w a d Ha Hd) as Hspec.
  destruct (fusion a d) as [e|df].
  - destruct Hspec as [w2 Hspec]. congruence.
  - rewrite Hspec in Hrun. injection Hrun as <- <-. simpl.
    by rewrite length_app, Nat.add_1_r.
Qed.

Lemma aggreger_date_inr tab_data s v resultat w resultat' w' :
  aggreger_date tab_data s v resultat w = (inr resultat', w') →
  (length (tas w) ≤ length (tas w'))%nat
  ∧ match dict_get s resultat with
    | None =>
        ∃ ledger r, dict_get s tab_data = Some ledger ∧ dict_get v ledger = Some r
                    ∧ resultat' = dict_set s r resultat
    | Some _ => resultat' = dict_set s (length (tas w)) resultat
    end.
Proof.
  unfold aggreger_date.
  intros (ledger & ? & [Hl ->]%dict_getitem_inr & H)%bind_inr.
  apply bind_inr in H as (r & ? & [Hr ->]%dict_getitem_inr & H).
  destruct (dict_get s resultat) as [acc|].
  - apply bind_inr in H as (acc' & w1 & [-> Hlen]%superposer_inr & [= <- <-]).
    split; [lia|done].
  - injection H as <- <-. split; [done|]. by exists ledger, r.
Qed.

Lemma aggreger_dates_objet tab_data s dates :
  ∀ resultat w resultat' w',
  for_ dates (aggreger_date tab_data s) resultat w = (inr resultat', w') →
  (length (tas w) ≤ length (tas w'))%nat
  ∧ (∀ s', s' ≠ s → dict_get s' resultat' = dict_get s' resultat)
  ∧ match dates with
    | [] => dict_get s resultat' = dict_get s resultat
    | v :: rest =>
        match dict_get s resultat, rest with
        | None, [] =>
            ∃ ledger, dict_get s tab_data = Some ledger
                      ∧ dict_get s resultat' = dict_get v ledger
        | _, _ => ∃ r, dict_get s resultat' = Some r ∧ (length (tas w) ≤ r)%nat
        end
    end.
Proof.
  induction dates as [|v rest IH]; intros res w res' w'; cbn [for_].
  - by intros [= <- <-].
  - intros (res1 & w1 & [Hlen1 H1]%aggreger_date_inr & (Hlen & Hautres & Hs)%IH)%bind_inr.
    split; [lia|]. split.
    + intros s' Hs'. rewrite Hautres by done.
      destruct (dict_get s res); [subst res1|destruct H1 as (? & ? & _ & _ & ->)];
        by apply dict_get_set_ne.
    + destruct (dict_get s res) as [acc|] eqn:Hacc.
      * subst res1. destruct rest as [|v2 rest].
        -- rewrite Hs, dict_get_set_eq. by eexists.
        -- rewrite dict_get_set_eq in Hs. destruct Hs as (r & ? & ?).
           exists r. split; [done|lia].
      * destruct H1 as (ledger & r & Hl & Hr & ->). destruct rest as [|v2 rest].
        -- exists ledger. split; [done|]. by rewrite Hs, dict_get_set_eq.
        -- rewrite dict_get_set_eq in Hs. destruct Hs as (r' & ? & ?).
           exists r'. split; [done|lia].
Qed.

Lemma aggreger_donnees_objet tab_data w resultat w' :
  NoDup (dict_keys tab_data) →
  aggreger_donnees tab_data w = (inr resultat, w') →
  ∀ s ledger r, dict_get s tab_data = Some ledger → dict_get s resultat = Some r →
    objet_de_la_serie w ledger r.
Proof.
  intros Hnd. unfold aggreger_donnees.
  set (Q := λ (l1 : list string) (res1 : dict string nat) (w1 : monde V),
         (length (tas w) ≤ length (tas w1))%nat
         ∧ (∀ s, s ∉ l1 → dict_get s res1 = None)
         ∧ ∀ s ledger r, dict_get s tab_data = Some ledger → dict_get s res1 = Some r →
             objet_de_la_serie w ledger r).
  intros H. apply (for_prefixe Q) in H as (_ & _ & H); [done| |done].
  clear H. intros l1 s l2 res1 w1 res2 w2 Hl (Hlen & Hnone & Hobj).
  assert (s ∉ l1) as Hnew.
  { rewrite Hl in Hnd. apply NoDup_app in Hnd as (_ & Hnd & _).
    intros Hin. apply (Hnd _ Hin). by left. }
  unfold aggreger_station.
  intros (ledger & ? & [Hledger ->]%dict_getitem_inr
          & (Hlen2 & Hautres & Hs)%aggreger_dates_objet)%bind_inr.
  split; [lia|]. split.
  - intros s' [Hs1 Hs2%not_elem_of_cons]%not_elem_of_app.
    rewrite Hautres by tauto. by apply Hnone.
  - intros s' ledger' r. destruct (decide (s' = s)) as [->|Hne].
    + rewrite Hledger. intros [= <-]. rewrite (Hnone s Hnew) in Hs.
      pose proof (merge_sort_Permutation Z.le (dict_keys ledger)) as Hperm.
      destruct (merge_sort Z.le (dict_keys ledger)) as [|v1 [|v2 dates]] eqn:Hdates.
      * rewrite Hs. done.
      * destruct Hs as (ledger0 & Hl0 & ->). rewrite Hledger in Hl0. injection Hl0 as <-.
        symmetry in Hperm. apply Permutation_singleton_r in Hperm.
        destruct ledger as [|[v r0] [|? ?]]; simplify_eq/=.
        rewrite decide_True by done. by intros [= <-].
      * destruct Hs as (r' & -> & Hr'). intros [= <-].
        apply Permutation_length in Hperm. unfold dict_keys in Hperm.
        rewrite length_fmap in Hperm. unfold objet_de_la_serie.
        destruct ledger as [|[v r0] [|? ?]]; simpl in Hperm; try lia.
    + rewrite Hautres by done. apply Hobj.
Qed.


(** X14. The columns of a series are those of the oldest extract of the
    station, the one recorded under the smallest date: [reindex] and
    [update] keep the columns of the accumulator, so a column that only
    a later extract has never enters the series. *)
Theorem aggreger_donnees_colonnes w tab_data resultat w' :
  tab_valide w tab_data →
  aggreger_donnees tab_data w = (inr resultat, w') →
  ∀ s dr, serie w' resultat s = Some dr →
    ∃ v d, extrait w tab_data s v = Some d
      ∧ (∀ v' d', extrait w tab_data s v' = Some d' → v ≤ v')
      ∧ columns dr = columns d.
Proof.
  intros Hval Hrun s dr Hdr.
  destruct (aggreger_donnees_run tab_data w Hval) as (out & w2 & Hrun2 & Hsound & _).
  rewrite Hrun in Hrun2. injection Hrun2 as <- <-.
  destruct (Hsound _ eq_refl) as (_ & _ & Hseries & Hnone & _).
  destruct (dict_get s tab_data) as [ledger|] eqn:Hl.
  - specialize (Hseries _ _ Hl). rewrite Hdr in Hseries.
    assert (ledger_valide (tas w) ledger) as Hlv
      by apply (dict_get_Forall (ledger_valide (tas w)) _ _ _ (proj2 Hval) Hl).
    apply serie_pure_colonnes in Hseries as (v & r & d & Hv & Hr & Hmin & Hc); [|done].
    exists v, d. split_and!; [|  |done].
    + apply extrait_Some. by exists ledger, r.
    + intros v' d' (ledger' & r' & Hl' & Hv' & _)%extrait_Some.
      rewrite Hl in Hl'. injection Hl' as <-. apply Hmin, dict_keys_get. by rewrite Hv'.
  - unfold serie in Hdr. by rewrite (Hnone _ Hl) in Hdr.
Qed.

(** X15. The object that holds a series.  [aggreger_donnees] prints,
    reads and writes nothing.  For a station with one extract it returns
    the very object of the extract (line 242 binds it, no copy is made);
    for a station with several extracts it returns an object created
    during the call. *)
Theorem aggreger_donnees_objets w tab_data resultat w' :
  tab_valide w tab_data →
  aggreger_donnees tab_data w = (inr resultat, w') →
  sortie w' = sortie w ∧ lus w' = lus w ∧ ecrits w' = ecrits w
  ∧ ∀ s ledger r, dict_get s tab_data = Some ledger → dict_get s resultat = Some r →
      objet_de_la_serie w ledger r.
Proof.
  intros Hval Hrun.
  destruct (aggreger_donnees_run tab_data w Hval) as (out & w2 & Hrun2 & Hsound & _).
  rewrite Hrun in Hrun2. injection Hrun2 as <- <-.
  destruct (Hsound _ eq_refl) as ((_ & ? & ? & ?) & _).
  split_and!; try done. eapply aggreger_donnees_objet; [apply Hval|done].
Qed.

End AggregationObjets.


(** ** The whole run: what fails writes nothing *)

Section SansEcriture.
Context {V : Type} (sys : systeme V).
Implicit Types (w : monde V).

Lemma sans_ecriture_ret {A} (a : A) : sans_ecriture (V := V) (ret a).
Proof. by intros w out w' [= <- <-]. Qed.

Lemma sans_ecriture_raise {A} e : sans_ecriture (V := V) (A := A) (raise e).
Proof. by intros w out w' [= <- <-]. Qed.

Lemma sans_ecriture_lift {A} (r : resultat_ou_erreur A) : sans_ecriture (V := V) (lift r).
Proof. destruct r; [apply sans_ecriture_raise|apply sans_ecriture_ret]. Qed.

Lemma sans_ecriture_print m : sans_ecriture (V := V) (print m).
Proof. by intros w out w' [= <- <-]. Qed.

Lemma sans_ecriture_alloc (df : DataFrame V) : sans_ecriture (alloc df).
Proof. by intros w out w' [= <- <-]. Qed.

Lemma sans_ecriture_deref r : sans_ecriture (V := V) (deref r).
Proof. intros w out w'. unfold deref. by destruct (tas w !! r); intros [= <- <-]. Qed.

Lemma sans_ecriture_store r (df : DataFrame V) : sans_ecriture (store r df).
Proof. by intros w out w' [= <- <-]. Qed.

Lemma sans_ecriture_noter_lecture fic onglet :
  sans_ecriture (V := V) (noter_lecture fic onglet).
Proof. by intros w out w' [= <- <-]. Qed.

Lemma sans_ecriture_dict_getitem {K A} `{EqDecision K} (d : dict K A) k :
  sans_ecriture (V := V) (dict_getitem d k).
Proof.
  unfold dict_getitem. destruct (dict_get k d);
    [apply sans_ecriture_ret|apply sans_ecriture_raise].
Qed.

Lemma sans_ecriture_bind {A B} (m : M V A) (k : A → M V B) :
  sans_ecriture m → (∀ a, sans_ecriture (k a)) → sans_ecriture (bind m k).
Proof.
  intros Hm Hk w out w'. unfold bind.
  destruct (m w) as [[e|a] w1] eqn:H1.
  - intros [= <- <-]. by eapply Hm.
  - intros H2. apply Hk in H2. apply Hm in H1. congruence.
Qed.

Lemma sans_ecriture_for {A S} (l : list A) (body : A → S → M V S) s :
  (∀ x s, sans_ecriture (body x s)) → sans_ecriture (for_ l body s).
Proof.
  intros Hbody. revert s. induction l as [|x l IH]; intros s; cbn [for_].
  - apply sans_ecriture_ret.
  - apply sans_ecriture_bind; [apply Hbody|apply IH].
Qed.

Create HintDb ecriture.

#[local] Hint Resolve sans_ecriture_ret sans_ecriture_raise sans_ecriture_lift
  sans_ecriture_print sans_ecriture_alloc sans_ecriture_deref sans_ecriture_store
  sans_ecriture_noter_lecture sans_ecriture_dict_getitem : ecriture.

Ltac sans_ecriture :=
  repeat first
    [ progress eauto with ecriture
    | apply sans_ecriture_bind; [|intros ?]
    | apply sans_ecriture_for; intros ? ? ].

Lemma sans_ecriture_lire_fic format_donnees fic dico_param :
  sans_ecriture (lire_fic sys format_donnees fic dico_param).
Proof.
  unfold lire_fic, lire_fic_salleles, lire_fic_poste_central.
  repeat case_decide; sans_ecriture.
Qed.

Lemma sans_ecriture_integrer_fichier fic dico_data tab_data :
  sans_ecriture (V := V) (integrer_fichier fic dico_data tab_data).
Proof.
  unfold integrer_fichier, ajouter_station. sans_ecriture.
  unfold ajouter_serie. case_match; sans_ecriture.
Qed.

#[local] Hint Resolve sans_ecriture_lire_fic sans_ecriture_integrer_fichier : ecriture.




(** X18. A format that bears the name of one of the three fixed keys
    makes every run fail: [get_params] stores the extraction dict under
    the name of the format and loses the string of that key (line 46), so
    that [main] passes a dict where a string is wanted, or reads files
    under a format that is none of the two.  Nothing is read or
    written. *)
Theorem main_format_homonyme (argv0 inputfile f : string) w :
  config_get (config_read sys inputfile) "params" "FORMAT_DONNEES" = inr f →
  strip f ∈ ["FORMAT_DONNEES"; "FICHIERS_INPUT"; "RESULTATS"] →
  ∃ e w', main sys [argv0; inputfile] w = (inl e, w')
    ∧ lus w' = lus w ∧ ecrits w' = ecrits w.
Proof.
  intros Hf HF. unfold main, bind at 1 2, print, lift.
  destruct (get_params (config_read sys inputfile)) as [e|params] eqn:Hparams.
  { by do 2 eexists. }
  apply get_params_inr in Hparams as (f' & fi & r & d & Hf' & _ & _ & _ & Hp).
  rewrite Hf in Hf'. injection Hf' as <-.
  set (F := strip f) in *. clearbody F.
  assert (HpF : dict_get "FORMAT_DONNEES" params
                = Some (if decide (F = "FORMAT_DONNEES") then PDict d else PStr F)).
  { rewrite Hp, get_params_lookup. by destruct (decide (F = "FORMAT_DONNEES")). }
  assert (HpI : dict_get "FICHIERS_INPUT" params
                = Some (if decide (F = "FICHIERS_INPUT") then PDict d else PStr fi)).
  { rewrite Hp, get_params_lookup. by destruct (decide (F = "FICHIERS_INPUT")). }
  assert (HpR : dict_get "RESULTATS" params
                = Some (if decide (F = "RESULTATS") then PDict d else PStr r)).
  { rewrite Hp, get_params_lookup. by destruct (decide (F = "RESULTATS")). }
  assert (Hpd : dict_get F params = Some (PDict d)).
  { by rewrite Hp, dict_get_set_eq. }
  clear Hp. unfold bind, dict_getitem. simpl. rewrite HpF, HpI, HpR. simpl.
  destruct (decide (F = "FORMAT_DONNEES")) as [HF1|HF1]; simpl.
  { by do 2 eexists. }
  rewrite Hpd; simpl.
  destruct (decide (F = "FICHIERS_INPUT")) as [HF2|HF2]; simpl.
  { by do 2 eexists. }
  assert (F = "RESULTATS") as HF3.
  { rewrite !elem_of_cons in HF. destruct HF as [?|[?|[?|?%elem_of_nil]]]; done. }
  destruct (glob sys fi) as [|fic liste_fic].
  - unfold lire_liste_fichiers; simpl. rewrite decide_True by done. by do 2 eexists.
  - rewrite lire_liste_fichiers_format_inconnu by (by rewrite HF3).
    by do 2 eexists.
Qed.
End SansEcriture.


(** ** The whole run: from the files to the exports *)


Section Run.
Context {V : Type} (sys : systeme V).
Implicit Types (w : monde V).

Lemma bind_run {A B} (m : M V A) (k : A → M V B) w a w1 :
  m w = (inr a, w1) → bind m k w = k a w1.
Proof. intros H. unfold bind. by rewrite H. Qed.



End Run.


(** ** The failures of [get_params] and of the collector *)



Section PremierEchec.
Context {V : Type} (sys : systeme V).
Implicit Types (w : monde V).

Lemma for_app_inr {A S} (l1 l2 : list A) (body : A → S → M V S) s w s1 w1 :
  for_ l1 body s w = (inr s1, w1) →
  for_ (l1 ++ l2) body s w = for_ l2 body s1 w1.
Proof.
  revert s w. induction l1 as [|x l1 IH]; intros s w; cbn [for_ app].
  - by intros [= <- <-].
  - intros (s2 & w2 & H1 & H2)%bind_inr. rewrite (bind_run _ _ _ _ _ H1). by apply IH.
Qed.

(** X21. The first file that cannot be read ends the collection.  When
    the files before it can be read and reading it alone raises [e], the
    collector raises [e]: it returns no ledger, the sheets it opened are
    those of the files before, then those the failing reader opened
    before it failed; the files after are never opened, and nothing is
    written. *)
Theorem lire_liste_fichiers_premier_echec l1 fic l2 dico_param format_donnees
    w e w0 :
  (∀ f, f ∈ l1 →
     ∃ d1 w1, lire_fic sys format_donnees f dico_param monde_initial = (inr d1, w1)) →
  lire_fic sys format_donnees fic dico_param monde_initial = (inl e, w0) →
  ∃ w',
    lire_liste_fichiers sys (l1 ++ fic :: l2) dico_param format_donnees w = (inl e, w')
    ∧ lus w' = lus w ++ (l1 ≫= feuilles_lues format_donnees dico_param) ++ lus w0
    ∧ ecrits w' = ecrits w.
Proof.
  intros Hl1 Hfic. unfold lire_liste_fichiers.
  assert (Hr0 : refs_valides w []) by done.
  assert (Hv0 : dico_valide []) by (split; constructor).
  destruct (lire_liste_run sys dico_param format_donnees l1 [] w Hr0 Hv0)
    as (out & w1 & Hrun1 & Hok & _).
  destruct (Hok Hl1) as (tab1 & -> & _ & _ & _ & _ & _). clear Hok.
  destruct (lire_liste_journal sys _ _ _ _ _ _ Hrun1) as (Hlus1 & _ & He1).
  rewrite (for_app_inr _ _ _ _ _ _ _ Hrun1). cbn [for_].
  unfold bind at 1, lire_un_fichier at 1, bind at 1, print at 1. cbv beta iota.
  set (wp := mkMonde (tas w1) (sortie w1 ++ [MsgLecture fic]) (lus w1) (ecrits w1)).
  pose proof (lire_fic_decale sys format_donnees fic dico_param wp monde_initial) as Hdec.
  rewrite joindre_initial, Hfic in Hdec. unfold bind at 1. rewrite Hdec.
  eexists. split; [done|]. simpl.
  pose proof (sans_ecriture_lire_fic sys _ _ _ _ _ _ Hfic) as He0. simpl in He0.
  split.
  - by rewrite Hlus1, <- (assoc_L (++)).
  - by rewrite He0, app_nil_r.
Qed.
End PremierEchec.


(** ** Witnesses of the further properties *)


Lemma lire_fic_salleles_echecs_witness :
  lire_fic_salleles sys_cesse "Z.xlsx" dico_param_debit_cote monde_initial
  = (inl (ErreurLecture "Z.xlsx" "Cesse"), mkMonde [] [] [("Z.xlsx", "Cesse")] [])
  ∧ lecture_sans_effet (V := Z) monde_initial (mkMonde [] [] [("Z.xlsx", "Cesse")] []).
Proof.
  assert (H1 : lire_fic_salleles sys_cesse "Z.xlsx" dico_param_debit_cote monde_initial
               = (inl (ErreurLecture "Z.xlsx" "Cesse"),
                  mkMonde [] [] [("Z.xlsx", "Cesse")] [])) by reflexivity.
  split; [done|]. by destruct (lire_fic_salleles_echecs sys_cesse _ _ _ _ _ H1).
Defined.


Lemma lire_fic_poste_central_echecs_witness :
  lire_fic_poste_central sys_poste "Q.xlsx" dico_param_poste monde_initial
  = (inl (ErreurLecture "Q.xlsx" "DATA"), mkMonde [] [] [("Q.xlsx", "DATA")] [])
  ∧ read_excel_DATA sys_poste "Q.xlsx" = inl (ErreurLecture "Q.xlsx" "DATA")
  ∧ lecture_sans_effet (V := Z) monde_initial (mkMonde [] [] [("Q.xlsx", "DATA")] []).
Proof.
  assert (H1 : lire_fic_poste_central sys_poste "Q.xlsx" dico_param_poste monde_initial
               = (inl (ErreurLecture "Q.xlsx" "DATA"),
                  mkMonde [] [] [("Q.xlsx", "DATA")] [])) by reflexivity.
  split_and!; [done..|]. by destruct (lire_fic_poste_central_echecs sys_poste _ _ _ _ _ H1).
Defined.

Lemma lire_liste_fichiers_journal_witness :
  ∃ tab_data w',
    lire_liste_fichiers sys_cesse ["Y.xlsx"; "X.xlsx"] dico_param_debit_cote "SALLELES"
      monde_initial = (inr tab_data, w')
    ∧ lus w' = [("Y.xlsx", "Cesse"); ("X.xlsx", "Cesse")]
    ∧ ecrits w' = [].
Proof.
  destruct (lire_liste_fichiers sys_cesse ["Y.xlsx"; "X.xlsx"] dico_param_debit_cote
              "SALLELES" monde_initial) as [[e|tab_data] w'] eqn:Hrun;
    [by vm_compute in Hrun|].
  destruct (lire_liste_fichiers_journal sys_cesse _ _ _ _ _ _ Hrun) as (Hl & _ & He).
  by exists tab_data, w'.
Defined.


Lemma lire_liste_fichiers_stations_witness :
  NoDup (dict_keys dico_param_debit_cote)
  ∧ ∃ tab_data w',
      lire_liste_fichiers sys_cesse ["Y.xlsx"; "X.xlsx"] dico_param_debit_cote "SALLELES"
        monde_initial = (inr tab_data, w')
      ∧ dict_keys tab_data = ["Cesse"].
Proof.
  assert (H1 : NoDup (dict_keys dico_param_debit_cote)) by apply NoDup_singleton.
  split; [done|].
  destruct (lire_liste_fichiers sys_cesse ["Y.xlsx"; "X.xlsx"] dico_param_debit_cote
              "SALLELES" monde_initial) as [[e|tab_data] w'] eqn:Hrun;
    [by vm_compute in Hrun|].
  destruct (lire_liste_fichiers_stations sys_cesse _ _ _ _ _ _ H1 Hrun) as [Hk _].
  by exists tab_data, w'.
Defined.






Lemma aggreger_donnees_colonnes_witness :
  tab_valide monde_cesse tab_cesse
  ∧ ∃ resultat w', aggreger_donnees tab_cesse monde_cesse = (inr resultat, w')
      ∧ ∃ dr, serie w' resultat "Cesse" = Some dr ∧ columns dr = ["debit"; "cote"].
Proof.
  split; [compute_done|].
  destruct (aggreger_donnees tab_cesse monde_cesse) as [[e|resultat] w'] eqn:Hrun;
    [by vm_compute in Hrun|].
  exists resultat, w'. split; [done|].
  destruct (serie w' resultat "Cesse") as [dr|] eqn:Hdr;
    [|by vm_compute in Hrun; injection Hrun as <- <-].
  exists dr. split; [done|].
  destruct (aggreger_donnees_colonnes monde_cesse tab_cesse resultat w')
    with (s := "Cesse") (dr := dr) as (v & d & Hx & _ & ->); [compute_done|done|done|].
  by destruct (extrait_cesse _ _ Hx) as [[_ ->]|[_ ->]].
Defined.

Lemma aggreger_donnees_objets_witness :
  tab_valide monde_cesse tab_cesse
  ∧ ∃ resultat w', aggreger_donnees tab_cesse monde_cesse = (inr resultat, w')
      ∧ sortie w' = [] ∧ ecrits w' = []
      ∧ ∀ r, dict_get "Cesse" resultat = Some r → (2 ≤ r)%nat.
Proof.
  split; [compute_done|].
  destruct (aggreger_donnees tab_cesse monde_cesse) as [[e|resultat] w'] eqn:Hrun;
    [by vm_compute in Hrun|].
  destruct (aggreger_donnees_objets monde_cesse tab_cesse resultat w')
    as (Hs & _ & He & Hobj); [compute_done|done|].
  exists resultat, w'. split_and!; [done..|].
  intros r Hr. apply (Hobj "Cesse" _ r eq_refl Hr).
Defined.



Lemma main_format_homonyme_witness :
  config_get (config_read sys_homonyme "params.ini") "params" "FORMAT_DONNEES"
  = inr "RESULTATS"
  ∧ strip "RESULTATS" ∈ ["FORMAT_DONNEES"; "FICHIERS_INPUT"; "RESULTATS"]
  ∧ ∃ e w', main sys_homonyme ["lire_donnees_excel.py"; "params.ini"] monde_initial
            = (inl e, w')
            ∧ lus w' = [] ∧ ecrits w' = [].
Proof.
  assert (H2 : strip "RESULTATS" ∈ ["FORMAT_DONNEES"; "FICHIERS_INPUT"; "RESULTATS"]).
  { right. right. left. }
  split_and!; [reflexivity|done|].
  destruct (main_format_homonyme sys_homonyme "lire_donnees_excel.py" "params.ini"
              "RESULTATS" monde_initial eq_refl H2) as (e & w' & ? & ? & ?).
  by exists e, w'.
Defined.



Lemma lire_liste_fichiers_premier_echec_witness :
  (∀ f, f ∈ ["Y.xlsx"] →
     ∃ d1 w1, lire_fic sys_cesse "SALLELES" f dico_param_debit_cote monde_initial
              = (inr d1, w1))
  ∧ lire_fic sys_cesse "SALLELES" "Z.xlsx" dico_param_debit_cote monde_initial
    = (inl (ErreurLecture "Z.xlsx" "Cesse"), mkMonde [] [] [("Z.xlsx", "Cesse")] [])
  ∧ ∃ w', lire_liste_fichiers sys_cesse ["Y.xlsx"; "Z.xlsx"; "X.xlsx"]
            dico_param_debit_cote "SALLELES" monde_initial
          = (inl (ErreurLecture "Z.xlsx" "Cesse"), w')
          ∧ lus w' = [("Y.xlsx", "Cesse"); ("Z.xlsx", "Cesse")].
Proof.
  assert (H1 : ∀ f, f ∈ ["Y.xlsx"] →
            ∃ d1 w1, lire_fic sys_cesse "SALLELES" f dico_param_debit_cote monde_initial
                     = (inr d1, w1)).
  { intros f ->%list_elem_of_singleton. by eexists _, _. }
  assert (H2 : lire_fic sys_cesse "SALLELES" "Z.xlsx" dico_param_debit_cote monde_initial
               = (inl (ErreurLecture "Z.xlsx" "Cesse"),
                  mkMonde [] [] [("Z.xlsx", "Cesse")] [])) by reflexivity.
  split_and!; [done..|].
  destruct (lire_liste_fichiers_premier_echec sys_cesse ["Y.xlsx"] "Z.xlsx" ["X.xlsx"]
              dico_param_debit_cote "SALLELES" monde_initial _ _ H1 H2)
    as (w' & Hrun & Hl & _).
  exists w'. split; [done|]. by rewrite Hl.
Defined.
